(** * Memphis control plane: producers, schemas and the station overview

    A shallow embedding of the producer lifecycle
    ([createProducerDirect], [destroyProducerDirect], [KillProducers],
    [ReliveProducers], [GetProducersByStation]), of the schema handlers
    ([CreateNewSchema], [CreateNewVersion], [RollBackVersion],
    [ValidateSchema]) and of [getStationOverviewData]; then of the
    producers' REST listing, of the schema reads and of [RemoveSchema], of
    the page shift and [ProcUsage] of the FreeBSD process usage, and of the
    ticker of the socket server.

    Conventions of the embedding.
    - A Go [string] is a sequence of bytes: Rocq's [string]; [len] is
      [String.length].
    - A Go [error] is [option string] ([None] is [nil]); a Go function
      returning [(value, error)] returns a [result].
    - A MongoDB collection is the list of its documents in natural order; the
      driver's calls are functions on that list (module [Mongo]).  A call that
      the driver fails (network, cancelled context) leaves the collection as
      it is; whether it fails is an input of each handler.
    - Code of the repository that is not part of the sources read here
      ([IsStationExist], [IsSchemaExist], [validateName], ...) is not invented:
      its answer is an input of the handler that calls it.
    - Logging ([serv.Warnf], ...), audit-log records and analytics counters
      touch none of the collections modelled and are left out.
    - Each driver call is one atomic step on the store.  A handler that makes
      several is not atomic as a whole: what another request does in between
      shows as a helper's answer that the store no longer agrees with. *)

From Stdlib Require Import String Ascii List ZArith NArith Bool Lia.
From Stdlib Require Import Permutation Sorted.
From Stdlib Require Strings.Byte.
Import ListNotations.

Local Open Scope string_scope.
Local Open Scope list_scope.
Local Open Scope Z_scope.

(** ** Go values *)

(** [primitive.ObjectID]: twelve bytes, compared for equality only. *)
Definition ObjectID : Type := N.

Definition NilObjectID : ObjectID := 0%N.

(** [time.Time] as an instant; [t.Before(u)]. *)
Definition Time : Type := Z.

Definition Before (t u : Time) : bool := t <? u.

Definition error : Type := option string.

Inductive result (A : Type) : Type :=
| Ok (a : A)
| Err (e : string).

Arguments Ok {A} a.
Arguments Err {A} e.

(** Go's [int] on amd64: 64 bits, two's complement. *)
Definition int_min : Z := - 2 ^ 63.

Definition int_max : Z := 2 ^ 63 - 1.

Definition int_wrap (z : Z) : Z := (z + 2 ^ 63) mod 2 ^ 64 - 2 ^ 63.

Definition int_add (a b : Z) : Z := int_wrap (a + b).

(** ** Documents ([models]) *)

Module Connection.
Record t : Type := mk
  { ID : ObjectID;
    CreatedByUser : string;
    IsActive : bool;
    ClientAddress : string }.
End Connection.

Module Factory.
Record t : Type := mk
  { ID : ObjectID;
    Name : string }.
End Factory.

Module Station.
Record t : Type := mk
  { ID : ObjectID;
    Name : string;
    FactoryId : ObjectID;
    IsDeleted : bool }.
(** The zero value, what a lookup that found nothing decodes into. *)
Definition zero : t := mk NilObjectID "" NilObjectID false.
End Station.

Module Producer.
Record t : Type := mk
  { ID : ObjectID;
    Name : string;
    StationId : ObjectID;
    FactoryId : ObjectID;
    Type_ : string;
    ConnectionId : ObjectID;
    CreatedByUser : string;
    IsActive : bool;
    CreationDate : Time;
    IsDeleted : bool }.
(** [{"$set": {"is_active": a}}] *)
Definition set_is_active (a : bool) (p : t) : t :=
  mk (ID p) (Name p) (StationId p) (FactoryId p) (Type_ p) (ConnectionId p)
     (CreatedByUser p) a (CreationDate p) (IsDeleted p).
(** [{"$set": {"is_active": a, "is_deleted": d}}] *)
Definition set_is_active_is_deleted (a d : bool) (p : t) : t :=
  mk (ID p) (Name p) (StationId p) (FactoryId p) (Type_ p) (ConnectionId p)
     (CreatedByUser p) a (CreationDate p) d.
End Producer.

Module ExtendedProducer.
Record t : Type := mk
  { ID : ObjectID;
    Name : string;
    Type_ : string;
    ConnectionId : ObjectID;
    CreatedByUser : string;
    CreationDate : Time;
    IsActive : bool;
    IsDeleted : bool;
    StationName : string;
    FactoryName : string;
    ClientAddress : string }.
End ExtendedProducer.

Module Schema.
Record t : Type := mk
  { ID : ObjectID;
    Name : string;
    Type_ : string }.
Definition zero : t := mk NilObjectID "" "".
End Schema.

Module SchemaVersion.
Record t : Type := mk
  { ID : ObjectID;
    VersionNumber : Z;
    Active : bool;
    CreatedByUser : string;
    CreationDate : Time;
    SchemaContent : string;
    SchemaId : ObjectID;
    MessageStructName : string }.
(** [{"$set": {"active": a}}] *)
Definition set_active (a : bool) (v : t) : t :=
  mk (ID v) (VersionNumber v) a (CreatedByUser v) (CreationDate v)
     (SchemaContent v) (SchemaId v) (MessageStructName v).
End SchemaVersion.

Module ExtendedSchemaDetails.
Record t : Type := mk
  { ID : ObjectID;
    SchemaName : string;
    Type_ : string;
    Versions : list SchemaVersion.t;
    UsedStations : list string;
    Tags : list string }.
End ExtendedSchemaDetails.

Module User.
Record t : Type := mk
  { Username : string }.
End User.

(** ** The driver's calls on one collection *)

Module Mongo.

Record UpdateResult : Type := mkUpdateResult
  { MatchedCount : Z;
    ModifiedCount : Z;
    UpsertedCount : Z }.

Section Collection.

Context {Doc : Type}.

Definition InsertOne (d : Doc) (c : list Doc) : list Doc := c ++ [d].

Definition Find (f : Doc -> bool) (c : list Doc) : list Doc := filter f c.

Definition FindOne (f : Doc -> bool) (c : list Doc) : option Doc := find f c.

Definition CountDocuments (f : Doc -> bool) (c : list Doc) : Z :=
  Z.of_nat (length (filter f c)).

(** Every document the filter matches is updated. *)
Definition UpdateMany (f : Doc -> bool) (set : Doc -> Doc) (c : list Doc)
  : list Doc :=
  map (fun d => if f d then set d else d) c.

(** The first document the filter matches is updated. *)
Fixpoint UpdateOne (f : Doc -> bool) (set : Doc -> Doc) (c : list Doc)
  : list Doc :=
  match c with
  | [] => []
  | d :: c' => if f d then set d :: c' else d :: UpdateOne f set c'
  end.

(** [UpdateOne] with [SetUpsert(true)] and an update made of [$setOnInsert]
    only: a matched document is left as it is; when none matches, the
    document made of the filter's fields and of the [$setOnInsert] fields
    ([onInsert]) is inserted. *)
Definition UpdateOne_upsert (f : Doc -> bool) (onInsert : Doc) (c : list Doc)
  : list Doc * UpdateResult :=
  match find f c with
  | Some _ => (c, mkUpdateResult 1 0 0)
  | None => (c ++ [onInsert], mkUpdateResult 0 0 1)
  end.

(** [FindOneAndUpdate(...).Decode(&d)]: the prior document, or [None] for
    [mongo.ErrNoDocuments]. *)
Definition FindOneAndUpdate (f : Doc -> bool) (set : Doc -> Doc) (c : list Doc)
  : option Doc * list Doc :=
  match find f c with
  | Some d => (Some d, UpdateOne f set c)
  | None => (None, c)
  end.

End Collection.

End Mongo.

(** ** The store and the journal of its write calls *)

Record Store : Type := mkStore
  { producersCollection : list Producer.t;
    stationsCollection : list Station.t;
    factoriesCollection : list Factory.t;
    connectionsCollection : list Connection.t;
    schemasCollection : list Schema.t;
    schemaVersionCollection : list SchemaVersion.t }.

Definition set_producers (c : list Producer.t) (s : Store) : Store :=
  mkStore c (stationsCollection s) (factoriesCollection s)
          (connectionsCollection s) (schemasCollection s)
          (schemaVersionCollection s).

Definition set_schemas (c : list Schema.t) (s : Store) : Store :=
  mkStore (producersCollection s) (stationsCollection s)
          (factoriesCollection s) (connectionsCollection s) c
          (schemaVersionCollection s).

Definition set_schemaVersions (c : list SchemaVersion.t) (s : Store) : Store :=
  mkStore (producersCollection s) (stationsCollection s)
          (factoriesCollection s) (connectionsCollection s)
          (schemasCollection s) c.

(** One entry per write call that reached the producers, the schemas or the
    schema versions, oldest first.  What code outside these sources writes
    elsewhere (a station created by default, tags, audit logs) is not
    entered. *)
Inductive Write : Type :=
| producers_InsertOne (p : Producer.t)
| producers_FindOneAndUpdate (name : string) (station : ObjectID)
    (prior : option Producer.t)
| producers_UpdateMany_inactive (connection : ObjectID)
| producers_UpdateMany_active (connection : ObjectID)
| schemas_UpdateOne_upsert (s : Schema.t) (r : Mongo.UpdateResult)
| schemaVersions_InsertOne (v : SchemaVersion.t)
| schemaVersions_UpdateOne_upsert (v : SchemaVersion.t) (r : Mongo.UpdateResult)
| schemaVersions_UpdateMany_inactive (schema : ObjectID)
| schemaVersions_UpdateOne_active (schema : ObjectID) (version : Z).

Record World : Type := mkWorld
  { store : Store;
    journal : list Write }.

Definition empty_store : Store := mkStore [] [] [] [] [] [].

Definition empty_world : World := mkWorld empty_store [].

(** ** Handlers: state passing with an early exit

    [M E A]: a computation on the world that either leaves early with an [E]
    (a Go [return err], or a gin [AbortWithStatusJSON] followed by [return])
    or goes on with an [A]. *)

Definition M (E A : Type) : Type := World -> World * (E + A).

Definition ret {E A : Type} (a : A) : M E A := fun w => (w, inr a).

Definition leave {E A : Type} (e : E) : M E A := fun w => (w, inl e).

Definition bind {E A B : Type} (m : M E A) (k : A -> M E B) : M E B :=
  fun w =>
    match m w with
    | (w', inl e) => (w', inl e)
    | (w', inr a) => k a w'
    end.

Notation "x <- m ;; k" := (bind m (fun x => k))
  (at level 61, m at next level, right associativity).

Notation "' pat <- m ;; k" := (bind m (fun x => match x with pat => k end))
  (at level 61, pat pattern, m at next level, right associativity).

Notation "m ;; k" := (bind m (fun _ => k))
  (at level 61, right associativity).

(** [if err != nil { return f(err) }] on a validator's verdict. *)
Definition guard {E : Type} (verdict : error) (f : string -> E) : M E unit :=
  match verdict with
  | Some e => leave (f e)
  | None => ret tt
  end.

(** [v, err := helper(...); if err != nil { return f(err) }] *)
Definition try {E A : Type} (answer : result A) (f : string -> E) : M E A :=
  match answer with
  | Ok a => ret a
  | Err e => leave (f e)
  end.

(** [if b { return e }] *)
Definition leave_if {E : Type} (b : bool) (e : E) : M E unit :=
  if b then leave e else ret tt.

(** A write call: the driver fails it ([Some e], the store is not touched) or
    it runs, changes the store and is entered in the journal. *)
Definition write {E A : Type} (driver : error) (f : string -> E)
  (run : Store -> Store * A) (entry : A -> Write) : M E A :=
  fun w =>
    match driver with
    | Some e => (w, inl (f e))
    | None =>
        let (s', a) := run (store w) in
        (mkWorld s' (journal w ++ [entry a]), inr a)
    end.

(** ** The station overview served on the socket: its data

    [models.ExtendedConsumer] and [models.AuditLog] are carried and never
    inspected by the code modelled: the types are left open. *)

(** A slice as a Go function hands it back: [nil], or a slice that is not
    [nil] with its elements, none for an empty one.  [encoding/json], which
    the socket server sends the data with, writes the first as [null] and
    the second as an array. *)
Inductive Slice (A : Type) : Type :=
| Nil
| NonNil (elements : list A).

Arguments Nil {A}.
Arguments NonNil {A} elements.

Record stationOverviewData (ExtendedConsumer AuditLog : Type) : Type :=
  mkStationOverviewData
  { Producers : Slice ExtendedProducer.t;
    Consumers : Slice ExtendedConsumer;
    TotalMessages : Z;
    AvgMsgSize : Z;
    AuditLogs : Slice AuditLog }.

Arguments mkStationOverviewData {ExtendedConsumer AuditLog}.

(** [stationOverviewData{}]: the three slices are [nil]. *)
Definition stationOverviewData_zero {ExtendedConsumer AuditLog : Type}
  : stationOverviewData ExtendedConsumer AuditLog :=
  mkStationOverviewData Nil Nil 0 0 Nil.

(** The handlers' answers to [getStationOverviewData]. *)
Record OverviewEnv (ExtendedConsumer AuditLog : Type) : Type := mkOverviewEnv
  { ov_IsStationExist : string -> result (bool * Station.t);
    ov_GetProducersByStation : Station.t -> result (Slice ExtendedProducer.t);
    ov_GetConsumersByStation : Station.t -> result (Slice ExtendedConsumer);
    ov_GetAuditLogsByStation : Station.t -> result (Slice AuditLog);
    ov_GetTotalMessages : Station.t -> result Z;
    ov_GetAvgMsgSize : Station.t -> result Z }.

Arguments mkOverviewEnv {ExtendedConsumer AuditLog}.
Arguments ov_IsStationExist {ExtendedConsumer AuditLog}.
Arguments ov_GetProducersByStation {ExtendedConsumer AuditLog}.
Arguments ov_GetConsumersByStation {ExtendedConsumer AuditLog}.
Arguments ov_GetAuditLogsByStation {ExtendedConsumer AuditLog}.
Arguments ov_GetTotalMessages {ExtendedConsumer AuditLog}.
Arguments ov_GetAvgMsgSize {ExtendedConsumer AuditLog}.

(** What the socket server is told to do. *)
Inductive SocketAction (ExtendedConsumer AuditLog : Type) : Type :=
| LeaveAll
| LogError (message : string)
| Emit (event : string) (data : stationOverviewData ExtendedConsumer AuditLog)
| Join (room : string).

Arguments LeaveAll {ExtendedConsumer AuditLog}.
Arguments LogError {ExtendedConsumer AuditLog}.
Arguments Emit {ExtendedConsumer AuditLog}.
Arguments Join {ExtendedConsumer AuditLog}.

(** What the ticker of the socket server is given and what it does.
    [FactoryDetails] is the [map[string]interface{}] of
    [GetFactoryDetails], carried and never inspected. *)
Record TickEnv (ExtendedConsumer AuditLog FactoryDetails : Type) : Type :=
  mkTickEnv
  { tk_overview : OverviewEnv ExtendedConsumer AuditLog;
    tk_GetFactoryDetails : string -> FactoryDetails * error;
    tk_RoomLen : string -> Z }.

Arguments mkTickEnv {ExtendedConsumer AuditLog FactoryDetails}.
Arguments tk_overview {ExtendedConsumer AuditLog FactoryDetails}.
Arguments tk_GetFactoryDetails {ExtendedConsumer AuditLog FactoryDetails}.
Arguments tk_RoomLen {ExtendedConsumer AuditLog FactoryDetails}.

Inductive TickAction (ExtendedConsumer AuditLog FactoryDetails : Type)
  : Type :=
| logger_Error (message : string)
| BroadcastToRoom_station (room event : string)
    (data : stationOverviewData ExtendedConsumer AuditLog)
| BroadcastToRoom_factory (room event : string) (data : FactoryDetails).

Arguments logger_Error {ExtendedConsumer AuditLog FactoryDetails}.
Arguments BroadcastToRoom_station {ExtendedConsumer AuditLog FactoryDetails}.
Arguments BroadcastToRoom_factory {ExtendedConsumer AuditLog FactoryDetails}.

Section Memphis.

#[local] Set Default Proof Using "Type".

(** ** What the sources read here leave to their environment *)

(** [configuration.SHOWABLE_ERROR_STATUS_CODE]. *)
Variable SHOWABLE_ERROR_STATUS_CODE : Z.

(** [validateName(name, objectName)], shared by the named objects. *)
Variable validateName : string -> string -> error.

(** [protoparse.Parser.ParseFiles] on a parser whose accessor serves the
    given content under every file name: [None] when it parses, the parser's
    message otherwise. *)
Variable protoparse_ParseFiles : string -> error.

(** [strings.Map(unicode.ToLower, s)], the path [strings.ToLower] takes on
    a string with a byte above 0x7F. *)
Variable unicode_ToLower : string -> string.

(** The aggregation stage [{"$sort": {"creation_date": -1}}] on producer
    documents.  MongoDB fixes no order among documents of equal date, so the
    stage is any function that meets [sort_stage_spec] below. *)
Variable sort_stage : list Producer.t -> list Producer.t.

(** [sort.Slice(x, less)], [less] read on the elements rather than on their
    indices.  It is not stable: any function that meets [sort_Slice_spec]
    below. *)
Variable sort_Slice :
  (ExtendedProducer.t -> ExtendedProducer.t -> bool) ->
  list ExtendedProducer.t -> list ExtendedProducer.t.

(** ** Strings *)

Definition isUpperByte (c : ascii) : bool :=
  ((65 <=? nat_of_ascii c) && (nat_of_ascii c <=? 90))%nat.

Definition lowerByte (c : ascii) : ascii :=
  if isUpperByte c then ascii_of_nat (nat_of_ascii c + 32) else c.

Fixpoint isASCII (s : string) : bool :=
  match s with
  | EmptyString => true
  | String c s' => (nat_of_ascii c <? 128)%nat && isASCII s'
  end.

Fixpoint hasUpper (s : string) : bool :=
  match s with
  | EmptyString => false
  | String c s' => isUpperByte c || hasUpper s'
  end.

Fixpoint mapBytes (f : ascii -> ascii) (s : string) : string :=
  match s with
  | EmptyString => EmptyString
  | String c s' => String (f c) (mapBytes f s')
  end.

(** [strings.ToLower]: bytes are mapped one by one when all are ASCII. *)
Definition ToLower (s : string) : string :=
  if isASCII s then mapBytes lowerByte s else unicode_ToLower s.

(** The class [[a-z0-9_]]. *)
Definition nameByte (c : ascii) : bool :=
  let n := nat_of_ascii c in
  (((97 <=? n) && (n <=? 122)) || ((48 <=? n) && (n <=? 57)) || (n =? 95))%nat.

(** [regexp.MustCompile("^[a-z0-9_]*$").MatchString]: the whole text is made
    of bytes of the class (in Go [$] is the end of the text, and a byte above
    0x7F starts no rune of the class). *)
Fixpoint re_MatchString (s : string) : bool :=
  match s with
  | EmptyString => true
  | String c s' => nameByte c && re_MatchString s'
  end.

(** ** Producers *)

Definition validateProducerName (name : string) : error :=
  if (String.length name =? 0)%nat then
    Some "Producer name can not be empty"
  else if (32 <? String.length name)%nat then
    Some "Producer name should be under 32 characters"
  else if negb (re_MatchString name) then
    Some "Producer name has to include only letters and _"
  else None.

Definition validateProducerType (producerType : string) : error :=
  if negb (producerType =? "application")%string
     && negb (producerType =? "connector")%string
  then Some "Producer type has to be one of the following application/connector"
  else None.

Record createProducerRequest : Type := mkCreateProducerRequest
  { cpr_Name : string;
    cpr_StationName : string;
    cpr_ConnectionId : string;
    cpr_ProducerType : string }.

Record destroyProducerRequest : Type := mkDestroyProducerRequest
  { dpr_StationName : string;
    dpr_ProducerName : string }.

(** What [createProducerDirect] gets from code outside these sources, and
    the driver's verdict on its one write.  Of [CreateDefaultStation] the
    answer alone is taken: the station it writes, and the audit log that
    follows, are not entered in the store, so of a run that creates a
    station only what happens to the producers collection is modelled. *)
Record CreateProducerEnv : Type := mkCreateProducerEnv
  { cp_ObjectIDFromHex : string -> result ObjectID;
    cp_IsConnectionExist : ObjectID -> result (bool * Connection.t);
    cp_IsStationExist : string -> result (bool * Station.t);
    cp_CreateDefaultStation : string -> string -> result Station.t;
    cp_IsProducerExist : string -> ObjectID -> result (bool * Producer.t);
    cp_NewObjectID : ObjectID;
    cp_Now : Time;
    cp_InsertOne_err : error }.

Definition createProducerDirect (env : CreateProducerEnv)
  (cpr : createProducerRequest) : M string unit :=
  let name := ToLower (cpr_Name cpr) in
  guard (validateProducerName name) (fun e => e) ;;
  let producerType := ToLower (cpr_ProducerType cpr) in
  guard (validateProducerType producerType) (fun e => e) ;;
  connectionIdObj <- try (cp_ObjectIDFromHex env (cpr_ConnectionId cpr))
                         (fun e => e) ;;
  '(exist_, connection) <- try (cp_IsConnectionExist env connectionIdObj)
                              (fun e => e) ;;
  leave_if (negb exist_) "memphis: connection id was not found" ;;
  leave_if (negb (Connection.IsActive connection))
           "memphis: connection id is not active" ;;
  let stationName := ToLower (cpr_StationName cpr) in
  '(exist_, station) <- try (cp_IsStationExist env stationName) (fun e => e) ;;
  station <- (if negb exist_
              then try (cp_CreateDefaultStation env stationName
                          (Connection.CreatedByUser connection)) (fun e => e)
              else ret station) ;;
  '(exist_, _) <- try (cp_IsProducerExist env name (Station.ID station))
                     (fun e => e) ;;
  leave_if exist_ "memphis: producer name has to be unique per station" ;;
  let newProducer :=
    Producer.mk (cp_NewObjectID env) name (Station.ID station)
      (Station.FactoryId station) producerType connectionIdObj
      (Connection.CreatedByUser connection) true (cp_Now env) false in
  write (cp_InsertOne_err env) (fun e => e)
    (fun s => (set_producers
                 (Mongo.InsertOne newProducer (producersCollection s)) s,
               newProducer))
    producers_InsertOne ;;
  ret tt.

Record DestroyProducerEnv : Type := mkDestroyProducerEnv
  { dp_IsStationExist : string -> result (bool * Station.t);
    dp_FindOneAndUpdate_err : error }.

(** [bson.M{"name": name, "station_id": station, "is_active": true}] *)
Definition destroy_filter (name : string) (station : ObjectID)
  (p : Producer.t) : bool :=
  (Producer.Name p =? name)%string
  && (Producer.StationId p =? station)%N
  && Bool.eqb (Producer.IsActive p) true.

Definition destroyProducerDirect (env : DestroyProducerEnv)
  (dpr : destroyProducerRequest) : M string unit :=
  let stationName := ToLower (dpr_StationName dpr) in
  let name := ToLower (dpr_ProducerName dpr) in
  '(_, station) <- try (dp_IsStationExist env stationName) (fun e => e) ;;
  prior <- write (dp_FindOneAndUpdate_err env) (fun e => e)
             (fun s =>
                let (prior, c) :=
                  Mongo.FindOneAndUpdate
                    (destroy_filter name (Station.ID station))
                    (Producer.set_is_active_is_deleted false true)
                    (producersCollection s) in
                (set_producers c s, prior))
             (producers_FindOneAndUpdate name (Station.ID station)) ;;
  match prior with
  | None => leave "Producer does not exist"
  | Some _ => ret tt
  end.

(** [KillProducers] logs and goes on when [cursor.All] fails ([kp_All_err]),
    with [producers] left empty; a [Find] that fails hands it no cursor, on
    which [cursor.All] panics before anything is written: that run is
    outside the model. *)
Record KillProducersEnv : Type := mkKillProducersEnv
  { kp_All_err : error;
    kp_UpdateMany_err : error }.

(** [bson.M{"connection_id": connectionId, "is_active": true}] *)
Definition active_on (connectionId : ObjectID) (p : Producer.t) : bool :=
  (Producer.ConnectionId p =? connectionId)%N
  && Bool.eqb (Producer.IsActive p) true.

(** [bson.M{"connection_id": connectionId}] *)
Definition on_connection (connectionId : ObjectID) (p : Producer.t) : bool :=
  (Producer.ConnectionId p =? connectionId)%N.

(** [bson.M{"connection_id": connectionId, "is_deleted": false}] *)
Definition kept_on (connectionId : ObjectID) (p : Producer.t) : bool :=
  (Producer.ConnectionId p =? connectionId)%N
  && Bool.eqb (Producer.IsDeleted p) false.

Definition KillProducers (env : KillProducersEnv) (connectionId : ObjectID)
  : M string unit :=
  fun w =>
    let producers :=
      match kp_All_err env with
      | Some _ => []
      | None => Mongo.Find (active_on connectionId)
                  (producersCollection (store w))
      end in
    if (0 <? length producers)%nat then
      (write (kp_UpdateMany_err env) (fun e => e)
         (fun s => (set_producers
                      (Mongo.UpdateMany (on_connection connectionId)
                         (Producer.set_is_active false)
                         (producersCollection s)) s,
                    tt))
         (fun _ => producers_UpdateMany_inactive connectionId) ;;
       ret tt) w
    else ret tt w.

Record ReliveProducersEnv : Type := mkReliveProducersEnv
  { rp_UpdateMany_err : error }.

Definition ReliveProducers (env : ReliveProducersEnv) (connectionId : ObjectID)
  : M string unit :=
  write (rp_UpdateMany_err env) (fun e => e)
    (fun s => (set_producers
                 (Mongo.UpdateMany (kept_on connectionId)
                    (Producer.set_is_active true)
                    (producersCollection s)) s,
               tt))
    (fun _ => producers_UpdateMany_active connectionId) ;;
  ret tt.

(** Any sequence of the four operations, each with its own environment. *)
Inductive ProducerOp : Type :=
| OpCreate (env : CreateProducerEnv) (cpr : createProducerRequest)
| OpDestroy (env : DestroyProducerEnv) (dpr : destroyProducerRequest)
| OpKill (env : KillProducersEnv) (connectionId : ObjectID)
| OpRelive (env : ReliveProducersEnv) (connectionId : ObjectID).

Definition run_op (o : ProducerOp) : M string unit :=
  match o with
  | OpCreate env cpr => createProducerDirect env cpr
  | OpDestroy env dpr => destroyProducerDirect env dpr
  | OpKill env c => KillProducers env c
  | OpRelive env c => ReliveProducers env c
  end.

Definition run_ops (ops : list ProducerOp) (w : World) : World :=
  fold_left (fun w o => fst (run_op o w)) ops w.

(** [R.is_deleted] implies not [R.is_active], for every producer row. *)
Definition liveness_ok (p : Producer.t) : Prop :=
  Producer.IsDeleted p = true -> Producer.IsActive p = false.

Definition producers_of (w : World) : list Producer.t :=
  producersCollection (store w).

(** ** Schemas *)

Definition schemaObjectName : string := "Schema".

Definition SCHEMA_VALIDATION_ERROR_STATUS_CODE : Z := 555.

Definition validateProtobufContent (schemaContent : string) : error :=
  match protoparse_ParseFiles schemaContent with
  | Some e => Some ("Your Proto file is invalid: " ++ e)%string
  | None => None
  end.

Definition validateSchemaName (schemaName : string) : error :=
  validateName schemaName schemaObjectName.

Definition validateSchemaType (schemaType : string) : error :=
  if (schemaType =? "protobuf")%string then None
  else if (schemaType =? "avro")%string || (schemaType =? "json")%string then
    Some "Json/Avro types are not supported at this time"
  else Some "unsupported schema type".

Definition validateSchemaContent (schemaContent schemaType : string) : error :=
  if (String.length schemaContent =? 0)%nat then
    Some "Your schema content is invalid"
  else if (schemaType =? "protobuf")%string then
    validateProtobufContent schemaContent
  else None.

Definition validateMessageStructName (messageStructName : string) : error :=
  if (messageStructName =? "")%string then
    Some "Message struct name is required when schema type is Protobuf"
  else None.

(** The handlers below start from a request body that [utils.Validate] has
    bound; what they write is a status and a JSON value. *)
Inductive JSON : Type :=
| H_message (message : string)
| H_is_valid (is_valid : bool)
| JSON_Schema (s : Schema.t)
| JSON_ExtendedSchemaDetails (d : ExtendedSchemaDetails.t).

Record Response : Type := mkResponse
  { status : Z;
    body : JSON }.

(** [c.AbortWithStatusJSON(code, gin.H{"message": message}); return] *)
Definition abort (code : Z) (message : string) : Response :=
  mkResponse code (H_message message).

(** A handler's run: the world it leaves and the response it wrote, whether
    it left early or reached its last line. *)
Definition gin (h : M Response Response) (w : World) : World * Response :=
  match h w with
  | (w', inl r) => (w', r)
  | (w', inr r) => (w', r)
  end.

(** A read call: the driver fails it or it answers from the store. *)
Definition read {E A : Type} (driver : error) (f : string -> E)
  (query : Store -> A) : M E A :=
  fun w =>
    match driver with
    | Some e => (w, inl (f e))
    | None => (w, inr (query (store w)))
    end.

(** [err = g(...); if err != nil { abort with f(err) }] for a Go function
    [g] that returns an [error]. *)
Definition rethrow {E A : Type} (m : M string A) (f : string -> E) : M E A :=
  fun w =>
    match m w with
    | (w', inl e) => (w', inl (f e))
    | (w', inr a) => (w', inr a)
    end.

(** [bson.M{"schema_id": schemaId}] *)
Definition of_schema (schemaId : ObjectID) (v : SchemaVersion.t) : bool :=
  (SchemaVersion.SchemaId v =? schemaId)%N.

(** [bson.M{"schema_id": schemaId, "version_number": versionNumber}] *)
Definition version_key (schemaId : ObjectID) (versionNumber : Z)
  (v : SchemaVersion.t) : bool :=
  (SchemaVersion.SchemaId v =? schemaId)%N
  && (SchemaVersion.VersionNumber v =? versionNumber).

(** [bson.M{"name": name}] *)
Definition named (name : string) (s : Schema.t) : bool :=
  (Schema.Name s =? name)%string.

Definition updateActiveVersion (UpdateMany_err UpdateOne_err : error)
  (schemaId : ObjectID) (versionNumber : Z) : M string unit :=
  write UpdateMany_err (fun e => e)
    (fun s => (set_schemaVersions
                 (Mongo.UpdateMany (of_schema schemaId)
                    (SchemaVersion.set_active false)
                    (schemaVersionCollection s)) s,
               tt))
    (fun _ => schemaVersions_UpdateMany_inactive schemaId) ;;
  write UpdateOne_err (fun e => e)
    (fun s => (set_schemaVersions
                 (Mongo.UpdateOne (version_key schemaId versionNumber)
                    (SchemaVersion.set_active true)
                    (schemaVersionCollection s)) s,
               tt))
    (fun _ => schemaVersions_UpdateOne_active schemaId versionNumber) ;;
  ret tt.

(** [int(countVersions)] of what [CountDocuments] returned. *)
Definition getVersionsCount (CountDocuments_err : error) (schemaId : ObjectID)
  : M string Z :=
  read CountDocuments_err (fun e => e)
    (fun s => Mongo.CountDocuments (of_schema schemaId)
                (schemaVersionCollection s)).

Record CreateNewSchemaBody : Type := mkCreateNewSchemaBody
  { cns_Name : string;
    cns_Type : string;
    cns_SchemaContent : string;
    cns_MessageStructName : string;
    cns_Tags : list string }.

(** [cns_NewObjectID_schema] and [cns_NewObjectID_version] are the two calls
    of [primitive.NewObjectID].  [AddTagsToEntity], called for a request
    that carries tags, writes to the tags collection, which is not
    modelled: its verdict alone is taken, and its writes are in no
    journal. *)
Record CreateNewSchemaEnv : Type := mkCreateNewSchemaEnv
  { cns_IsSchemaExist : string -> result (bool * Schema.t);
    cns_getUserDetailsFromMiddleware : result User.t;
    cns_NewObjectID_schema : ObjectID;
    cns_NewObjectID_version : ObjectID;
    cns_Now : Time;
    cns_UpdateOne_err : error;
    cns_InsertOne_err : error;
    cns_AddTagsToEntity : list string -> string -> ObjectID -> error }.

Definition CreateNewSchema (env : CreateNewSchemaEnv)
  (body : CreateNewSchemaBody) : M Response Response :=
  let schemaName := ToLower (cns_Name body) in
  guard (validateSchemaName schemaName) (abort SHOWABLE_ERROR_STATUS_CODE) ;;
  '(exist_, _) <- try (cns_IsSchemaExist env schemaName)
                      (fun _ => abort 500 "Server Error") ;;
  leave_if exist_
    (abort SHOWABLE_ERROR_STATUS_CODE "Schema with that name already exists") ;;
  user <- try (cns_getUserDetailsFromMiddleware env)
              (fun _ => abort 401 "Unauthorized") ;;
  let schemaType := ToLower (cns_Type body) in
  guard (validateSchemaType schemaType) (abort SHOWABLE_ERROR_STATUS_CODE) ;;
  let messageStructName := cns_MessageStructName body in
  (if (schemaType =? "protobuf")%string
   then guard (validateMessageStructName messageStructName)
              (abort SHOWABLE_ERROR_STATUS_CODE)
   else ret tt) ;;
  let schemaContent := cns_SchemaContent body in
  guard (validateSchemaContent schemaContent schemaType)
        (abort SCHEMA_VALIDATION_ERROR_STATUS_CODE) ;;
  let newSchema :=
    Schema.mk (cns_NewObjectID_schema env) schemaName schemaType in
  let newSchemaVersion :=
    SchemaVersion.mk (cns_NewObjectID_version env) 1 true
      (User.Username user) (cns_Now env) schemaContent (Schema.ID newSchema)
      messageStructName in
  updateResults <-
    write (cns_UpdateOne_err env) (fun _ => abort 500 "Server error")
      (fun s =>
         let (c, r) :=
           Mongo.UpdateOne_upsert (named (Schema.Name newSchema)) newSchema
             (schemasCollection s) in
         (set_schemas c s, r))
      (schemas_UpdateOne_upsert newSchema) ;;
  (if Mongo.MatchedCount updateResults =? 0 then
     write (cns_InsertOne_err env) (fun _ => abort 500 "Server error")
       (fun s => (set_schemaVersions
                    (Mongo.InsertOne newSchemaVersion
                       (schemaVersionCollection s)) s,
                  tt))
       (fun _ => schemaVersions_InsertOne newSchemaVersion)
   else
     leave (abort SHOWABLE_ERROR_STATUS_CODE
              "Schema with that name already exists")) ;;
  (if (0 <? length (cns_Tags body))%nat
   then guard (cns_AddTagsToEntity env (cns_Tags body) "schema"
                 (Schema.ID newSchema))
              (fun _ => abort 500 "Server error")
   else ret tt) ;;
  ret (mkResponse 200 (JSON_Schema newSchema)).

Record CreateNewVersionBody : Type := mkCreateNewVersionBody
  { cnv_SchemaName : string;
    cnv_SchemaContent : string;
    cnv_MessageStructName : string }.

(** [getExtendedSchemaDetails] only reads (versions, stations, tags, the
    last two outside the store modelled): its answer is an input. *)
Record CreateNewVersionEnv : Type := mkCreateNewVersionEnv
  { cnv_IsSchemaExist : string -> result (bool * Schema.t);
    cnv_getUserDetailsFromMiddleware : result User.t;
    cnv_CountDocuments_err : error;
    cnv_NewObjectID : ObjectID;
    cnv_Now : Time;
    cnv_UpdateOne_err : error;
    cnv_getExtendedSchemaDetails : Schema.t -> result ExtendedSchemaDetails.t }.

Definition CreateNewVersion (env : CreateNewVersionEnv)
  (body : CreateNewVersionBody) : M Response Response :=
  let schemaName := ToLower (cnv_SchemaName body) in
  '(exist_, schema) <- try (cnv_IsSchemaExist env schemaName)
                           (fun _ => abort 500 "Server Error") ;;
  leave_if (negb exist_)
    (abort SHOWABLE_ERROR_STATUS_CODE "Schema does not exist") ;;
  user <- try (cnv_getUserDetailsFromMiddleware env)
              (fun _ => abort 401 "Unauthorized") ;;
  let messageStructName := cnv_MessageStructName body in
  (if (Schema.Type_ schema =? "protobuf")%string
   then guard (validateMessageStructName messageStructName)
              (abort SHOWABLE_ERROR_STATUS_CODE)
   else ret tt) ;;
  let schemaContent := cnv_SchemaContent body in
  guard (validateSchemaContent schemaContent (Schema.Type_ schema))
        (abort SCHEMA_VALIDATION_ERROR_STATUS_CODE) ;;
  countVersions <- rethrow (getVersionsCount (cnv_CountDocuments_err env)
                              (Schema.ID schema))
                           (fun _ => abort 500 "Server error") ;;
  let versionNumber := int_add countVersions 1 in
  let newSchemaVersion :=
    SchemaVersion.mk (cnv_NewObjectID env) versionNumber false
      (User.Username user) (cnv_Now env) schemaContent (Schema.ID schema)
      messageStructName in
  updateResults <-
    write (cnv_UpdateOne_err env) (fun _ => abort 500 "Server error")
      (fun s =>
         let (c, r) :=
           Mongo.UpdateOne_upsert
             (version_key (Schema.ID schema)
                (SchemaVersion.VersionNumber newSchemaVersion))
             newSchemaVersion (schemaVersionCollection s) in
         (set_schemaVersions c s, r))
      (schemaVersions_UpdateOne_upsert newSchemaVersion) ;;
  leave_if (negb (Mongo.MatchedCount updateResults =? 0))
    (abort SHOWABLE_ERROR_STATUS_CODE "Version already exists") ;;
  extedndedSchemaDetails <- try (cnv_getExtendedSchemaDetails env schema)
                                (fun _ => abort 500 "Server error") ;;
  ret (mkResponse 200 (JSON_ExtendedSchemaDetails extedndedSchemaDetails)).

Record RollBackVersionBody : Type := mkRollBackVersionBody
  { rbv_SchemaName : string;
    rbv_VersionNumber : Z }.

Record RollBackVersionEnv : Type := mkRollBackVersionEnv
  { rbv_IsSchemaExist : string -> result (bool * Schema.t);
    rbv_isSchemaVersionExists :
      Z -> ObjectID -> result (bool * SchemaVersion.t);
    rbv_CountDocuments_err : error;
    rbv_UpdateMany_err : error;
    rbv_UpdateOne_err : error;
    rbv_getExtendedSchemaDetails : Schema.t -> result ExtendedSchemaDetails.t }.

Definition RollBackVersion (env : RollBackVersionEnv)
  (body : RollBackVersionBody) : M Response Response :=
  let schemaName := ToLower (rbv_SchemaName body) in
  '(exist_, schema) <- try (rbv_IsSchemaExist env schemaName)
                           (fun _ => abort 500 "Server Error") ;;
  leave_if (negb exist_)
    (abort SHOWABLE_ERROR_STATUS_CODE "Schema does not exist") ;;
  let schemaVersion := rbv_VersionNumber body in
  '(exist_, _) <- try (rbv_isSchemaVersionExists env schemaVersion
                         (Schema.ID schema))
                      (fun _ => abort 500 "Server error") ;;
  leave_if (negb exist_)
    (abort SHOWABLE_ERROR_STATUS_CODE "Schema version does not exist") ;;
  countVersions <- rethrow (getVersionsCount (rbv_CountDocuments_err env)
                              (Schema.ID schema))
                           (fun _ => abort 500 "Server error") ;;
  (if 1 <? countVersions then
     rethrow (updateActiveVersion (rbv_UpdateMany_err env)
                (rbv_UpdateOne_err env) (Schema.ID schema)
                (rbv_VersionNumber body))
             (fun e => abort 500 e)
   else ret tt) ;;
  extedndedSchemaDetails <- try (rbv_getExtendedSchemaDetails env schema)
                                (fun _ => abort 500 "Server error") ;;
  ret (mkResponse 200 (JSON_ExtendedSchemaDetails extedndedSchemaDetails)).

(** The handler reads the type and the content of the request and nothing
    else of it. *)
Record ValidateSchemaBody : Type := mkValidateSchemaBody
  { vs_SchemaType : string;
    vs_SchemaContent : string }.

Definition ValidateSchema (body : ValidateSchemaBody) : M Response Response :=
  let schemaType := ToLower (vs_SchemaType body) in
  guard (validateSchemaType schemaType) (abort SHOWABLE_ERROR_STATUS_CODE) ;;
  let schemaContent := vs_SchemaContent body in
  guard (validateSchemaContent schemaContent schemaType)
        (abort SCHEMA_VALIDATION_ERROR_STATUS_CODE) ;;
  ret (mkResponse 200 (H_is_valid true)).

(** ** The station overview: producers by station *)

(** The [$lookup]/[$unwind]/[$project] stages on one producer document.
    [_id] is unique in a collection, so a lookup finds at most one document;
    with [preserveNullAndEmptyArrays] a producer whose lookup finds none
    stays, the joined field left at its zero value. *)
Definition lookup_project (s : Store) (p : Producer.t) : ExtendedProducer.t :=
  ExtendedProducer.mk (Producer.ID p) (Producer.Name p) (Producer.Type_ p)
    (Producer.ConnectionId p) (Producer.CreatedByUser p)
    (Producer.CreationDate p) (Producer.IsActive p) (Producer.IsDeleted p)
    match find (fun x => (Station.ID x =? Producer.StationId p)%N)
               (stationsCollection s) with
    | Some x => Station.Name x
    | None => ""
    end
    match find (fun x => (Factory.ID x =? Producer.FactoryId p)%N)
               (factoriesCollection s) with
    | Some x => Factory.Name x
    | None => ""
    end
    match find (fun x => (Connection.ID x =? Producer.ConnectionId p)%N)
               (connectionsCollection s) with
    | Some x => Connection.ClientAddress x
    | None => ""
    end.

(** [bson.D{{"station_id", station.ID}}] *)
Definition on_station (station : ObjectID) (p : Producer.t) : bool :=
  (Producer.StationId p =? station)%N.

(** The pipeline of [GetProducersByStation]: match, sort, join. *)
Definition producers_Aggregate (station : ObjectID) (s : Store)
  : list ExtendedProducer.t :=
  map (lookup_project s)
      (sort_stage (Mongo.Find (on_station station) (producersCollection s))).

(** [slices.Contains] *)
Definition slices_Contains (l : list string) (x : string) : bool :=
  existsb (fun y => (y =? x)%string) l.

(** The variables of the loop of [GetProducersByStation]. *)
Record Partition : Type := mkPartition
  { producersNames : list string;
    connectedProducers : list ExtendedProducer.t;
    disconnectedProducers : list ExtendedProducer.t;
    deletedProducers : list ExtendedProducer.t }.

(** One turn of the loop. *)
Definition partition_step (acc : Partition) (producer : ExtendedProducer.t)
  : Partition :=
  if slices_Contains (producersNames acc) (ExtendedProducer.Name producer)
  then acc
  else
    let names := producersNames acc ++ [ExtendedProducer.Name producer] in
    if ExtendedProducer.IsActive producer then
      mkPartition names (connectedProducers acc ++ [producer])
        (disconnectedProducers acc) (deletedProducers acc)
    else if negb (ExtendedProducer.IsDeleted producer)
            && negb (ExtendedProducer.IsActive producer) then
      mkPartition names (connectedProducers acc)
        (disconnectedProducers acc ++ [producer]) (deletedProducers acc)
    else if ExtendedProducer.IsDeleted producer then
      mkPartition names (connectedProducers acc) (disconnectedProducers acc)
        (deletedProducers acc ++ [producer])
    else
      mkPartition names (connectedProducers acc) (disconnectedProducers acc)
        (deletedProducers acc).

Definition partition_loop (producers : list ExtendedProducer.t) : Partition :=
  fold_left partition_step producers (mkPartition [] [] [] []).

(** [func(i, j int) bool { return x[j].CreationDate.Before(x[i].CreationDate) }] *)
Definition newer_first (a b : ExtendedProducer.t) : bool :=
  Before (ExtendedProducer.CreationDate b) (ExtendedProducer.CreationDate a).

(** [cursor_err]: the error of [Aggregate] or of [cursor.All]; the three
    lists returned beside it are the same [producers] slice, modelled empty. *)
Definition GetProducersByStation (cursor_err : error) (station : Station.t)
  (s : Store)
  : list ExtendedProducer.t * list ExtendedProducer.t
    * list ExtendedProducer.t * error :=
  match cursor_err with
  | Some e => ([], [], [], Some e)
  | None =>
      let producers := producers_Aggregate (Station.ID station) s in
      let acc := partition_loop producers in
      (sort_Slice newer_first (connectedProducers acc),
       sort_Slice newer_first (disconnectedProducers acc),
       sort_Slice newer_first (deletedProducers acc),
       None)
  end.

(** What the two sorts are asked to do. *)
Definition date_desc (a b : Producer.t) : Prop :=
  Producer.CreationDate b <= Producer.CreationDate a.

Definition sort_stage_spec : Prop :=
  forall l, Permutation l (sort_stage l) /\ Sorted date_desc (sort_stage l).

Definition sort_Slice_spec : Prop :=
  forall less l,
    (forall a b, less a b = true -> less b a = false) ->
    Permutation l (sort_Slice less l)
    /\ Sorted (fun a b => less b a = false) (sort_Slice less l).

(** The rows of a station, and a newest row among those of its name. *)
Definition rows_of (station : Station.t) (s : Store) : list Producer.t :=
  filter (on_station (Station.ID station)) (producersCollection s).

Definition newest_of_its_name (rows : list Producer.t) (p : Producer.t) : Prop :=
  In p rows
  /\ forall q, In q rows -> Producer.Name q = Producer.Name p ->
               Producer.CreationDate q <= Producer.CreationDate p.

Definition ext_date_desc (a b : ExtendedProducer.t) : Prop :=
  ExtendedProducer.CreationDate b <= ExtendedProducer.CreationDate a.

(** ** The station overview served on the socket *)

Definition getStationOverviewData {ExtendedConsumer AuditLog : Type}
  (env : OverviewEnv ExtendedConsumer AuditLog) (stationName : string)
  : stationOverviewData ExtendedConsumer AuditLog * error :=
  let stationName := ToLower stationName in
  match ov_IsStationExist env stationName with
  | Err e => (stationOverviewData_zero, Some e)
  | Ok (exist_, station) =>
  if negb exist_ then (stationOverviewData_zero, Some "Station does not exist")
  else
  match ov_GetProducersByStation env station with
  | Err _ => (stationOverviewData_zero, None)
  | Ok producers =>
  match ov_GetConsumersByStation env station with
  | Err _ => (stationOverviewData_zero, None)
  | Ok consumers =>
  match ov_GetAuditLogsByStation env station with
  | Err _ => (stationOverviewData_zero, None)
  | Ok auditLogs =>
  match ov_GetTotalMessages env station with
  | Err _ => (stationOverviewData_zero, None)
  | Ok totalMessages =>
  match ov_GetAvgMsgSize env station with
  | Err _ => (stationOverviewData_zero, None)
  | Ok avgMsgSize =>
      (mkStationOverviewData producers consumers totalMessages avgMsgSize
         auditLogs,
       None)
  end end end end end end.

(** The handler of ["register_station_overview_data"]. *)
Definition register_station_overview_data {ExtendedConsumer AuditLog : Type}
  (env : OverviewEnv ExtendedConsumer AuditLog) (stationName : string)
  : list (SocketAction ExtendedConsumer AuditLog) * string :=
  let (data, err) := getStationOverviewData env stationName in
  (LeaveAll ::
   match err with
   | Some e =>
       [LogError ("Error while trying to get station overview data " ++ e)%string]
   | None =>
       [Emit "station_overview_data" data;
        Join ("station_overview_group_" ++ stationName)%string]
   end,
   ("recv " ++ stationName)%string).

(** Some read after the station lookup fails. *)
Definition some_read_fails {ExtendedConsumer AuditLog : Type}
  (env : OverviewEnv ExtendedConsumer AuditLog) (station : Station.t) : Prop :=
  (exists e, ov_GetProducersByStation env station = Err e)
  \/ (exists e, ov_GetConsumersByStation env station = Err e)
  \/ (exists e, ov_GetAuditLogsByStation env station = Err e)
  \/ (exists e, ov_GetTotalMessages env station = Err e)
  \/ (exists e, ov_GetAvgMsgSize env station = Err e).

(** ** Vocabulary: what an operation may do to the producers collection *)

(** [createProducerDirect]: nothing, or one more row, active and not
    deleted. *)
Definition appends_connected (before after : list Producer.t) : Prop :=
  after = before
  \/ exists p, after = before ++ [p]
               /\ Producer.IsActive p = true /\ Producer.IsDeleted p = false.

(** [destroyProducerDirect]: a row is left as it is or written
    [(is_active, is_deleted) = (false, true)]. *)
Definition destroyed_or_same (a b : Producer.t) : Prop :=
  b = a \/ b = Producer.set_is_active_is_deleted false true a.

(** [KillProducers]: a row is left as it is or has [is_active] cleared. *)
Definition killed_or_same (a b : Producer.t) : Prop :=
  b = a \/ b = Producer.set_is_active false a.

(** [ReliveProducers]: a row is left as it is or, when it is not deleted,
    has [is_active] set. *)
Definition relived_or_same (a b : Producer.t) : Prop :=
  b = a \/ (Producer.IsDeleted a = false /\ b = Producer.set_is_active true a).

(** After a disconnect and a reconnect of [connectionId]: a row of that
    connection is active exactly when it is not deleted; the other rows are
    as they were. *)
Definition reconnected (connectionId : ObjectID) (p : Producer.t) : Producer.t :=
  if on_connection connectionId p
  then Producer.set_is_active (negb (Producer.IsDeleted p)) p
  else p.

Definition with_Name (name : string) (cpr : createProducerRequest)
  : createProducerRequest :=
  mkCreateProducerRequest name (cpr_StationName cpr) (cpr_ConnectionId cpr)
    (cpr_ProducerType cpr).

(** ** Vocabulary: runs of the schema handlers *)

(** The write calls a run added to the journal. *)
Definition writes_between (w w' : World) : list Write :=
  skipn (length (journal w)) (journal w').

(** The name, type, message struct name and content of a [CreateNewSchema]
    request pass validation. *)
Definition CreateNewSchema_valid (body : CreateNewSchemaBody) : Prop :=
  validateSchemaName (ToLower (cns_Name body)) = None
  /\ validateSchemaType (ToLower (cns_Type body)) = None
  /\ validateMessageStructName (cns_MessageStructName body) = None
  /\ validateSchemaContent (cns_SchemaContent body) (ToLower (cns_Type body))
     = None.

(** The message struct name and the content of a [CreateNewVersion] request
    pass validation for the schema's type. *)
Definition CreateNewVersion_valid (schema : Schema.t)
  (body : CreateNewVersionBody) : Prop :=
  ((Schema.Type_ schema =? "protobuf")%string = true ->
   validateMessageStructName (cnv_MessageStructName body) = None)
  /\ validateSchemaContent (cnv_SchemaContent body) (Schema.Type_ schema)
     = None.

(** The number of versions the store holds for a schema. *)
Definition versions_count (schemaId : ObjectID) (w : World) : Z :=
  Mongo.CountDocuments (of_schema schemaId)
    (schemaVersionCollection (store w)).

Definition versions_of (w : World) : list SchemaVersion.t :=
  schemaVersionCollection (store w).

(** [t] is the one active version of the schema in [l]. *)
Definition only_active (schemaId : ObjectID) (t : SchemaVersion.t)
  (l : list SchemaVersion.t) : Prop :=
  exists l1 l2,
    l = l1 ++ t :: l2
    /\ SchemaVersion.Active t = true
    /\ forall v, In v (l1 ++ l2) -> SchemaVersion.SchemaId v = schemaId ->
                 SchemaVersion.Active v = false.

(** A rollback rewrites [active] and nothing else, on the versions of the
    schema and on no other. *)
Definition flag_only (schemaId : ObjectID) (a b : SchemaVersion.t) : Prop :=
  b = SchemaVersion.set_active (SchemaVersion.Active b) a
  /\ (SchemaVersion.SchemaId a <> schemaId -> b = a).

(** ** Vocabulary: the rows the station overview keeps *)

(** The rows the loop of [GetProducersByStation] keeps: the first of each
    name not seen before. *)
Fixpoint firsts_by_name (seen : list string) (l : list ExtendedProducer.t)
  : list ExtendedProducer.t :=
  match l with
  | [] => []
  | e :: l' =>
      if slices_Contains seen (ExtendedProducer.Name e) then
        firsts_by_name seen l'
      else
        e :: firsts_by_name (seen ++ [ExtendedProducer.Name e]) l'
  end.

(** The three tests of the loop, in the order it makes them. *)
Definition goes_connected (e : ExtendedProducer.t) : bool :=
  ExtendedProducer.IsActive e.

Definition goes_disconnected (e : ExtendedProducer.t) : bool :=
  negb (ExtendedProducer.IsActive e) && negb (ExtendedProducer.IsDeleted e).

Definition goes_deleted (e : ExtendedProducer.t) : bool :=
  negb (ExtendedProducer.IsActive e) && ExtendedProducer.IsDeleted e.

(** An insertion sort, one function that meets [sort_Slice_spec]. *)
Fixpoint insert_by {A : Type} (less : A -> A -> bool) (x : A) (l : list A)
  : list A :=
  match l with
  | [] => [x]
  | h :: t => if less h x then h :: insert_by less x t else x :: h :: t
  end.

Fixpoint insertion_sort {A : Type} (less : A -> A -> bool) (l : list A)
  : list A :=
  match l with
  | [] => []
  | h :: t => insert_by less h (insertion_sort less t)
  end.

Definition newer_row_first (a b : Producer.t) : bool :=
  Before (Producer.CreationDate b) (Producer.CreationDate a).

(** ** Sample inputs

    An instance of the environment and a few stores, for the runs shown
    after the properties. *)

(** A value for [configuration.SHOWABLE_ERROR_STATUS_CODE]. *)
Definition sample_SHOWABLE : Z := 666.

(** Lowercase letters, digits and [_], 1 to 32 of them. *)
Definition sample_validateName (name objectName : string) : error :=
  if ((0 <? String.length name) && (String.length name <=? 32))%nat
     && re_MatchString name
  then None
  else Some (objectName ++ " name is not valid")%string.

(** The byte 0x22, the double quote of a proto string literal. *)
Definition quote : string :=
  String (Ascii false true false false false true false false) "".

(** A stand-in for the parser, which it agrees with on the texts of the
    samples: a file that opens with the proto3 syntax statement is taken to
    parse, any other text not. *)
Definition sample_ParseFiles (content : string) : error :=
  if String.prefix ("syntax = " ++ quote ++ "proto3" ++ quote ++ ";") content
  then None
  else Some "syntax error: unexpected token".

(** The samples are ASCII: [strings.ToLower] never takes this path. *)
Definition sample_unicode_ToLower (s : string) : string := s.

Definition sample_station : Station.t := Station.mk 3%N "orders" 2%N false.

Definition sample_connection : Connection.t :=
  Connection.mk 7%N "root" true "10.0.0.1:4222".

(** Every lookup of [createProducerDirect] succeeds: the connection is
    active, the station exists, no producer of the name does. *)
Definition sample_create_env (id : ObjectID) (now : Time)
  : CreateProducerEnv :=
  mkCreateProducerEnv
    (fun _ => Ok 7%N)
    (fun _ => Ok (true, sample_connection))
    (fun _ => Ok (true, sample_station))
    (fun _ _ => Err "not called")
    (fun _ _ => Ok (false, Producer.mk 0%N "" 0%N 0%N "" 0%N "" false 0 false))
    id now None.

Definition sample_destroy_env : DestroyProducerEnv :=
  mkDestroyProducerEnv (fun _ => Ok (true, sample_station)) None.

(** A producer row of the sample station. *)
Definition sample_row (id : ObjectID) (name : string) (connection : ObjectID)
  (active : bool) (date : Time) (deleted : bool) : Producer.t :=
  Producer.mk id name 3%N 2%N "application" connection "root" active date
    deleted.

Definition with_producers (c : list Producer.t) : World :=
  mkWorld (set_producers c empty_store) [].

Definition sample_schema : Schema.t := Schema.mk 5%N "orders" "protobuf".

(** A proto3 file of one message, [Order], with one string field. *)
Definition sample_proto : string :=
  "syntax = " ++ quote ++ "proto3" ++ quote
  ++ "; message Order { string id = 1; }".

Definition sample_version (id : ObjectID) (number : Z) (active : bool)
  : SchemaVersion.t :=
  SchemaVersion.mk id number active "root" 100 sample_proto 5%N "Order".

Definition with_schema (versions : list SchemaVersion.t) : World :=
  mkWorld (set_schemaVersions versions
             (set_schemas [sample_schema] empty_store)) [].

(** [IsSchemaExist] answers that no schema of the name exists: on a store
    that holds one, the answer of a check that ran before another request
    inserted it. *)
Definition sample_cns_env : CreateNewSchemaEnv :=
  mkCreateNewSchemaEnv (fun _ => Ok (false, Schema.zero))
    (Ok (User.mk "root")) 5%N 6%N 100 None None (fun _ _ _ => None).

Definition sample_cns_body (messageStructName : string)
  : CreateNewSchemaBody :=
  mkCreateNewSchemaBody "Orders" "Protobuf" sample_proto messageStructName [].

Definition sample_cnv_env : CreateNewVersionEnv :=
  mkCreateNewVersionEnv (fun _ => Ok (true, sample_schema))
    (Ok (User.mk "root")) None 9%N 200 None
    (fun s => Ok (ExtendedSchemaDetails.mk (Schema.ID s) (Schema.Name s)
                    (Schema.Type_ s) [] [] [])).

Definition sample_cnv_body : CreateNewVersionBody :=
  mkCreateNewVersionBody "Orders" sample_proto "Order".

Definition sample_rbv_env : RollBackVersionEnv :=
  mkRollBackVersionEnv (fun _ => Ok (true, sample_schema))
    (fun n _ => Ok (true, sample_version 0%N n false))
    None None None
    (fun s => Ok (ExtendedSchemaDetails.mk (Schema.ID s) (Schema.Name s)
                    (Schema.Type_ s) [] [] [])).

(** A producer created, destroyed, and created again under the same name,
    and another one, disconnected. *)
Definition sample_overview_store : Store :=
  mkStore
    [sample_row 11%N "p" 7%N false 100 true;
     sample_row 12%N "q" 7%N false 150 false;
     sample_row 13%N "p" 8%N true 200 false]
    [sample_station] [Factory.mk 2%N "shop"] [sample_connection] [] [].

(** The station exists and the read of its consumers fails. *)
Definition sample_overview_env : OverviewEnv unit unit :=
  mkOverviewEnv
    (fun _ => Ok (true, sample_station))
    (fun _ => Ok (NonNil []))
    (fun _ => Err "context deadline exceeded")
    (fun _ => Ok (NonNil []))
    (fun _ => Ok 12)
    (fun _ => Ok 34).

(** The station exists and has nothing to show: every read succeeds, with
    an empty slice that is not [nil], which is what the source's
    [GetProducersByStation] makes of no producer, and with no message. *)
Definition sample_empty_overview_env : OverviewEnv unit unit :=
  mkOverviewEnv
    (fun _ => Ok (true, sample_station))
    (fun _ => Ok (NonNil []))
    (fun _ => Ok (NonNil []))
    (fun _ => Ok (NonNil []))
    (fun _ => Ok 0)
    (fun _ => Ok 0).

(** ** Producers: the REST listings *)

(** What the producers' REST handlers write. *)
Inductive ProducersJSON : Type :=
| PJ_message (message : string)
| PJ_producers (producers : list ExtendedProducer.t).

(** The pipeline of [GetAllProducersByStation]: match and join, no sort. *)
Definition producers_Aggregate_unsorted (station : ObjectID) (s : Store)
  : list ExtendedProducer.t :=
  map (lookup_project s)
      (Mongo.Find (on_station station) (producersCollection s)).

Record GetAllProducersByStationEnv : Type := mkGetAllProducersByStationEnv
  { gap_IsStationExist : string -> result (bool * Station.t);
    gap_cursor_err : error }.

(** The REST endpoint, from a bound body; the station name is looked up as
    it is given.  [[]string{}] and an empty producers slice are both the
    empty array. *)
Definition GetAllProducersByStation (env : GetAllProducersByStationEnv)
  (StationName : string) (s : Store) : Z * ProducersJSON :=
  match gap_IsStationExist env StationName with
  | Err _ => (500, PJ_message "Server error")
  | Ok (exist_, station) =>
      if negb exist_ then
        (SHOWABLE_ERROR_STATUS_CODE, PJ_message "Station does not exist")
      else
        match gap_cursor_err env with
        | Some _ => (500, PJ_message "Server error")
        | None =>
            (200,
             PJ_producers (producers_Aggregate_unsorted (Station.ID station) s))
        end
  end.

(** ** Vocabulary: the life of a producer row *)

(** The row [createProducerDirect] inserts. *)
Definition created_row (env : CreateProducerEnv) (cpr : createProducerRequest)
  (connectionId : ObjectID) (connection : Connection.t) (station : Station.t)
  : Producer.t :=
  Producer.mk (cp_NewObjectID env) (ToLower (cpr_Name cpr))
    (Station.ID station) (Station.FactoryId station)
    (ToLower (cpr_ProducerType cpr)) connectionId
    (Connection.CreatedByUser connection) true (cp_Now env) false.

(** The station a producer is created on: the one found, or the default one
    created for the name. *)
Definition station_found_or_created (env : CreateProducerEnv)
  (cpr : createProducerRequest) (connection : Connection.t)
  (station : Station.t) : Prop :=
  cp_IsStationExist env (ToLower (cpr_StationName cpr)) = Ok (true, station)
  \/ exists s0,
      cp_IsStationExist env (ToLower (cpr_StationName cpr)) = Ok (false, s0)
      /\ cp_CreateDefaultStation env (ToLower (cpr_StationName cpr))
           (Connection.CreatedByUser connection)
         = Ok station.

(** [q] is [p] but for its two flags; a deleted row stays deleted, and
    inactive if it was. *)
Definition same_but_flags (p q : Producer.t) : Prop :=
  q = Producer.set_is_active_is_deleted (Producer.IsActive q)
        (Producer.IsDeleted q) p
  /\ (Producer.IsDeleted p = true ->
      Producer.IsDeleted q = true
      /\ (Producer.IsActive p = false -> Producer.IsActive q = false)).

(** The name and type checks of [createProducerDirect] hold of a row. *)
Definition well_named (p : Producer.t) : Prop :=
  validateProducerName (Producer.Name p) = None
  /\ validateProducerType (Producer.Type_ p) = None.

(** ** Vocabulary: version numbers and active flags *)

(** The versions of a schema are numbered 1 to [n], in the order they were
    stored. *)
Definition numbered (schemaId : ObjectID) (l : list SchemaVersion.t) (n : nat)
  : Prop :=
  map SchemaVersion.VersionNumber (filter (of_schema schemaId) l)
  = map Z.of_nat (seq 1 n).

(** No version of the schema is active. *)
Definition none_active (schemaId : ObjectID) (l : list SchemaVersion.t)
  : Prop :=
  forall v, In v l -> SchemaVersion.SchemaId v = schemaId ->
            SchemaVersion.Active v = false.

(** ** Schemas: the reads

    The station documents are read here with the schema each one uses, a
    field [Station.t] above leaves out: [models.SchemaDetails], with the
    bson names [name] and [version_number].  [None] is a station whose
    [schema] is absent or the empty document. *)

Record SchemaDetails : Type := mkSchemaDetails
  { sd_SchemaName : string;
    sd_VersionNumber : Z }.

Record StationDoc : Type := mkStationDoc
  { sta_station : Station.t;
    sta_Schema : option SchemaDetails }.

(** [mongo.ErrNoDocuments.Error()] *)
Definition ErrNoDocuments : string := "mongo: no documents in result".

(** [bson.M{"schema_id": schemaId, "active": true}] *)
Definition active_of (schemaId : ObjectID) (v : SchemaVersion.t) : bool :=
  (SchemaVersion.SchemaId v =? schemaId)%N && SchemaVersion.Active v.

(** [FindOne(...).Decode(&d)] on a store: the driver's failure, the first
    match, or [mongo.ErrNoDocuments]. *)
Definition FindOne_Decode {Doc : Type} (driver : error) (f : Doc -> bool)
  (c : list Doc) : result Doc :=
  match driver with
  | Some e => Err e
  | None =>
      match Mongo.FindOne f c with
      | Some d => Ok d
      | None => Err ErrNoDocuments
      end
  end.

Definition getActiveVersionBySchemaId (FindOne_err : error)
  (schemaId : ObjectID) (s : Store) : result SchemaVersion.t :=
  FindOne_Decode FindOne_err (active_of schemaId) (schemaVersionCollection s).

Definition GetSchemaVersion (FindOne_err : error) (stationVersion : Z)
  (schemaId : ObjectID) (s : Store) : result SchemaVersion.t :=
  FindOne_Decode FindOne_err (version_key schemaId stationVersion)
    (schemaVersionCollection s).

(** [sort] is the driver's [SetSort(bson.M{"creation_date": -1})]. *)
Definition getSchemaVersionsBySchemaId (Find_err : error)
  (sort : list SchemaVersion.t -> list SchemaVersion.t)
  (schemaId : ObjectID) (s : Store) : result (list SchemaVersion.t) :=
  match Find_err with
  | Some e => Err e
  | None => Ok (sort (Mongo.Find (of_schema schemaId)
                        (schemaVersionCollection s)))
  end.

(** [{"schema.name": schemaName}] *)
Definition uses_schema (schemaName : string) (st : StationDoc) : bool :=
  match sta_Schema st with
  | Some d => (sd_SchemaName d =? schemaName)%string
  | None => false
  end.

(** [{"schema.name": schemaName, "is_deleted": false}]; the [$unwind] of
    the pipeline, on a field that is a document and with
    [preserveNullAndEmptyArrays], passes every station on as it is. *)
Definition used_by (schemaName : string) (st : StationDoc) : bool :=
  uses_schema schemaName st && negb (Station.IsDeleted (sta_station st)).

Definition getUsingStationsByName (Aggregate_err : error)
  (schemaName : string) (stations : list StationDoc) : result (list string) :=
  match Aggregate_err with
  | Some e => Err e
  | None =>
      Ok (map (fun st => Station.Name (sta_station st))
            (Mongo.Find (used_by schemaName) stations))
  end.

Definition getStationsBySchemaCount (CountDocuments_err : error)
  (schemaName : string) (stations : list StationDoc) : result Z :=
  match CountDocuments_err with
  | Some e => Err e
  | None => Ok (Mongo.CountDocuments (used_by schemaName) stations)
  end.

(** The calls the detail readers make; [GetTagsBySchema] reads the tags
    collection, which is not modelled: its answer is an input. *)
Record SchemaDetailsEnv : Type := mkSchemaDetailsEnv
  { sde_GetSchemaVersion_err : error;
    sde_getActiveVersion_err : error;
    sde_Find_err : error;
    sde_sort : list SchemaVersion.t -> list SchemaVersion.t;
    sde_Aggregate_err : error;
    sde_GetTagsBySchema : ObjectID -> result (list string);
    sde_FindOne_err : error }.

(** The tail both detail readers share: stations, then tags. *)
Definition extended_details (env : SchemaDetailsEnv) (schema : Schema.t)
  (schemaVersions : list SchemaVersion.t) (stations : list StationDoc)
  : result ExtendedSchemaDetails.t :=
  match getUsingStationsByName (sde_Aggregate_err env) (Schema.Name schema)
          stations with
  | Err e => Err e
  | Ok names =>
      match sde_GetTagsBySchema env (Schema.ID schema) with
      | Err e => Err e
      | Ok tags =>
          Ok (ExtendedSchemaDetails.mk (Schema.ID schema) (Schema.Name schema)
                (Schema.Type_ schema) schemaVersions names tags)
      end
  end.

Definition getExtendedSchemaDetailsUpdateAvailable (env : SchemaDetailsEnv)
  (schemaVersion : Z) (schema : Schema.t) (stations : list StationDoc)
  (s : Store) : result ExtendedSchemaDetails.t :=
  match GetSchemaVersion (sde_GetSchemaVersion_err env) schemaVersion
          (Schema.ID schema) s with
  | Err e => Err e
  | Ok usedSchemaVersion =>
      if negb (SchemaVersion.Active usedSchemaVersion) then
        match getActiveVersionBySchemaId (sde_getActiveVersion_err env)
                (Schema.ID schema) s with
        | Err e => Err e
        | Ok activeSchemaVersion =>
            extended_details env schema
              [usedSchemaVersion; activeSchemaVersion] stations
        end
      else extended_details env schema [usedSchemaVersion] stations
  end.

Definition getExtendedSchemaDetails (env : SchemaDetailsEnv)
  (schema : Schema.t) (stations : list StationDoc) (s : Store)
  : result ExtendedSchemaDetails.t :=
  match getSchemaVersionsBySchemaId (sde_Find_err env) (sde_sort env)
          (Schema.ID schema) s with
  | Err e => Err e
  | Ok schemaVersions => extended_details env schema schemaVersions stations
  end.

Definition getSchemaDetailsBySchemaName (env : SchemaDetailsEnv)
  (schemaName : string) (stations : list StationDoc) (s : Store)
  : result ExtendedSchemaDetails.t :=
  match FindOne_Decode (sde_FindOne_err env) (named schemaName)
          (schemasCollection s) with
  | Err e => Err e
  | Ok schema => getExtendedSchemaDetails env schema stations s
  end.

(** [GetSchemaDetails], from a bound body. *)
Definition GetSchemaDetails (IsSchemaExist : string -> result (bool * Schema.t))
  (env : SchemaDetailsEnv) (SchemaName : string) (stations : list StationDoc)
  (s : Store) : Response :=
  let schemaName := ToLower SchemaName in
  match IsSchemaExist schemaName with
  | Err _ => abort 500 "Server error"
  | Ok (exist_, _) =>
      if negb exist_ then
        abort SHOWABLE_ERROR_STATUS_CODE "Schema does not exist"
      else
        match getSchemaDetailsBySchemaName env schemaName stations s with
        | Err _ => abort 500 "Server error"
        | Ok schemaDetails =>
            mkResponse 200 (JSON_ExtendedSchemaDetails schemaDetails)
        end
  end.

(** ** Schemas: the listing *)

(** [models.ExtendedSchema]; the pipeline's [version_number] is decoded
    into [ActiveVersionNumber]. *)
Record ExtendedSchema : Type := mkExtendedSchema
  { es_ID : ObjectID;
    es_Name : string;
    es_Type : string;
    es_CreatedByUser : string;
    es_CreationDate : Time;
    es_ActiveVersionNumber : Z;
    es_Used : bool;
    es_Tags : list string }.

(** The pipeline before its [$sort]: each schema is joined with its
    versions and unwound, the rows of version 1 are kept; each of them is
    joined with the versions again and unwound, the rows of an active
    version are kept; the projection takes the author and the date of
    version 1 and the number of the active version. *)
Definition schemas_Aggregate (s : Store) : list ExtendedSchema :=
  flat_map
    (fun schema =>
       flat_map
         (fun extendedSchema =>
            map (fun activeVersion =>
                   mkExtendedSchema (Schema.ID schema) (Schema.Name schema)
                     (Schema.Type_ schema)
                     (SchemaVersion.CreatedByUser extendedSchema)
                     (SchemaVersion.CreationDate extendedSchema)
                     (SchemaVersion.VersionNumber activeVersion) false [])
                (filter (active_of (Schema.ID schema))
                   (schemaVersionCollection s)))
         (filter (version_key (Schema.ID schema) 1)
            (schemaVersionCollection s)))
    (schemasCollection s).

(** The calls of the listing; the failures of the loop's calls are given
    by the index of the iteration. *)
Record GetAllSchemasEnv : Type := mkGetAllSchemasEnv
  { gas_Aggregate_err : error;
    gas_sort : list ExtendedSchema -> list ExtendedSchema;
    gas_CountDocuments_err : nat -> error;
    gas_GetTagsBySchema : nat -> ObjectID -> result (list string) }.

Fixpoint GetAllSchemasDetails_loop (env : GetAllSchemasEnv)
  (stations : list StationDoc) (i : nat) (schemas : list ExtendedSchema)
  (extedndedSchemasDetails : list ExtendedSchema)
  : result (list ExtendedSchema) :=
  match schemas with
  | [] => Ok extedndedSchemasDetails
  | schema :: rest =>
      match getStationsBySchemaCount (gas_CountDocuments_err env i)
              (es_Name schema) stations with
      | Err e => Err e
      | Ok n =>
          let used := 0 <? n in
          match gas_GetTagsBySchema env i (es_ID schema) with
          | Err e => Err e
          | Ok tags =>
              GetAllSchemasDetails_loop env stations (S i) rest
                (extedndedSchemasDetails
                 ++ [mkExtendedSchema (es_ID schema) (es_Name schema)
                       (es_Type schema) (es_CreatedByUser schema)
                       (es_CreationDate schema)
                       (es_ActiveVersionNumber schema) used tags])
          end
      end
  end.

Definition GetAllSchemasDetails (env : GetAllSchemasEnv)
  (stations : list StationDoc) (s : Store) : result (list ExtendedSchema) :=
  match gas_Aggregate_err env with
  | Some e => Err e
  | None =>
      GetAllSchemasDetails_loop env stations 0
        (gas_sort env (schemas_Aggregate s)) []
  end.

(** ** Schemas: the removal *)

(** [DeleteMany]: every document the filter matches goes. *)
Definition DeleteMany {Doc : Type} (f : Doc -> bool) (c : list Doc)
  : list Doc :=
  filter (fun d => negb (f d)) c.

(** [bson.M{"$in": ids}] *)
Definition in_ids (ids : list ObjectID) (id : ObjectID) : bool :=
  existsb (N.eqb id) ids.

(** [{"$set": {"schema": {}}}] *)
Definition unbind (st : StationDoc) : StationDoc :=
  mkStationDoc (sta_station st) None.

Definition deleteSchemaFromStation (UpdateMany_err : error)
  (schemaName : string) (stations : list StationDoc)
  : list StationDoc * error :=
  match UpdateMany_err with
  | Some e => (stations, Some e)
  | None => (Mongo.UpdateMany (uses_schema schemaName) unbind stations, None)
  end.

Definition findAndDeleteSchema (versions_err schemas_err : error)
  (schemaIds : list ObjectID) (s : Store) : Store * error :=
  match versions_err with
  | Some e => (s, Some e)
  | None =>
      let s1 :=
        set_schemaVersions
          (DeleteMany (fun v => in_ids schemaIds (SchemaVersion.SchemaId v))
             (schemaVersionCollection s)) s in
      match schemas_err with
      | Some e => (s1, Some e)
      | None =>
          (set_schemas
             (DeleteMany (fun x => in_ids schemaIds (Schema.ID x))
                (schemasCollection s1)) s1,
           None)
      end
  end.

(** The calls of [RemoveSchema]; [DeleteTagsFromSchema] writes to the tags
    collection only and returns nothing.  The failure of an iteration's
    [UpdateMany] is given by the index of the iteration. *)
Record RemoveSchemaEnv : Type := mkRemoveSchemaEnv
  { rs_IsSchemaExist : string -> result (bool * Schema.t);
    rs_UpdateMany_err : nat -> error;
    rs_DeleteMany_versions_err : error;
    rs_DeleteMany_schemas_err : error }.

(** What [RemoveSchema] writes. *)
Inductive RemoveSchemaJSON : Type :=
| RS_message (message : string)
| RS_empty.

(** The loop over the names: the stations it leaves, and the ids collected
    or the response it aborted with. *)
Fixpoint RemoveSchema_loop (env : RemoveSchemaEnv) (i : nat)
  (SchemaNames : list string) (schemaIds : list ObjectID)
  (stations : list StationDoc)
  : list StationDoc * (Z * RemoveSchemaJSON + list ObjectID) :=
  match SchemaNames with
  | [] => (stations, inr schemaIds)
  | name :: rest =>
      let schemaName := ToLower name in
      match rs_IsSchemaExist env schemaName with
      | Err _ => (stations, inl (500, RS_message "Server error"))
      | Ok (exist_, schema) =>
          if exist_ then
            match deleteSchemaFromStation (rs_UpdateMany_err env i)
                    (Schema.Name schema) stations with
            | (stations', Some _) =>
                (stations', inl (500, RS_message "Server error"))
            | (stations', None) =>
                RemoveSchema_loop env (S i) rest
                  (schemaIds ++ [Schema.ID schema]) stations'
            end
          else RemoveSchema_loop env (S i) rest schemaIds stations
      end
  end.

(** [RemoveSchema], from a bound body. *)
Definition RemoveSchema (env : RemoveSchemaEnv) (SchemaNames : list string)
  (stations : list StationDoc) (s : Store)
  : list StationDoc * Store * (Z * RemoveSchemaJSON) :=
  match RemoveSchema_loop env 0 SchemaNames [] stations with
  | (stations', inl r) => (stations', s, r)
  | (stations', inr schemaIds) =>
      if (0 <? length schemaIds)%nat then
        match findAndDeleteSchema (rs_DeleteMany_versions_err env)
                (rs_DeleteMany_schemas_err env) schemaIds s with
        | (s', Some _) => (stations', s', (500, RS_message "Server error"))
        | (s', None) => (stations', s', (200, RS_empty))
        end
      else (stations', s, (200, RS_empty))
  end.

(** ** Vocabulary: what a removal leaves *)

(** The schemas [IsSchemaExist] finds for the names of a request. *)
Definition found_for (env : RemoveSchemaEnv) (SchemaNames : list string)
  (schema : Schema.t) : Prop :=
  exists name, In name SchemaNames
               /\ rs_IsSchemaExist env (ToLower name) = Ok (true, schema).

(** A station as it was, or as it was but for its schema. *)
Definition unbound_or_same (a b : StationDoc) : Prop :=
  b = a \/ b = unbind a.

(** ** Vocabulary: the rows of the listing *)

(** [b] is the row [a] of the pipeline with its [Used] and its [Tags]
    filled in. *)
Definition completed (env : GetAllSchemasEnv) (stations : list StationDoc)
  (a b : ExtendedSchema) : Prop :=
  (exists i, gas_GetTagsBySchema env i (es_ID a) = Ok (es_Tags b))
  /\ b = mkExtendedSchema (es_ID a) (es_Name a) (es_Type a)
           (es_CreatedByUser a) (es_CreationDate a)
           (es_ActiveVersionNumber a)
           (0 <? Mongo.CountDocuments (used_by (es_Name a)) stations)
           (es_Tags b).

(** ** Process usage on FreeBSD ([pse])

    A [[]byte] is a list of bytes; a [uint32] is a [Z] kept below [2 ^ 32];
    a run of the code returns or panics. *)

Definition KIP_OFF_size : nat := 256.
Definition KIP_OFF_rssize : nat := 264.
Definition KIP_OFF_pctcpu : nat := 308.

Definition uint32 (z : Z) : Z := z mod 2 ^ 32.

Definition byte_val (b : Byte.byte) : Z := Z.of_N (Byte.to_N b).

(** [for pagesize > 1 { pageshift += 1; pagesize >>= 1 }], with the count of
    iterations bounded by [fuel]: [None] when it is used up. *)
Fixpoint init_loop (fuel : nat) (pagesize pageshift : Z) : option Z :=
  if 1 <? pagesize then
    match fuel with
    | O => None
    | S fuel' =>
        init_loop fuel' (Z.shiftr pagesize 1) (int_add pageshift 1)
    end
  else Some pageshift.

(** [init]: the page shift computed from [syscall.Getpagesize()]. *)
Definition init (Getpagesize : Z) : option Z := init_loop 64 Getpagesize 0.

(** [b[off:]]: panics ([None]) past the end. *)
Definition slice_from (b : list Byte.byte) (off : nat)
  : option (list Byte.byte) :=
  if (off <=? length b)%nat then Some (skipn off b) else None.

(** [binary.LittleEndian.Uint32(b)]: panics ([None]) on fewer than four
    bytes. *)
Definition Uint32 (b : list Byte.byte) : option Z :=
  match b with
  | b0 :: b1 :: b2 :: b3 :: _ =>
      Some (Z.lor (byte_val b0)
              (Z.lor (Z.shiftl (byte_val b1) 8)
                 (Z.lor (Z.shiftl (byte_val b2) 16)
                    (Z.shiftl (byte_val b3) 24))))
  | _ => None
  end.

Definition Uint32_at (rawdata : list Byte.byte) (off : nat) : option Z :=
  match slice_from rawdata off with
  | Some b => Uint32 b
  | None => None
  end.

(** What the three pointers of [ProcUsage] point to.  [pcpu] is the
    [float64] of value [pcpu_num / 2048]: the conversion of a [uint32] and
    the division by a power of two are exact. *)
Record Usage : Type := mkUsage
  { pcpu_num : Z;
    rss : Z;
    vss : Z }.

Inductive Outcome : Type :=
| Panics
| Returns (err : error) (out : Usage).

(** [ProcUsage] on the page shift [init] has set, the answer of
    [unix.SysctlRaw] and the values its pointers point to. *)
Definition ProcUsage (pageshift : Z) (SysctlRaw : result (list Byte.byte))
  (old : Usage) : Outcome :=
  match SysctlRaw with
  | Err e => Returns (Some e) old
  | Ok rawdata =>
      match Uint32_at rawdata KIP_OFF_size with
      | None => Panics
      | Some r_vss_bytes =>
          match Uint32_at rawdata KIP_OFF_rssize with
          | None => Panics
          | Some r_rss_pages =>
              if pageshift <? 0 then Panics
              else
                let rss_bytes := uint32 (Z.shiftl r_rss_pages pageshift) in
                match Uint32_at rawdata KIP_OFF_pctcpu with
                | None => Panics
                | Some r_pcpu =>
                    Returns None (mkUsage r_pcpu rss_bytes r_vss_bytes)
                end
          end
      end
  end.

(** ** The ticker of the socket server

    [strings.HasPrefix], and [strings.Split] for a separator that is not
    empty, as at its two calls here: the fields between the occurrences of
    the separator, found from the left and not overlapping. *)

Definition strings_HasPrefix (s prefix : string) : bool :=
  String.prefix prefix s.

(** The first field of [s] and the fields after it; [skip] bytes of a
    separator found are still to be passed. *)
Fixpoint Split_fields (sep : string) (skip : nat) (s : string)
  : string * list string :=
  match s with
  | "" => ("", [])
  | String c s' =>
      match skip with
      | S k => Split_fields sep k s'
      | O =>
          if String.prefix sep s then
            let (f, r) := Split_fields sep (String.length sep - 1) s' in
            ("", f :: r)
          else
            let (f, r) := Split_fields sep 0 s' in
            (String c f, r)
      end
  end.

Definition strings_Split (s sep : string) : list string :=
  let (f, r) := Split_fields sep 0 s in f :: r.

(** [sep] occurs in [s]. *)
Fixpoint strings_Contains (s sep : string) : bool :=
  String.prefix sep s
  || match s with
     | "" => false
     | String _ s' => strings_Contains s' sep
     end.

Definition getFactoryOverviewData {ExtendedConsumer AuditLog FactoryDetails : Type}
  (env : TickEnv ExtendedConsumer AuditLog FactoryDetails)
  (factoryName : string) : FactoryDetails * error :=
  tk_GetFactoryDetails env (ToLower factoryName).

(** One room of the loop over [server.Rooms("/")]: what is logged and
    broadcast, or [None] when the indexing of the fields panics. *)
Definition tick_room {ExtendedConsumer AuditLog FactoryDetails : Type}
  (env : TickEnv ExtendedConsumer AuditLog FactoryDetails) (room : string)
  : option (list (TickAction ExtendedConsumer AuditLog FactoryDetails)) :=
  let station_part :=
    if strings_HasPrefix room "station_overview_group_"
       && (0 <? tk_RoomLen env room)
    then
      match nth_error (strings_Split room "station_overview_group_") 1 with
      | None => None
      | Some stationName =>
          match getStationOverviewData (tk_overview env) stationName with
          | (_, Some e) =>
              Some [logger_Error
                      ("Error while trying to get station overview data - "
                       ++ e)%string]
          | (data, None) =>
              Some [BroadcastToRoom_station room "station_overview_data" data]
          end
      end
    else Some [] in
  match station_part with
  | None => None
  | Some done =>
      if strings_HasPrefix room "factory_overview_group_"
         && (0 <? tk_RoomLen env room)
      then
        match nth_error (strings_Split room "factory_overview_group_") 1 with
        | None => None
        | Some factoryName =>
            match getFactoryOverviewData env factoryName with
            | (_, Some e) =>
                Some (done
                      ++ [logger_Error
                            ("Error while trying to get factory overview data - "
                             ++ e)%string])
            | (data, None) =>
                Some (done
                      ++ [BroadcastToRoom_factory room "factory_overview_data"
                            data])
            end
        end
      else Some done
  end.

(** * Properties *)

Ltac unfold_M :=
  unfold bind, guard, try, leave_if, write, read, rethrow, ret, leave in *.

Ltac case_split :=
  match goal with
  | |- context [match ?x with _ => _ end] =>
      lazymatch x with
      | context [match _ with _ => _ end] => fail
      | _ => destruct x eqn:?
      end
  end.

(** ** Lists and the driver's calls *)

Lemma filter_nil_none {A : Type} (f : A -> bool) (l : list A) :
  filter f l = [] -> forall x, In x l -> f x = false.
Proof.
  induction l as [|a l IH]; simpl; intros H x Hx; [contradiction|].
  destruct (f a) eqn:Fa; [discriminate|].
  destruct Hx as [<-|Hx]; auto.
Qed.

Lemma find_filter_nil {A : Type} (f : A -> bool) (l : list A) :
  filter f l = [] -> find f l = None.
Proof.
  induction l as [|a l IH]; simpl; intros H; [reflexivity|].
  destruct (f a); [discriminate|auto].
Qed.

Lemma find_filter_cons {A : Type} (f : A -> bool) (l : list A) p rest :
  filter f l = p :: rest -> find f l = Some p.
Proof.
  induction l as [|a l IH]; simpl; intros H; [discriminate|].
  destruct (f a); [congruence|auto].
Qed.

Lemma UpdateMany_none {A : Type} (f : A -> bool) set (l : list A) :
  filter f l = [] -> Mongo.UpdateMany f set l = l.
Proof.
  intros H. unfold Mongo.UpdateMany.
  rewrite <- (map_id l) at 2. apply map_ext_in.
  intros a Ha. now rewrite (filter_nil_none f l H a Ha).
Qed.

Lemma UpdateOne_none {A : Type} (f : A -> bool) set (l : list A) :
  filter f l = [] -> Mongo.UpdateOne f set l = l.
Proof.
  induction l as [|a l IH]; simpl; intros H; [reflexivity|].
  destruct (f a); [discriminate|]. now rewrite IH.
Qed.

(** The first match is the one [UpdateOne] writes; the rows before it match
    nothing. *)
Lemma UpdateOne_first {A : Type} (f : A -> bool) set (l : list A) p rest :
  filter f l = p :: rest ->
  exists l1 l2,
    l = l1 ++ p :: l2 /\ filter f l1 = [] /\ filter f l2 = rest
    /\ f p = true /\ Mongo.UpdateOne f set l = l1 ++ set p :: l2.
Proof.
  induction l as [|a l IH]; simpl; intros H; [discriminate|].
  destruct (f a) eqn:Fa.
  - injection H as -> Hr. exists [], l. simpl. auto.
  - destruct (IH H) as (l1 & l2 & -> & H1 & H2 & Fp & Hu).
    exists (a :: l1), l2. simpl. rewrite Fa, Hu. auto.
Qed.

Lemma UpdateOne_rowwise {A : Type} (f : A -> bool) set (l : list A) :
  Forall2 (fun a b => b = a \/ (f a = true /\ b = set a)) l
          (Mongo.UpdateOne f set l).
Proof.
  induction l as [|a l IH]; simpl; [constructor|].
  destruct (f a) eqn:Fa; constructor; auto.
  clear. induction l; constructor; auto.
Qed.

Lemma UpdateMany_rowwise {A : Type} (f : A -> bool) set (l : list A) :
  Forall2 (fun a b => b = a \/ (f a = true /\ b = set a)) l
          (Mongo.UpdateMany f set l).
Proof.
  induction l as [|a l IH]; simpl; constructor; auto.
  destruct (f a); auto.
Qed.

Lemma Forall2_same {A : Type} (R : A -> A -> Prop) (l : list A) :
  (forall a, R a a) -> Forall2 R l l.
Proof. intros H. induction l; constructor; auto. Qed.

Lemma Forall2_weaken {A : Type} (R S : A -> A -> Prop) (l l' : list A) :
  (forall a b, R a b -> S a b) -> Forall2 R l l' -> Forall2 S l l'.
Proof. intros H F. induction F; constructor; auto. Qed.

Lemma Forall_rowwise {A : Type} (P : A -> Prop) (R : A -> A -> Prop) l l' :
  (forall a b, P a -> R a b -> P b) ->
  Forall2 R l l' -> Forall P l -> Forall P l'.
Proof.
  intros H F. induction F; intros HP; constructor;
    inversion HP; subst; eauto.
Qed.

(** ** Strings *)

Lemma mapBytes_length (f : ascii -> ascii) (s : string) :
  String.length (mapBytes f s) = String.length s.
Proof. induction s; simpl; congruence. Qed.

Lemma ToLower_length (s : string) :
  isASCII s = true -> String.length (ToLower s) = String.length s.
Proof. intros H. unfold ToLower. rewrite H. apply mapBytes_length. Qed.

Lemma lowerByte_below_128 (c : ascii) :
  (nat_of_ascii c <? 128)%nat = true ->
  (nat_of_ascii (lowerByte c) <? 128)%nat = true
  /\ isUpperByte (lowerByte c) = false.
Proof.
  intros H. unfold lowerByte. destruct (isUpperByte c) eqn:U; [|auto].
  unfold isUpperByte in *.
  apply andb_true_iff in U. destruct U as [U1 U2].
  apply Nat.leb_le in U1, U2.
  rewrite nat_ascii_embedding by lia.
  split.
  - apply Nat.ltb_lt. lia.
  - apply andb_false_iff. right. apply Nat.leb_gt. lia.
Qed.

Lemma lowerByte_fixed (c : ascii) :
  isUpperByte c = false -> lowerByte c = c.
Proof. intros H. unfold lowerByte. now rewrite H. Qed.

Lemma ToLower_idempotent (s : string) :
  isASCII s = true -> ToLower (ToLower s) = ToLower s.
Proof.
  intros H. unfold ToLower at 2 3. rewrite H.
  assert (G : isASCII (mapBytes lowerByte s) = true
              /\ mapBytes lowerByte (mapBytes lowerByte s)
                 = mapBytes lowerByte s).
  { induction s as [|c s IH]; simpl in *; [auto|].
    apply andb_true_iff in H. destruct H as [Hc Hs].
    destruct (IH Hs) as [I1 I2].
    destruct (lowerByte_below_128 c Hc) as [L1 L2].
    rewrite L1, I1, I2, (lowerByte_fixed _ L2). auto. }
  destruct G as [G1 G2]. unfold ToLower. now rewrite G1, G2.
Qed.

Lemma re_MatchString_no_upper (s : string) :
  hasUpper s = true -> re_MatchString s = false.
Proof.
  induction s as [|c s IH]; simpl; intros H; [discriminate|].
  apply orb_true_iff in H. destruct H as [H|H].
  - apply andb_false_iff. left.
    unfold isUpperByte in H. apply andb_true_iff in H. destruct H as [H1 H2].
    apply Nat.leb_le in H1, H2. unfold nameByte.
    repeat (apply orb_false_iff; split).
    + apply andb_false_iff. left. apply Nat.leb_gt. lia.
    + apply andb_false_iff. right. apply Nat.leb_gt. lia.
    + apply Nat.eqb_neq. lia.
  - rewrite (IH H). apply andb_false_r.
Qed.

(** ** Producers: what each operation writes *)

Lemma createProducerDirect_appends (env : CreateProducerEnv)
  (cpr : createProducerRequest) (w : World) :
  appends_connected (producers_of w)
    (producers_of (fst (createProducerDirect env cpr w))).
Proof.
  unfold appends_connected, createProducerDirect. unfold_M.
  repeat (case_split; simpl; auto).
  all: try (right; eexists; split; [reflexivity|]; simpl; auto).
Qed.

Lemma destroyProducerDirect_rowwise (env : DestroyProducerEnv)
  (dpr : destroyProducerRequest) (w : World) :
  Forall2 destroyed_or_same (producers_of w)
    (producers_of (fst (destroyProducerDirect env dpr w))).
Proof.
  unfold destroyProducerDirect, Mongo.FindOneAndUpdate. unfold_M.
  assert (Same : Forall2 destroyed_or_same (producers_of w) (producers_of w))
    by (apply Forall2_same; left; reflexivity).
  repeat (case_split; simpl; auto).
  all: unfold producers_of; simpl.
  all: eapply Forall2_weaken; [|apply UpdateOne_rowwise].
  all: unfold destroyed_or_same; simpl; intros ? ? [->|[_ ->]]; auto.
Qed.

Lemma KillProducers_rowwise (env : KillProducersEnv) (c : ObjectID)
  (w : World) :
  Forall2 killed_or_same (producers_of w)
    (producers_of (fst (KillProducers env c w))).
Proof.
  unfold KillProducers. unfold_M.
  assert (Same : Forall2 killed_or_same (producers_of w) (producers_of w))
    by (apply Forall2_same; left; reflexivity).
  repeat (case_split; simpl; auto).
  all: eapply Forall2_weaken; [|apply UpdateMany_rowwise];
    unfold killed_or_same; simpl; intros ? ? [->|[_ ->]]; auto.
Qed.

Lemma ReliveProducers_rowwise (env : ReliveProducersEnv) (c : ObjectID)
  (w : World) :
  Forall2 relived_or_same (producers_of w)
    (producers_of (fst (ReliveProducers env c w))).
Proof.
  unfold ReliveProducers. unfold_M.
  assert (Same : Forall2 relived_or_same (producers_of w) (producers_of w))
    by (apply Forall2_same; left; reflexivity).
  repeat (case_split; simpl; auto).
  eapply Forall2_weaken; [|apply UpdateMany_rowwise].
  unfold relived_or_same, kept_on. simpl. intros a b [->|[H ->]]; auto.
  right. apply andb_true_iff in H. destruct H as [_ H].
  destruct (Producer.IsDeleted a); [discriminate|auto].
Qed.

Lemma run_op_liveness (o : ProducerOp) (w : World) :
  Forall liveness_ok (producers_of w) ->
  Forall liveness_ok (producers_of (fst (run_op o w))).
Proof.
  intros H. destruct o as [env cpr|env dpr|env c|env c]; simpl.
  - destruct (createProducerDirect_appends env cpr w) as [->|(p & -> & A & D)];
      [assumption|].
    apply Forall_app. split; [assumption|].
    constructor; [|constructor]. intros D'. congruence.
  - eapply Forall_rowwise;
      [|apply destroyProducerDirect_rowwise|exact H].
    intros a b Pa [->| ->]; [assumption|]. intros _. reflexivity.
  - eapply Forall_rowwise; [|apply KillProducers_rowwise|exact H].
    intros a b Pa [->| ->]; [assumption|]. intros _. reflexivity.
  - eapply Forall_rowwise; [|apply ReliveProducers_rowwise|exact H].
    intros a b Pa [->|[D ->]]; [assumption|].
    unfold liveness_ok. simpl. congruence.
Qed.

Lemma run_ops_liveness (ops : list ProducerOp) (w : World) :
  Forall liveness_ok (producers_of w) ->
  Forall liveness_ok (producers_of (run_ops ops w)).
Proof.
  revert w. induction ops as [|o ops IH]; intros w H; simpl; [assumption|].
  apply IH. now apply run_op_liveness.
Qed.

(** C3.  Every producer row reachable from the empty collection by any
    sequence of [createProducerDirect], [destroyProducerDirect],
    [KillProducers] and [ReliveProducers], whatever their environments answer,
    satisfies: deleted implies not active.  Create appends at most one row,
    written (active, not deleted); destroy writes (not active, deleted) or
    leaves a row as it is; kill only clears [is_active]; relive sets
    [is_active] only on rows that are not deleted. *)
Theorem producer_rows_deleted_implies_inactive :
  (forall ops, Forall liveness_ok (producers_of (run_ops ops empty_world)))
  /\ (forall env cpr w,
        appends_connected (producers_of w)
          (producers_of (fst (createProducerDirect env cpr w))))
  /\ (forall env dpr w,
        Forall2 destroyed_or_same (producers_of w)
          (producers_of (fst (destroyProducerDirect env dpr w))))
  /\ (forall env c w,
        Forall2 killed_or_same (producers_of w)
          (producers_of (fst (KillProducers env c w))))
  /\ (forall env c w,
        Forall2 relived_or_same (producers_of w)
          (producers_of (fst (ReliveProducers env c w)))).
Proof.
  split; [|split; [|split; [|split]]].
  - intros ops. apply run_ops_liveness. constructor.
  - apply createProducerDirect_appends.
  - apply destroyProducerDirect_rowwise.
  - apply KillProducers_rowwise.
  - apply ReliveProducers_rowwise.
Qed.

(** ** Producers: destroy *)

Lemma set_producers_same (s : Store) :
  set_producers (producersCollection s) s = s.
Proof. destruct s; reflexivity. Qed.

Lemma destroy_filter_destroyed (name : string) (station : ObjectID)
  (p : Producer.t) :
  destroy_filter name station
    (Producer.set_is_active_is_deleted false true p) = false.
Proof. unfold destroy_filter. simpl. apply andb_false_r. Qed.

(** The run of [destroyProducerDirect] once the station lookup answered and
    the driver let the call through. *)
Lemma destroyProducerDirect_run (env : DestroyProducerEnv)
  (dpr : destroyProducerRequest) (w : World) (b : bool) (station : Station.t) :
  dp_IsStationExist env (ToLower (dpr_StationName dpr)) = Ok (b, station) ->
  dp_FindOneAndUpdate_err env = None ->
  let name := ToLower (dpr_ProducerName dpr) in
  let matching := destroy_filter name (Station.ID station) in
  destroyProducerDirect env dpr w =
  match find matching (producers_of w) with
  | Some p =>
      (mkWorld
         (set_producers
            (Mongo.UpdateOne matching
               (Producer.set_is_active_is_deleted false true)
               (producers_of w))
            (store w))
         (journal w
          ++ [producers_FindOneAndUpdate name (Station.ID station) (Some p)]),
       inr tt)
  | None =>
      (mkWorld (store w)
         (journal w
          ++ [producers_FindOneAndUpdate name (Station.ID station) None]),
       inl "Producer does not exist")
  end.
Proof.
  intros Hs Hd name matching.
  unfold destroyProducerDirect, Mongo.FindOneAndUpdate. unfold_M.
  rewrite Hs, Hd. fold name. fold matching. unfold producers_of.
  destruct (find matching (producersCollection (store w))); simpl;
    [reflexivity|].
  now rewrite set_producers_same.
Qed.

(** C4.  With the station lookup answered and the call let through by the
    driver, [destroyProducerDirect] writes
    [(is_active, is_deleted) = (false, true)] on the document that matches
    [(name, station_id, is_active = true)]: when none matches it returns
    "Producer does not exist" and the store is as it was; when exactly one
    matches, that document alone is rewritten, the call returns [nil], and a
    second destroy right after returns "Producer does not exist" and leaves
    the store as the first one left it. *)
Theorem destroyProducerDirect_unique_then_not_found :
  forall env dpr w b station,
    dp_IsStationExist env (ToLower (dpr_StationName dpr)) = Ok (b, station) ->
    dp_FindOneAndUpdate_err env = None ->
    let matching :=
      destroy_filter (ToLower (dpr_ProducerName dpr)) (Station.ID station) in
    let w1 := fst (destroyProducerDirect env dpr w) in
    (filter matching (producers_of w) = [] ->
       snd (destroyProducerDirect env dpr w) = inl "Producer does not exist"
       /\ store w1 = store w)
    /\ (forall p,
          filter matching (producers_of w) = [p] ->
          snd (destroyProducerDirect env dpr w) = inr tt
          /\ (exists l1 l2,
                producers_of w = l1 ++ p :: l2
                /\ filter matching l1 = [] /\ filter matching l2 = []
                /\ producers_of w1
                   = l1 ++ Producer.set_is_active_is_deleted false true p
                        :: l2)
          /\ snd (destroyProducerDirect env dpr w1)
             = inl "Producer does not exist"
          /\ store (fst (destroyProducerDirect env dpr w1)) = store w1).
Proof.
  intros env dpr w b station Hs Hd matching w1.
  pose proof (destroyProducerDirect_run env dpr w b station Hs Hd) as Run.
  cbv zeta in Run. fold matching in Run.
  split.
  - intros Hnone. subst w1. rewrite Run.
    rewrite (find_filter_nil _ _ Hnone). simpl. auto.
  - intros p Hone.
    destruct (UpdateOne_first matching
                (Producer.set_is_active_is_deleted false true)
                (producers_of w) p [] Hone)
      as (l1 & l2 & Hl & H1 & H2 & Fp & Hu).
    assert (Hw1 : producers_of w1
                  = l1 ++ Producer.set_is_active_is_deleted false true p
                       :: l2).
    { subst w1. rewrite Run, (find_filter_cons _ _ _ _ Hone). simpl.
      unfold producers_of at 1. simpl. exact Hu. }
    assert (Hgone : filter matching (producers_of w1) = []).
    { rewrite Hw1, filter_app, H1. simpl.
      unfold matching at 1. rewrite destroy_filter_destroyed. exact H2. }
    pose proof (destroyProducerDirect_run env dpr w1 b station Hs Hd) as Run1.
    cbv zeta in Run1. fold matching in Run1.
    rewrite (find_filter_nil _ _ Hgone) in Run1.
    split; [|split; [|split]].
    + rewrite Run, (find_filter_cons _ _ _ _ Hone). reflexivity.
    + exists l1, l2. auto.
    + rewrite Run1. reflexivity.
    + rewrite Run1. reflexivity.
Qed.

(** ** Producers: disconnect and reconnect *)

Lemma set_is_active_same (p : Producer.t) :
  Producer.set_is_active (Producer.IsActive p) p = p.
Proof. destruct p; reflexivity. Qed.

Lemma filter_length_0 {A : Type} (f : A -> bool) (l : list A) :
  (0 <? length (filter f l))%nat = false -> filter f l = [].
Proof. destruct (filter f l); simpl; [reflexivity|discriminate]. Qed.

(** After [KillProducers] no row of the connection is active, whether it
    found an active one (and cleared them all) or found none. *)
Lemma KillProducers_run (env : KillProducersEnv) (c : ObjectID) (w : World) :
  kp_All_err env = None ->
  kp_UpdateMany_err env = None ->
  snd (KillProducers env c w) = inr tt
  /\ producers_of (fst (KillProducers env c w))
     = Mongo.UpdateMany (on_connection c) (Producer.set_is_active false)
         (producers_of w).
Proof.
  intros Ha Hu. unfold KillProducers, Mongo.Find. unfold_M.
  rewrite Ha, Hu.
  destruct (0 <? length (filter (active_on c) (producersCollection (store w))))%nat
    eqn:Found; simpl; [auto|].
  split; [reflexivity|].
  apply filter_length_0 in Found.
  unfold producers_of, Mongo.UpdateMany.
  rewrite <- (map_id (producersCollection (store w))) at 1.
  apply map_ext_in. intros p Hp.
  pose proof (filter_nil_none _ _ Found p Hp) as Np.
  unfold active_on in Np. unfold on_connection.
  destruct (Producer.ConnectionId p =? c)%N; [|reflexivity].
  destruct (Producer.IsActive p) eqn:Ap; [discriminate|].
  now rewrite <- Ap, set_is_active_same.
Qed.

Lemma ReliveProducers_run (env : ReliveProducersEnv) (c : ObjectID)
  (w : World) :
  rp_UpdateMany_err env = None ->
  snd (ReliveProducers env c w) = inr tt
  /\ producers_of (fst (ReliveProducers env c w))
     = Mongo.UpdateMany (kept_on c) (Producer.set_is_active true)
         (producers_of w).
Proof.
  intros Hu. unfold ReliveProducers. unfold_M. rewrite Hu. simpl. auto.
Qed.

Lemma reconnected_row (c : ObjectID) (p : Producer.t) :
  (let q := if on_connection c p then Producer.set_is_active false p else p in
   if kept_on c q then Producer.set_is_active true q else q)
  = reconnected c p.
Proof.
  unfold reconnected, kept_on, on_connection. cbv zeta.
  destruct (Producer.ConnectionId p =? c)%N eqn:C; simpl.
  - rewrite C. simpl. destruct (Producer.IsDeleted p); reflexivity.
  - rewrite C. reflexivity.
Qed.

(** C5.  With no driver failure, [KillProducers] on a connection followed by
    [ReliveProducers] on it leaves every row of that connection active
    exactly when it is not deleted (the deleted ones inactive), and every
    other row and field as it was. *)
Theorem KillProducers_then_ReliveProducers :
  forall envK envR c w,
    kp_All_err envK = None ->
    kp_UpdateMany_err envK = None ->
    rp_UpdateMany_err envR = None ->
    let w1 := fst (KillProducers envK c w) in
    let w2 := fst (ReliveProducers envR c w1) in
    snd (KillProducers envK c w) = inr tt
    /\ snd (ReliveProducers envR c w1) = inr tt
    /\ producers_of w2 = map (reconnected c) (producers_of w)
    /\ (forall p, In p (producers_of w2) -> on_connection c p = true ->
          (Producer.IsDeleted p = false -> Producer.IsActive p = true)
          /\ (Producer.IsDeleted p = true -> Producer.IsActive p = false)).
Proof.
  intros envK envR c w Ha Hk Hr w1 w2.
  destruct (KillProducers_run envK c w Ha Hk) as [K1 K2].
  destruct (ReliveProducers_run envR c w1 Hr) as [R1 R2].
  assert (Hmap : producers_of w2 = map (reconnected c) (producers_of w)).
  { subst w2. rewrite R2. subst w1. rewrite K2.
    unfold Mongo.UpdateMany. rewrite map_map.
    apply map_ext. intros p. apply reconnected_row. }
  split; [exact K1|]. split; [exact R1|]. split; [exact Hmap|].
  intros p Hp Hc. rewrite Hmap in Hp. apply in_map_iff in Hp.
  destruct Hp as (q & <- & _). revert Hc.
  unfold reconnected, on_connection.
  destruct (Producer.ConnectionId q =? c)%N eqn:C; simpl.
  - intros _. destruct (Producer.IsDeleted q); simpl; split; congruence.
  - rewrite C. discriminate.
Qed.

(** ** Producers: the name *)

Lemma createProducerDirect_name (env : CreateProducerEnv)
  (cpr : createProducerRequest) (w : World) (e : string) :
  validateProducerName (ToLower (cpr_Name cpr)) = Some e ->
  createProducerDirect env cpr w = (w, inl e).
Proof.
  intros H. unfold createProducerDirect. unfold_M. now rewrite H.
Qed.

(** C9, as the code has it.  [createProducerDirect] validates the lowercased
    name.  For an ASCII name: one of length 0 and one of length 33 are
    rejected with nothing written; the call is the call on the lowercased
    name, so an uppercase letter rejects nothing; when the lowercased name
    and type are valid and the lookups find an active connection, a station
    (found or created) and no producer of the lowercased name on it, and
    the insert goes through, the call returns [nil] and the producers
    collection gets one more row, under the lowercased name, active and not
    deleted; [validateProducerName] itself, given a name with an uppercase
    letter, rejects it. *)
Theorem createProducerDirect_validates_lowercased_name :
  forall env cpr w,
    isASCII (cpr_Name cpr) = true ->
    (String.length (cpr_Name cpr) = 0%nat ->
       createProducerDirect env cpr w
       = (w, inl "Producer name can not be empty"))
    /\ (String.length (cpr_Name cpr) = 33%nat ->
          createProducerDirect env cpr w
          = (w, inl "Producer name should be under 32 characters"))
    /\ createProducerDirect env cpr w
       = createProducerDirect env (with_Name (ToLower (cpr_Name cpr)) cpr) w
    /\ (forall connectionId connection station p0,
          validateProducerName (ToLower (cpr_Name cpr)) = None ->
          validateProducerType (ToLower (cpr_ProducerType cpr)) = None ->
          cp_ObjectIDFromHex env (cpr_ConnectionId cpr) = Ok connectionId ->
          cp_IsConnectionExist env connectionId = Ok (true, connection) ->
          Connection.IsActive connection = true ->
          station_found_or_created env cpr connection station ->
          cp_IsProducerExist env (ToLower (cpr_Name cpr)) (Station.ID station)
          = Ok (false, p0) ->
          cp_InsertOne_err env = None ->
          snd (createProducerDirect env cpr w) = inr tt
          /\ exists row,
              producers_of (fst (createProducerDirect env cpr w))
              = producers_of w ++ [row]
              /\ Producer.Name row = ToLower (cpr_Name cpr)
              /\ Producer.StationId row = Station.ID station
              /\ Producer.ConnectionId row = connectionId
              /\ Producer.IsActive row = true
              /\ Producer.IsDeleted row = false)
    /\ (hasUpper (cpr_Name cpr) = true ->
          validateProducerName (cpr_Name cpr) <> None).
Proof.
  intros env cpr w Hascii.
  pose proof (ToLower_length _ Hascii) as Hlen.
  split; [|split; [|split; [|split]]].
  - intros H0. apply createProducerDirect_name.
    unfold validateProducerName. now rewrite Hlen, H0.
  - intros H33. apply createProducerDirect_name.
    unfold validateProducerName. now rewrite Hlen, H33.
  - unfold createProducerDirect, with_Name. simpl.
    now rewrite (ToLower_idempotent _ Hascii).
  - intros connectionId connection station p0 Vn Vt Hh Hc Ha Hs Hp Hi.
    unfold createProducerDirect, producers_of. unfold_M.
    rewrite Vn, Vt, Hh. simpl. rewrite Hc. simpl. rewrite Ha. simpl.
    destruct Hs as [Hs|(s0 & Hs & Hd)]; rewrite Hs; simpl.
    + rewrite Hp. simpl. rewrite Hi. simpl.
      split; [reflexivity|]. eexists. split; [reflexivity|]. simpl. auto.
    + rewrite Hd. simpl. rewrite Hp. simpl. rewrite Hi. simpl.
      split; [reflexivity|]. eexists. split; [reflexivity|]. simpl. auto.
  - intros Hup. unfold validateProducerName.
    rewrite (re_MatchString_no_upper _ Hup). simpl.
    destruct (String.length (cpr_Name cpr) =? 0)%nat; [discriminate|].
    destruct (32 <? String.length (cpr_Name cpr))%nat; discriminate.
Qed.
(** ** Schemas: creation *)

Lemma set_schemas_same (s : Store) : set_schemas (schemasCollection s) s = s.
Proof. destruct s; reflexivity. Qed.

Lemma set_schemaVersions_same (s : Store) :
  set_schemaVersions (schemaVersionCollection s) s = s.
Proof. destruct s; reflexivity. Qed.

Lemma world_same (w : World) : mkWorld (store w) (journal w) = w.
Proof. destruct w; reflexivity. Qed.

Lemma writes_between_app (w : World) (s : Store) (l : list Write) :
  writes_between w (mkWorld s (journal w ++ l)) = l.
Proof.
  unfold writes_between. simpl.
  rewrite skipn_app, skipn_all, Nat.sub_diag. reflexivity.
Qed.

Lemma writes_between_same (w : World) : writes_between w w = [].
Proof. unfold writes_between. apply skipn_all. Qed.

(** The four ways a run of [CreateNewSchema] can go: it writes nothing; its
    upsert matches; its upsert inserts and the driver fails the version
    insert; its upsert inserts and the version is inserted. *)
Lemma CreateNewSchema_cases (env : CreateNewSchemaEnv)
  (body : CreateNewSchemaBody) (w : World) :
  let w' := fst (gin (CreateNewSchema env body) w) in
  let r := snd (gin (CreateNewSchema env body) w) in
  let newSchema :=
    Schema.mk (cns_NewObjectID_schema env) (ToLower (cns_Name body))
      (ToLower (cns_Type body)) in
  let schemas := schemasCollection (store w) in
  w' = w
  \/ (exists d,
        find (named (ToLower (cns_Name body))) schemas = Some d
        /\ w' = mkWorld (store w)
                  (journal w
                   ++ [schemas_UpdateOne_upsert newSchema
                         (Mongo.mkUpdateResult 1 0 0)])
        /\ r = abort SHOWABLE_ERROR_STATUS_CODE
                 "Schema with that name already exists")
  \/ (find (named (ToLower (cns_Name body))) schemas = None
      /\ cns_InsertOne_err env <> None
      /\ w' = mkWorld (set_schemas (schemas ++ [newSchema]) (store w))
                (journal w
                 ++ [schemas_UpdateOne_upsert newSchema
                       (Mongo.mkUpdateResult 0 0 1)])
      /\ r = abort 500 "Server error")
  \/ (exists user,
        let v :=
          SchemaVersion.mk (cns_NewObjectID_version env) 1 true
            (User.Username user) (cns_Now env) (cns_SchemaContent body)
            (Schema.ID newSchema) (cns_MessageStructName body) in
        find (named (ToLower (cns_Name body))) schemas = None
        /\ cns_InsertOne_err env = None
        /\ w' = mkWorld
                  (set_schemaVersions (versions_of w ++ [v])
                     (set_schemas (schemas ++ [newSchema]) (store w)))
                  (journal w
                   ++ [schemas_UpdateOne_upsert newSchema
                         (Mongo.mkUpdateResult 0 0 1);
                       schemaVersions_InsertOne v])).
Proof.
  cbv zeta.
  unfold gin, CreateNewSchema, Mongo.UpdateOne_upsert, Mongo.InsertOne,
    versions_of.
  unfold_M.
  repeat (case_split; simpl; auto).
  all: try discriminate.
  all: repeat match goal with
         | H : (_, _) = (_, _) |- _ => injection H as <- <-
         | H : inl _ = inl _ |- _ => injection H as <-
         | H : inr _ = inr _ |- _ => injection H as <-
         end; simpl in *.
  all: try discriminate.
  all: try (right; left; eexists; rewrite set_schemas_same;
            split; [reflexivity|split; reflexivity]).
  all: try (right; right; left;
            split; [reflexivity|split; [congruence|split; reflexivity]]).
  all: try (right; right; right; eexists; cbv zeta;
            split; [reflexivity|split; [reflexivity|]];
            rewrite <- app_assoc; reflexivity).
Qed.

Lemma validateSchemaType_protobuf (schemaType : string) :
  validateSchemaType schemaType = None ->
  (schemaType =? "protobuf")%string = true.
Proof.
  unfold validateSchemaType.
  destruct (schemaType =? "protobuf")%string; [reflexivity|].
  destruct ((schemaType =? "avro")%string || (schemaType =? "json")%string);
    discriminate.
Qed.

(** C1.  For a request whose name, type, message struct name and content
    pass validation: when the upsert on the schema name is made and matches
    a row, the response is "Schema with that name already exists" and no
    SchemaVersion is inserted; when it is made and inserts the schema row
    (and the driver does not fail the version insert that follows), exactly
    one SchemaVersion is inserted, with version number 1, active, for that
    schema.  The upsert is made once [IsSchemaExist] found no such schema and
    the user is known, and it matches exactly when a row of that name is in
    the store by then. *)
Theorem CreateNewSchema_upsert_matched_or_inserted :
  forall env body w,
    CreateNewSchema_valid body ->
    let w' := fst (gin (CreateNewSchema env body) w) in
    let r := snd (gin (CreateNewSchema env body) w) in
    (forall s res,
        In (schemas_UpdateOne_upsert s res) (writes_between w w') ->
        Mongo.MatchedCount res <> 0 ->
        r = abort SHOWABLE_ERROR_STATUS_CODE
              "Schema with that name already exists"
        /\ versions_of w' = versions_of w
        /\ forall v, ~ In (schemaVersions_InsertOne v) (writes_between w w'))
    /\ (forall s res,
          In (schemas_UpdateOne_upsert s res) (writes_between w w') ->
          Mongo.MatchedCount res = 0 ->
          cns_InsertOne_err env = None ->
          In s (schemasCollection (store w'))
          /\ exists v,
              versions_of w' = versions_of w ++ [v]
              /\ SchemaVersion.VersionNumber v = 1
              /\ SchemaVersion.Active v = true
              /\ SchemaVersion.SchemaId v = Schema.ID s
              /\ writes_between w w'
                 = [schemas_UpdateOne_upsert s res;
                    schemaVersions_InsertOne v])
    /\ (forall s0 user,
          cns_IsSchemaExist env (ToLower (cns_Name body)) = Ok (false, s0) ->
          cns_getUserDetailsFromMiddleware env = Ok user ->
          cns_UpdateOne_err env = None ->
          exists s res,
            In (schemas_UpdateOne_upsert s res) (writes_between w w')
            /\ Schema.Name s = ToLower (cns_Name body)
            /\ (Mongo.MatchedCount res <> 0 <->
                exists d, In d (schemasCollection (store w))
                          /\ Schema.Name d = ToLower (cns_Name body))).
Proof.
  intros env body w (Vn & Vt & Vm & Vc) w' r.
  split; [|split].
  - intros s res Hin Hm.
    destruct (CreateNewSchema_cases env body w)
      as [E|[(d & F & E & R)|[(F & D & E & R)|(u & F & D & E)]]];
      fold w' in E; try fold r in R; rewrite E in *.
    + rewrite writes_between_same in Hin. contradiction.
    + rewrite writes_between_app in *. split; [exact R|].
      split; [reflexivity|].
      intros v [Hv|[]]. discriminate.
    + rewrite writes_between_app in Hin.
      destruct Hin as [Hin|[]]. injection Hin as <- <-. now elim Hm.
    + rewrite writes_between_app in Hin.
      destruct Hin as [Hin|[Hin|[]]]; [|discriminate].
      injection Hin as <- <-. now elim Hm.
  - intros s res Hin Hm Hd.
    destruct (CreateNewSchema_cases env body w)
      as [E|[(d & F & E & R)|[(F & D & E & R)|(u & F & D & E)]]];
      fold w' in E; rewrite E in *.
    + rewrite writes_between_same in Hin. contradiction.
    + rewrite writes_between_app in Hin.
      destruct Hin as [Hin|[]]. injection Hin as <- <-. discriminate.
    + contradiction.
    + rewrite writes_between_app in *.
      destruct Hin as [Hin|[Hin|[]]]; [|discriminate].
      injection Hin as <- <-. split.
      * simpl. apply in_or_app. right. left. reflexivity.
      * eexists. split; [reflexivity|]. simpl. auto.
  - intros s0 user He Hu Hd.
    pose proof (validateSchemaType_protobuf _ Vt) as Pb.
    subst w'. unfold gin, CreateNewSchema, Mongo.UpdateOne_upsert. unfold_M.
    rewrite Vn, He, Hu, Vt, Pb, Vm, Vc, Hd. simpl.
    destruct (find (named (ToLower (cns_Name body)))
                (schemasCollection (store w))) as [d|] eqn:F; simpl.
    + eexists _, _. rewrite writes_between_app.
      split; [left; reflexivity|]. split; [reflexivity|]. simpl.
      split; [intros _|discriminate].
      apply find_some in F. destruct F as [Fi Fn].
      exists d. split; [exact Fi|]. now apply String.eqb_eq.
    + assert (Nf : ~ exists d, In d (schemasCollection (store w))
                               /\ Schema.Name d = ToLower (cns_Name body)).
      { intros (d & Hi & Hn). pose proof (find_none _ _ F d Hi) as Hf.
        unfold named in Hf. apply String.eqb_neq in Hf. contradiction. }
      repeat (case_split; simpl).
      all: eexists _, _; rewrite <- ?app_assoc; rewrite writes_between_app.
      all: split; [left; reflexivity|]; split; [reflexivity|]; simpl.
      all: split; [intros Hm; now elim Hm|intros Hx; now elim Nf].
Qed.

(** ** Schemas: a new version *)

Lemma int_add_exact (a b : Z) :
  int_min <= a + b <= int_max -> int_add a b = a + b.
Proof.
  unfold int_add, int_wrap, int_min, int_max. intros H.
  rewrite Z.mod_small; lia.
Qed.

Lemma CountDocuments_nonneg {A : Type} (f : A -> bool) (l : list A) :
  0 <= Mongo.CountDocuments f l.
Proof. unfold Mongo.CountDocuments. lia. Qed.

Lemma find_some_iff {A : Type} (f : A -> bool) (l : list A) :
  (exists d, find f l = Some d) <-> exists d, In d l /\ f d = true.
Proof.
  split.
  - intros (d & H). exists d. now apply find_some in H.
  - intros (d & Hi & Hf). destruct (find f l) as [x|] eqn:F; [eauto|].
    rewrite (find_none _ _ F d Hi) in Hf. discriminate.
Qed.

(** C2.  For a request on an existing schema, with a message struct name and
    a content valid for its type, and fewer than 2^63 - 1 versions stored:
    the one write a run makes is the set-on-insert upsert keyed on the
    schema id and on the count of the schema's versions plus 1, of a version
    that is not active; it matches exactly when a version of that key is
    stored, and then the response is "Version already exists" and the store
    is as it was; otherwise that version is the one document added.  The
    upsert is made whenever the user is known and the driver fails neither
    the count nor the upsert. *)
Theorem CreateNewVersion_count_plus_one_set_on_insert :
  forall env body w schema,
    cnv_IsSchemaExist env (ToLower (cnv_SchemaName body)) = Ok (true, schema) ->
    CreateNewVersion_valid schema body ->
    versions_count (Schema.ID schema) w < int_max ->
    let w' := fst (gin (CreateNewVersion env body) w) in
    let r := snd (gin (CreateNewVersion env body) w) in
    let next := versions_count (Schema.ID schema) w + 1 in
    (forall v res,
        In (schemaVersions_UpdateOne_upsert v res) (writes_between w w') ->
        SchemaVersion.SchemaId v = Schema.ID schema
        /\ SchemaVersion.VersionNumber v = next
        /\ SchemaVersion.Active v = false
        /\ writes_between w w' = [schemaVersions_UpdateOne_upsert v res]
        /\ (Mongo.MatchedCount res <> 0 <->
            exists d, In d (versions_of w)
                      /\ version_key (Schema.ID schema) next d = true)
        /\ (Mongo.MatchedCount res <> 0 ->
            r = abort SHOWABLE_ERROR_STATUS_CODE "Version already exists"
            /\ store w' = store w)
        /\ (Mongo.MatchedCount res = 0 ->
            versions_of w' = versions_of w ++ [v]))
    /\ (forall user,
          cnv_getUserDetailsFromMiddleware env = Ok user ->
          cnv_CountDocuments_err env = None ->
          cnv_UpdateOne_err env = None ->
          exists res,
            In (schemaVersions_UpdateOne_upsert
                  (SchemaVersion.mk (cnv_NewObjectID env) next false
                     (User.Username user) (cnv_Now env)
                     (cnv_SchemaContent body) (Schema.ID schema)
                     (cnv_MessageStructName body))
                  res)
               (writes_between w w')).
Proof.
  intros env body w schema He (Vm & Vc) Hlt w' r next.
  assert (Hnext : int_add (versions_count (Schema.ID schema) w) 1 = next).
  { apply int_add_exact. subst next.
    pose proof (CountDocuments_nonneg (of_schema (Schema.ID schema))
                  (schemaVersionCollection (store w))) as Hc.
    unfold versions_count in *. unfold int_min, int_max in *. lia. }
  assert (Hk : forall d, In d (versions_of w) ->
                 version_key (Schema.ID schema) next d = true ->
                 find (version_key (Schema.ID schema) next) (versions_of w)
                 = None -> False).
  { intros d Hi Hd F. rewrite (find_none _ _ F d Hi) in Hd. discriminate. }
  subst w' r.
  unfold gin, CreateNewVersion, getVersionsCount, Mongo.UpdateOne_upsert.
  unfold_M. rewrite He. simpl.
  unfold versions_count in Hnext. unfold versions_of in *.
  assert (Vm' : (if (Schema.Type_ schema =? "protobuf")%string
                 then validateMessageStructName (cnv_MessageStructName body)
                 else None) = None)
    by (destruct (Schema.Type_ schema =? "protobuf")%string; auto).
  split.
  - intros v res.
    destruct (Schema.Type_ schema =? "protobuf")%string;
      rewrite ?Vm', Vc; simpl.
    all: repeat (case_split; simpl).
    all: rewrite ?Hnext in *.
    all: rewrite ?writes_between_same, ?set_schemaVersions_same, ?world_same;
      rewrite ?writes_between_app.
    all: try (intros []; fail).
    all: intros [Hin|[]]; injection Hin as <- <-; simpl.
    all: repeat match goal with |- _ /\ _ => split | |- _ <-> _ => split end.
    all: try reflexivity.
    all: try (intros Hm; exfalso; apply Hm; reflexivity).
    all: try (intros Hm; discriminate Hm).
    all: try (intros (d & Hi & Hd); exfalso; eapply Hk; eassumption).
    all: try (intros _; split; reflexivity).
    all: try (intros _; apply find_some in Heqo; destruct Heqo; eauto; fail).
    all: intros _; discriminate.
  - intros user Hu Hc Hd. rewrite Hu. simpl.
    destruct (Schema.Type_ schema =? "protobuf")%string;
      rewrite ?Vm', Vc; simpl.
    all: rewrite Hc, Hd; simpl; rewrite Hnext.
    all: repeat (case_split; simpl).
    all: rewrite ?writes_between_app.
    all: eexists; left; reflexivity.
Qed.

(** ** Schemas: rollback *)

Lemma Forall2_compose {A : Type} (R S T : A -> A -> Prop) (l m n : list A) :
  (forall a b c, R a b -> S b c -> T a c) ->
  Forall2 R l m -> Forall2 S m n -> Forall2 T l n.
Proof.
  intros H F. revert n. induction F; intros n G; inversion G; subst;
    constructor; eauto.
Qed.

Lemma set_active_same (v : SchemaVersion.t) :
  SchemaVersion.set_active (SchemaVersion.Active v) v = v.
Proof. destruct v; reflexivity. Qed.

Lemma filter_not_nil {A : Type} (f : A -> bool) (l : list A) (x : A) :
  In x l -> f x = true -> exists p rest, filter f l = p :: rest.
Proof.
  intros Hi Hf. destruct (filter f l) as [|p rest] eqn:F; [|eauto].
  rewrite (filter_nil_none f l F x Hi) in Hf. discriminate.
Qed.

(** What [updateActiveVersion] leaves of a collection that holds the target
    version: the first document of the target's key is the schema's one
    active version. *)
Lemma updateActiveVersion_only_active (schemaId : ObjectID) (target : Z)
  (l : list SchemaVersion.t) :
  (exists d, In d l /\ version_key schemaId target d = true) ->
  let l' :=
    Mongo.UpdateOne (version_key schemaId target)
      (SchemaVersion.set_active true)
      (Mongo.UpdateMany (of_schema schemaId) (SchemaVersion.set_active false)
         l) in
  (exists t,
      only_active schemaId t l'
      /\ SchemaVersion.SchemaId t = schemaId
      /\ SchemaVersion.VersionNumber t = target)
  /\ Forall2 (flag_only schemaId) l l'.
Proof.
  intros (d & Hd & Kd) l'.
  set (m := Mongo.UpdateMany (of_schema schemaId)
              (SchemaVersion.set_active false) l) in *.
  assert (Hm : forall v, In v m ->
                 SchemaVersion.SchemaId v = schemaId ->
                 SchemaVersion.Active v = false).
  { intros v Hv Sv. unfold m, Mongo.UpdateMany in Hv.
    apply in_map_iff in Hv. destruct Hv as (a & <- & _).
    unfold of_schema in *.
    destruct (SchemaVersion.SchemaId a =? schemaId)%N eqn:E;
      [reflexivity|].
    apply N.eqb_neq in E. contradiction. }
  assert (Kd' : exists p rest, filter (version_key schemaId target) m
                               = p :: rest).
  { apply filter_not_nil
      with (x := if of_schema schemaId d
                 then SchemaVersion.set_active false d else d).
    - unfold m, Mongo.UpdateMany.
      apply (in_map (fun d => if of_schema schemaId d
                              then SchemaVersion.set_active false d else d)).
      exact Hd.
    - destruct (of_schema schemaId d); exact Kd. }
  destruct Kd' as (p & rest & F).
  destruct (UpdateOne_first _ (SchemaVersion.set_active true) m p rest F)
    as (l1 & l2 & Hl & _ & _ & Kp & Hu).
  split.
  - exists (SchemaVersion.set_active true p).
    unfold version_key in Kp. apply andb_true_iff in Kp.
    destruct Kp as [Kp1 Kp2].
    apply N.eqb_eq in Kp1. apply Z.eqb_eq in Kp2.
    split; [|split; [exact Kp1|exact Kp2]].
    exists l1, l2. split; [exact Hu|]. split; [reflexivity|].
    intros v Hv Sv. apply Hm; [|exact Sv].
    rewrite Hl. apply in_app_or in Hv. apply in_or_app.
    destruct Hv; [left|right; right]; assumption.
  - eapply Forall2_compose;
      [|apply UpdateMany_rowwise|apply UpdateOne_rowwise].
    intros a b c Hab Hbc. simpl in Hab, Hbc. unfold flag_only.
    assert (Kb : forall x, version_key schemaId target x = true ->
                   SchemaVersion.SchemaId x = schemaId).
    { intros x Kx. unfold version_key in Kx. apply andb_true_iff in Kx.
      destruct Kx as [Kx _]. now apply N.eqb_eq in Kx. }
    destruct Hab as [->|[Sa ->]]; destruct Hbc as [->|[Kc ->]]; simpl.
    + split; [now rewrite set_active_same|auto].
    + split; [reflexivity|]. intros N. now apply Kb in Kc.
    + split; [reflexivity|]. unfold of_schema in Sa.
      apply N.eqb_eq in Sa. intros N. contradiction.
    + split; [reflexivity|]. unfold of_schema in Sa.
      apply N.eqb_eq in Sa. intros N. contradiction.
Qed.

(** The run of [RollBackVersion] once both lookups found what they looked
    for and no call failed. *)
Lemma RollBackVersion_run (env : RollBackVersionEnv)
  (body : RollBackVersionBody) (w : World) (schema : Schema.t)
  (v0 : SchemaVersion.t) (details : ExtendedSchemaDetails.t) :
  rbv_IsSchemaExist env (ToLower (rbv_SchemaName body)) = Ok (true, schema) ->
  rbv_isSchemaVersionExists env (rbv_VersionNumber body) (Schema.ID schema)
  = Ok (true, v0) ->
  rbv_CountDocuments_err env = None ->
  rbv_UpdateMany_err env = None ->
  rbv_UpdateOne_err env = None ->
  rbv_getExtendedSchemaDetails env schema = Ok details ->
  gin (RollBackVersion env body) w =
  (if 1 <? versions_count (Schema.ID schema) w then
     mkWorld
       (set_schemaVersions
          (Mongo.UpdateOne
             (version_key (Schema.ID schema) (rbv_VersionNumber body))
             (SchemaVersion.set_active true)
             (Mongo.UpdateMany (of_schema (Schema.ID schema))
                (SchemaVersion.set_active false) (versions_of w)))
          (store w))
       (journal w
        ++ [schemaVersions_UpdateMany_inactive (Schema.ID schema);
            schemaVersions_UpdateOne_active (Schema.ID schema)
              (rbv_VersionNumber body)])
   else w,
   mkResponse 200 (JSON_ExtendedSchemaDetails details)).
Proof.
  intros He Hv Hc Hm Ho Hd.
  unfold gin, RollBackVersion, updateActiveVersion, getVersionsCount.
  unfold_M. rewrite He. simpl. rewrite Hv. simpl. rewrite Hc. simpl.
  fold (versions_count (Schema.ID schema) w).
  destruct (1 <? versions_count (Schema.ID schema) w); simpl.
  - rewrite Hm, Ho. simpl. rewrite Hd. simpl.
    rewrite <- app_assoc. destruct w as [s j]; destruct s; reflexivity.
  - rewrite Hd. reflexivity.
Qed.

(** C6.  [RollBackVersion] answers "Schema does not exist" or "Schema version
    does not exist", and writes nothing, when the schema or the target
    version is not found.  When both are found (and no call fails): on a
    schema of two versions or more the target is, after the run, the one
    active version of the schema, no field but [active] and no version of
    another schema having changed; on a schema of one version the run
    answers 200 and writes nothing. *)
Theorem RollBackVersion_target_only_active :
  forall env body w,
    let w' := fst (gin (RollBackVersion env body) w) in
    let r := snd (gin (RollBackVersion env body) w) in
    (forall s,
        rbv_IsSchemaExist env (ToLower (rbv_SchemaName body)) = Ok (false, s) ->
        r = abort SHOWABLE_ERROR_STATUS_CODE "Schema does not exist"
        /\ w' = w)
    /\ (forall schema v,
          rbv_IsSchemaExist env (ToLower (rbv_SchemaName body))
          = Ok (true, schema) ->
          rbv_isSchemaVersionExists env (rbv_VersionNumber body)
            (Schema.ID schema) = Ok (false, v) ->
          r = abort SHOWABLE_ERROR_STATUS_CODE "Schema version does not exist"
          /\ w' = w)
    /\ (forall schema v0 details,
          rbv_IsSchemaExist env (ToLower (rbv_SchemaName body))
          = Ok (true, schema) ->
          rbv_isSchemaVersionExists env (rbv_VersionNumber body)
            (Schema.ID schema) = Ok (true, v0) ->
          (exists d, In d (versions_of w)
                     /\ version_key (Schema.ID schema) (rbv_VersionNumber body)
                          d = true) ->
          rbv_CountDocuments_err env = None ->
          rbv_UpdateMany_err env = None ->
          rbv_UpdateOne_err env = None ->
          rbv_getExtendedSchemaDetails env schema = Ok details ->
          r = mkResponse 200 (JSON_ExtendedSchemaDetails details)
          /\ (2 <= versions_count (Schema.ID schema) w ->
              (exists t,
                  only_active (Schema.ID schema) t (versions_of w')
                  /\ SchemaVersion.SchemaId t = Schema.ID schema
                  /\ SchemaVersion.VersionNumber t = rbv_VersionNumber body)
              /\ Forall2 (flag_only (Schema.ID schema))
                   (versions_of w) (versions_of w'))
          /\ (versions_count (Schema.ID schema) w = 1 ->
              w' = w)).
Proof.
  intros env body w w' r. split; [|split].
  - intros s He. subst w' r. unfold gin, RollBackVersion. unfold_M.
    rewrite He. simpl. auto.
  - intros schema v He Hv. subst w' r. unfold gin, RollBackVersion. unfold_M.
    rewrite He. simpl. rewrite Hv. simpl. auto.
  - intros schema v0 details He Hv Hin Hc Hm Ho Hd. subst w' r.
    rewrite (RollBackVersion_run env body w schema v0 details He Hv Hc Hm Ho Hd).
    simpl. split; [reflexivity|]. split.
    + intros H2.
      replace (1 <? versions_count (Schema.ID schema) w) with true
        by (symmetry; apply Z.ltb_lt; lia).
      unfold versions_of at 2 4. simpl.
      apply updateActiveVersion_only_active. exact Hin.
    + intros H1. rewrite H1. reflexivity.
Qed.

(** ** Schemas: validation alone *)

(** C8, as the code has it.  [ValidateSchema] reads the type and the content
    of the request and applies [validateSchemaType] and
    [validateSchemaContent] to them, as [CreateNewSchema] does, and no rule
    on a message struct name; it writes nothing; it answers
    [{is_valid: true}] when both rules pass, and otherwise the error of the
    first rule that fails, which is also what [CreateNewSchema] answers to a
    request of that type and content that carries a message struct name and
    gets as far as these rules. *)
Theorem ValidateSchema_type_and_content_rules :
  forall body w,
    let r := snd (gin (ValidateSchema body) w) in
    fst (gin (ValidateSchema body) w) = w
    /\ r = match validateSchemaType (ToLower (vs_SchemaType body)) with
           | Some e => abort SHOWABLE_ERROR_STATUS_CODE e
           | None =>
               match validateSchemaContent (vs_SchemaContent body)
                       (ToLower (vs_SchemaType body)) with
               | Some e => abort SCHEMA_VALIDATION_ERROR_STATUS_CODE e
               | None => mkResponse 200 (H_is_valid true)
               end
           end
    /\ (forall env cbody s0 user,
          cns_Type cbody = vs_SchemaType body ->
          cns_SchemaContent cbody = vs_SchemaContent body ->
          validateSchemaName (ToLower (cns_Name cbody)) = None ->
          cns_IsSchemaExist env (ToLower (cns_Name cbody)) = Ok (false, s0) ->
          cns_getUserDetailsFromMiddleware env = Ok user ->
          validateMessageStructName (cns_MessageStructName cbody) = None ->
          r <> mkResponse 200 (H_is_valid true) ->
          gin (CreateNewSchema env cbody) w = (w, r)).
Proof.
  intros body w r.
  assert (R : gin (ValidateSchema body) w
              = (w,
                 match validateSchemaType (ToLower (vs_SchemaType body)) with
                 | Some e => abort SHOWABLE_ERROR_STATUS_CODE e
                 | None =>
                     match validateSchemaContent (vs_SchemaContent body)
                             (ToLower (vs_SchemaType body)) with
                     | Some e => abort SCHEMA_VALIDATION_ERROR_STATUS_CODE e
                     | None => mkResponse 200 (H_is_valid true)
                     end
                 end)).
  { unfold gin, ValidateSchema. unfold_M.
    repeat (case_split; simpl); reflexivity. }
  subst r. rewrite R. simpl.
  split; [reflexivity|]. split; [reflexivity|].
  intros env cbody s0 user Ht Hc Vn He Hu Vm Hr.
  unfold gin, CreateNewSchema. unfold_M.
  rewrite Vn, He, Hu, Ht, Hc. simpl.
  destruct (validateSchemaType (ToLower (vs_SchemaType body))) as [e|] eqn:Vt;
    simpl; [reflexivity|].
  rewrite (validateSchemaType_protobuf _ Vt), Vm. simpl.
  destruct (validateSchemaContent (vs_SchemaContent body)
              (ToLower (vs_SchemaType body))) as [e|] eqn:Vc;
    simpl; [reflexivity|].
  now elim Hr.
Qed.

(** ** The station overview served on the socket *)

(** C10, as the code has it.  When the station exists and one of the reads
    that follow fails, [getStationOverviewData] returns the zero
    [stationOverviewData], its three slices [nil], and no error; the
    registration handler emits that value and joins the room.  When every
    read succeeds the value returned is made of what was read: it is the
    zero value only if the three slices read are [nil] and the two numbers
    0, so a station with nothing to show, whose reads return empty slices,
    does not yield it.  An error is returned only when the station lookup
    fails or finds no station. *)
Theorem getStationOverviewData_read_errors_give_zero_snapshot :
  forall (ExtendedConsumer AuditLog : Type)
         (env : OverviewEnv ExtendedConsumer AuditLog) stationName,
    (forall station,
        ov_IsStationExist env (ToLower stationName) = Ok (true, station) ->
        some_read_fails env station ->
        getStationOverviewData env stationName
        = (stationOverviewData_zero, None)
        /\ fst (register_station_overview_data env stationName)
           = [LeaveAll;
              Emit "station_overview_data" stationOverviewData_zero;
              Join ("station_overview_group_" ++ stationName)%string])
    /\ (forall station producers consumers auditLogs totalMessages avgMsgSize,
          ov_IsStationExist env (ToLower stationName) = Ok (true, station) ->
          ov_GetProducersByStation env station = Ok producers ->
          ov_GetConsumersByStation env station = Ok consumers ->
          ov_GetAuditLogsByStation env station = Ok auditLogs ->
          ov_GetTotalMessages env station = Ok totalMessages ->
          ov_GetAvgMsgSize env station = Ok avgMsgSize ->
          getStationOverviewData env stationName
          = (mkStationOverviewData producers consumers totalMessages
               avgMsgSize auditLogs,
             None)
          /\ (getStationOverviewData env stationName
              = (stationOverviewData_zero, None)
              <-> producers = Nil /\ consumers = Nil /\ auditLogs = Nil
                  /\ totalMessages = 0 /\ avgMsgSize = 0))
    /\ (snd (getStationOverviewData env stationName) <> None <->
        (exists e, ov_IsStationExist env (ToLower stationName) = Err e)
        \/ (exists station,
              ov_IsStationExist env (ToLower stationName)
              = Ok (false, station))).
Proof.
  intros ExtendedConsumer AuditLog env stationName. split; [|split].
  - intros station He Hf.
    assert (G : getStationOverviewData env stationName
                = (stationOverviewData_zero, None)).
    { unfold getStationOverviewData. rewrite He. simpl.
      destruct Hf as [(e & H)|[(e & H)|[(e & H)|[(e & H)|(e & H)]]]].
      all: repeat (case_split; try reflexivity; try congruence). }
    split; [exact G|].
    unfold register_station_overview_data. rewrite G. reflexivity.
  - intros station producers consumers auditLogs totalMessages avgMsgSize
      He Hp Hc Ha Ht Hg.
    assert (G : getStationOverviewData env stationName
                = (mkStationOverviewData producers consumers totalMessages
                     avgMsgSize auditLogs,
                   None)).
    { unfold getStationOverviewData. rewrite He. simpl.
      rewrite Hp, Hc, Ha, Ht, Hg. reflexivity. }
    split; [exact G|]. rewrite G. unfold stationOverviewData_zero. split.
    + intros E. injection E as -> -> -> -> ->. auto.
    + intros (-> & -> & -> & -> & ->). reflexivity.
  - unfold getStationOverviewData.
    destruct (ov_IsStationExist env (ToLower stationName))
      as [[[|] station]|e] eqn:He; simpl.
    + split.
      * repeat (case_split; simpl); intros H; now elim H.
      * intros [(e & H)|(x & H)]; discriminate.
    + split; [intros _; right; eauto|intros _; discriminate].
    + split; [intros _; left; eauto|intros _; discriminate].
Qed.
(** ** The station overview: one row per name, the newest *)

Lemma slices_Contains_In (l : list string) (x : string) :
  slices_Contains l x = true <-> In x l.
Proof.
  unfold slices_Contains. rewrite existsb_exists. split.
  - intros (y & Hy & E). apply String.eqb_eq in E. now subst.
  - intros H. exists x. split; [exact H|apply String.eqb_refl].
Qed.

Lemma slices_Contains_not_In (l : list string) (x : string) :
  slices_Contains l x = false <-> ~ In x l.
Proof.
  rewrite <- slices_Contains_In.
  destruct (slices_Contains l x); split; congruence.
Qed.

(** The loop, as a whole: the names seen, and the kept rows split by the
    three tests. *)
Lemma partition_loop_firsts (l : list ExtendedProducer.t) (acc : Partition) :
  fold_left partition_step l acc =
  let kept := firsts_by_name (producersNames acc) l in
  mkPartition
    (producersNames acc ++ map ExtendedProducer.Name kept)
    (connectedProducers acc ++ filter goes_connected kept)
    (disconnectedProducers acc ++ filter goes_disconnected kept)
    (deletedProducers acc ++ filter goes_deleted kept).
Proof.
  revert acc. induction l as [|e l IH]; intros acc; simpl.
  - rewrite !app_nil_r. destruct acc; reflexivity.
  - unfold partition_step at 2.
    destruct (slices_Contains (producersNames acc) (ExtendedProducer.Name e))
      eqn:C; [apply IH|].
    rewrite IH. unfold goes_connected, goes_disconnected, goes_deleted.
    simpl.
    destruct (ExtendedProducer.IsActive e), (ExtendedProducer.IsDeleted e);
      simpl; rewrite <- ?app_assoc; reflexivity.
Qed.

Lemma firsts_first_occurrence (l : list ExtendedProducer.t) :
  forall seen e,
    In e (firsts_by_name seen l) ->
    ~ In (ExtendedProducer.Name e) seen
    /\ exists l1 l2,
        l = l1 ++ e :: l2
        /\ forall x, In x l1 ->
                     ExtendedProducer.Name x <> ExtendedProducer.Name e.
Proof.
  induction l as [|a l IH]; intros seen e H; simpl in H; [contradiction|].
  destruct (slices_Contains seen (ExtendedProducer.Name a)) eqn:C.
  - destruct (IH seen e H) as (Hn & l1 & l2 & -> & Hl).
    split; [exact Hn|]. exists (a :: l1), l2. split; [reflexivity|].
    intros x [<-|Hx]; [|auto].
    apply slices_Contains_In in C. intros E. rewrite E in C. contradiction.
  - destruct H as [<-|H].
    + split; [now apply slices_Contains_not_In|].
      exists [], l. split; [reflexivity|]. intros x [].
    + destruct (IH _ e H) as (Hn & l1 & l2 & -> & Hl).
      split; [intros Hs; apply Hn; apply in_or_app; now left|].
      exists (a :: l1), l2. split; [reflexivity|].
      intros x [<-|Hx]; [|auto].
      intros E. apply Hn. apply in_or_app. right. left. exact E.
Qed.

Lemma firsts_NoDup (l : list ExtendedProducer.t) :
  forall seen, NoDup (map ExtendedProducer.Name (firsts_by_name seen l)).
Proof.
  induction l as [|a l IH]; intros seen; simpl; [constructor|].
  destruct (slices_Contains seen (ExtendedProducer.Name a)); [apply IH|].
  simpl. constructor; [|apply IH].
  intros H. apply in_map_iff in H. destruct H as (e & E & He).
  destruct (firsts_first_occurrence _ _ _ He) as (Hn & _).
  apply Hn. apply in_or_app. right. left. now symmetry.
Qed.

Lemma firsts_cover (l : list ExtendedProducer.t) :
  forall seen x,
    In x l -> ~ In (ExtendedProducer.Name x) seen ->
    exists e, In e (firsts_by_name seen l)
              /\ ExtendedProducer.Name e = ExtendedProducer.Name x.
Proof.
  induction l as [|a l IH]; intros seen x Hx Hn; [contradiction|]. simpl.
  destruct (slices_Contains seen (ExtendedProducer.Name a)) eqn:C.
  - destruct Hx as [->|Hx].
    + apply slices_Contains_In in C. contradiction.
    + apply IH; assumption.
  - destruct Hx as [->|Hx]; [exists x; split; [now left|reflexivity]|].
    destruct (String.eqb_spec (ExtendedProducer.Name a)
                (ExtendedProducer.Name x)) as [E|N].
    + exists a. split; [now left|exact E].
    + destruct (IH (seen ++ [ExtendedProducer.Name a]) x Hx)
        as (e & He & En).
      * intros H. apply in_app_or in H. destruct H as [H|[H|[]]]; auto.
      * exists e. split; [now right|exact En].
Qed.

Lemma firsts_In (l : list ExtendedProducer.t) seen e :
  In e (firsts_by_name seen l) -> In e l.
Proof.
  intros H. destruct (firsts_first_occurrence _ _ _ H) as (_ & l1 & l2 & -> & _).
  apply in_or_app. right. now left.
Qed.

(** The three tests take each row to one list and one only. *)
Lemma three_way_split (l : list ExtendedProducer.t) :
  Permutation l
    (filter goes_connected l ++ filter goes_disconnected l
     ++ filter goes_deleted l).
Proof.
  induction l as [|a l IH]; simpl; [constructor|].
  unfold goes_connected at 1, goes_disconnected at 1, goes_deleted at 1.
  destruct (ExtendedProducer.IsActive a), (ExtendedProducer.IsDeleted a);
    simpl.
  - now constructor.
  - now constructor.
  - rewrite app_assoc. apply Permutation_cons_app. now rewrite <- app_assoc.
  - apply Permutation_cons_app. exact IH.
Qed.

(** ** Sorted lists *)

Lemma Sorted_weaken {A : Type} (R S : A -> A -> Prop) (l : list A) :
  (forall a b, R a b -> S a b) -> Sorted R l -> Sorted S l.
Proof.
  intros H HS. induction HS as [|a l HS IH Hd]; constructor; auto.
  destruct Hd; constructor; auto.
Qed.

Lemma StronglySorted_after {A : Type} (R : A -> A -> Prop) (l1 l2 : list A)
  (a : A) :
  StronglySorted R (l1 ++ a :: l2) -> Forall (R a) l2.
Proof.
  induction l1 as [|x l1 IH]; simpl; intros H.
  - now apply StronglySorted_inv in H.
  - apply StronglySorted_inv in H. now apply IH.
Qed.

Lemma date_desc_StronglySorted (l : list Producer.t) :
  Sorted date_desc l -> StronglySorted date_desc l.
Proof.
  apply Sorted_StronglySorted. intros a b c. unfold date_desc. lia.
Qed.

Lemma newer_first_asymmetric (a b : ExtendedProducer.t) :
  newer_first a b = true -> newer_first b a = false.
Proof.
  unfold newer_first, Before. intros H. apply Z.ltb_lt in H.
  apply Z.ltb_ge. lia.
Qed.

Lemma sort_Slice_newer_first (l : list ExtendedProducer.t) :
  sort_Slice_spec ->
  Permutation l (sort_Slice newer_first l)
  /\ Sorted ext_date_desc (sort_Slice newer_first l).
Proof.
  intros Spec.
  destruct (Spec newer_first l newer_first_asymmetric) as [P S].
  split; [exact P|].
  eapply Sorted_weaken; [|exact S].
  intros a b H. unfold newer_first, Before in H. unfold ext_date_desc.
  apply Z.ltb_ge in H. exact H.
Qed.

(** A kept row comes from a row of the station that no row of its name is
    newer than. *)
Lemma kept_row_is_newest (s : Store) (rows sorted : list Producer.t)
  (e : ExtendedProducer.t) :
  Permutation rows sorted ->
  Sorted date_desc sorted ->
  In e (firsts_by_name [] (map (lookup_project s) sorted)) ->
  exists p, newest_of_its_name rows p /\ e = lookup_project s p.
Proof.
  intros Perm Sort He.
  destruct (firsts_first_occurrence _ _ _ He) as (_ & l1 & l2 & Hl & Hbefore).
  apply map_eq_app in Hl. destruct Hl as (s1 & s2' & Hs & H1 & H2).
  apply map_eq_cons in H2. destruct H2 as (p & s2 & -> & Hp & H2).
  exists p. split; [|now symmetry].
  split.
  - apply (Permutation_in _ (Permutation_sym Perm)). rewrite Hs.
    apply in_or_app. right. now left.
  - intros q Hq Hname.
    apply (Permutation_in _ Perm) in Hq. rewrite Hs in Hq.
    apply in_app_or in Hq. destruct Hq as [Hq|[->|Hq]].
    + exfalso. apply (Hbefore (lookup_project s q)).
      * rewrite <- H1. now apply in_map.
      * rewrite <- Hp. simpl. exact Hname.
    + lia.
    + apply date_desc_StronglySorted in Sort. rewrite Hs in Sort.
      apply StronglySorted_after in Sort.
      rewrite Forall_forall in Sort. exact (Sort q Hq).
Qed.

(** C7.  Whatever the two sorts do with rows of equal date, and for a
    station whose rows satisfy deleted-implies-inactive: the rows
    [GetProducersByStation] returns carry each name of the station once;
    each returned row is a row of the station that no row of its name is
    newer than; it is in [connected] exactly when it is active and not
    deleted, in [disconnected] exactly when it is neither, in [deleted]
    exactly when it is deleted; and each of the three lists is sorted by
    creation date, newest first. *)
Theorem GetProducersByStation_newest_row_per_name :
  sort_stage_spec ->
  sort_Slice_spec ->
  forall station s connected disconnected deleted err,
    Forall liveness_ok (rows_of station s) ->
    GetProducersByStation None station s
    = (connected, disconnected, deleted, err) ->
    let rows := rows_of station s in
    let surfaced := connected ++ disconnected ++ deleted in
    err = None
    /\ NoDup (map ExtendedProducer.Name surfaced)
    /\ (forall p, In p rows ->
          exists e, In e surfaced
                    /\ ExtendedProducer.Name e = Producer.Name p)
    /\ (forall e, In e surfaced ->
          (exists p, newest_of_its_name rows p /\ e = lookup_project s p)
          /\ (In e connected <->
              ExtendedProducer.IsActive e = true
              /\ ExtendedProducer.IsDeleted e = false)
          /\ (In e disconnected <->
              ExtendedProducer.IsActive e = false
              /\ ExtendedProducer.IsDeleted e = false)
          /\ (In e deleted <-> ExtendedProducer.IsDeleted e = true))
    /\ Sorted ext_date_desc connected
    /\ Sorted ext_date_desc disconnected
    /\ Sorted ext_date_desc deleted.
Proof.
  intros Hstage Hslice station s c d x err Hlive Hrun rows surfaced.
  unfold GetProducersByStation, producers_Aggregate, partition_loop,
    Mongo.Find in Hrun.
  rewrite partition_loop_firsts in Hrun. simpl in Hrun.
  fold (rows_of station s) in Hrun. fold rows in Hrun.
  destruct (Hstage rows) as [PermS SortS].
  set (kept := firsts_by_name [] (map (lookup_project s) (sort_stage rows)))
    in *.
  destruct (sort_Slice_newer_first (filter goes_connected kept) Hslice)
    as [Pc Sc].
  destruct (sort_Slice_newer_first (filter goes_disconnected kept) Hslice)
    as [Pd Sd].
  destruct (sort_Slice_newer_first (filter goes_deleted kept) Hslice)
    as [Px Sx].
  injection Hrun as <- <- <- <-.
  assert (PermK : Permutation kept surfaced).
  { subst surfaced. etransitivity; [apply three_way_split|].
    repeat apply Permutation_app; assumption. }
  assert (Origin : forall e, In e kept ->
            exists p, newest_of_its_name rows p /\ e = lookup_project s p)
    by (intros e He; eapply kept_row_is_newest; eassumption).
  assert (Live : forall e, In e kept ->
            ExtendedProducer.IsDeleted e = true ->
            ExtendedProducer.IsActive e = false).
  { intros e He. destruct (Origin e He) as (p & (Hp & _) & ->). simpl.
    rewrite Forall_forall in Hlive. exact (Hlive p Hp). }
  split; [reflexivity|]. split; [|split; [|split]].
  - apply (Permutation_NoDup (Permutation_map _ PermK)). apply firsts_NoDup.
  - intros p Hp.
    destruct (firsts_cover (map (lookup_project s) (sort_stage rows)) []
                (lookup_project s p)) as (e & He & En).
    + apply in_map. exact (Permutation_in _ PermS Hp).
    + intros [].
    + exists e. split; [exact (Permutation_in _ PermK He)|exact En].
  - intros e He.
    apply (Permutation_in _ (Permutation_sym PermK)) in He.
    split; [exact (Origin e He)|].
    pose proof (Live e He) as L.
    assert (In_c : forall f, In e (sort_Slice newer_first (filter f kept))
                             <-> f e = true).
    { intros f. destruct (sort_Slice_newer_first (filter f kept) Hslice)
        as [Pf _].
      split.
      - intros H. apply (Permutation_in _ (Permutation_sym Pf)) in H.
        now apply filter_In in H.
      - intros H. apply (Permutation_in _ Pf). apply filter_In. auto. }
    rewrite !In_c. unfold goes_connected, goes_disconnected, goes_deleted.
    destruct (ExtendedProducer.IsActive e), (ExtendedProducer.IsDeleted e);
      simpl; try (specialize (L eq_refl)); intuition congruence.
  - auto.
Qed.

(** ** Producers: what a creation does to the producers *)

(** X1.  [createProducerDirect] either returns an error and leaves the
    producers collection as it was, or returns [nil] and has added one row
    to it: active and not deleted, under the lowercased name and type, both
    valid, on the connection it was given, which exists and is active, on
    the station found or created for the name, no producer of the name
    having been found on it.  (A station created on the way is written by
    [CreateDefaultStation] and stays whatever follows: the statement is on
    the producers.) *)
Theorem createProducerDirect_adds_one_row_or_none :
  forall env cpr w,
    match createProducerDirect env cpr w with
    | (w', inl _) => producers_of w' = producers_of w
    | (w', inr _) =>
        exists connectionId connection station p0,
          cp_ObjectIDFromHex env (cpr_ConnectionId cpr) = Ok connectionId
          /\ cp_IsConnectionExist env connectionId = Ok (true, connection)
          /\ Connection.IsActive connection = true
          /\ station_found_or_created env cpr connection station
          /\ cp_IsProducerExist env (ToLower (cpr_Name cpr))
               (Station.ID station) = Ok (false, p0)
          /\ validateProducerName (ToLower (cpr_Name cpr)) = None
          /\ validateProducerType (ToLower (cpr_ProducerType cpr)) = None
          /\ cp_InsertOne_err env = None
          /\ producers_of w'
             = producers_of w
               ++ [created_row env cpr connectionId connection station]
    end.
Proof.
  intros env cpr w.
  unfold createProducerDirect, station_found_or_created, created_row,
    producers_of.
  unfold_M.
  repeat (case_split; simpl; auto).
  all: try discriminate.
  all: repeat match goal with
         | H : negb ?b = false |- _ => apply negb_false_iff in H; subst
         | H : negb ?b = true |- _ => apply negb_true_iff in H; subst
         | H : (_, _) = (_, _) |- _ => injection H as <- <-
         end.
  all: eexists _, _, _, _.
  all: repeat match goal with |- _ /\ _ => split end.
  all: try eassumption; try reflexivity; eauto.
Qed.

Lemma createProducerDirect_well_named (env : CreateProducerEnv)
  (cpr : createProducerRequest) (w : World) :
  producers_of (fst (createProducerDirect env cpr w)) = producers_of w
  \/ exists p,
      producers_of (fst (createProducerDirect env cpr w))
      = producers_of w ++ [p]
      /\ well_named p.
Proof.
  unfold createProducerDirect, well_named. unfold_M.
  repeat (case_split; simpl; auto).
  all: right; eexists; split; [reflexivity|]; simpl; auto.
Qed.

Lemma run_op_well_named (o : ProducerOp) (w : World) :
  Forall well_named (producers_of w) ->
  Forall well_named (producers_of (fst (run_op o w))).
Proof.
  intros H. destruct o as [env cpr|env dpr|env c|env c]; simpl.
  - destruct (createProducerDirect_well_named env cpr w) as [->|(p & -> & Hp)];
      [assumption|].
    apply Forall_app. split; [assumption|]. constructor; [exact Hp|constructor].
  - eapply Forall_rowwise; [|apply destroyProducerDirect_rowwise|exact H].
    intros a b Pa [->| ->]; exact Pa.
  - eapply Forall_rowwise; [|apply KillProducers_rowwise|exact H].
    intros a b Pa [->| ->]; exact Pa.
  - eapply Forall_rowwise; [|apply ReliveProducers_rowwise|exact H].
    intros a b Pa [->|[_ ->]]; exact Pa.
Qed.

Lemma validateProducerName_accepts (name : string) :
  validateProducerName name = None ->
  (1 <= String.length name <= 32)%nat
  /\ re_MatchString name = true
  /\ hasUpper name = false.
Proof.
  unfold validateProducerName.
  destruct (String.length name =? 0)%nat eqn:L0; [discriminate|].
  destruct (32 <? String.length name)%nat eqn:L32; [discriminate|].
  destruct (re_MatchString name) eqn:R; [|discriminate].
  intros _. apply Nat.eqb_neq in L0. apply Nat.ltb_ge in L32.
  split; [lia|]. split; [reflexivity|].
  destruct (hasUpper name) eqn:U; [|reflexivity].
  rewrite (re_MatchString_no_upper _ U) in R. discriminate.
Qed.

Lemma validateProducerType_accepts (producerType : string) :
  validateProducerType producerType = None ->
  producerType = "application" \/ producerType = "connector".
Proof.
  unfold validateProducerType.
  destruct (String.eqb_spec producerType "application") as [->|_]; [auto|].
  destruct (String.eqb_spec producerType "connector") as [->|_]; [auto|].
  discriminate.
Qed.

(** X2.  In every collection reachable from the empty one by the four
    operations, every producer row has a name of 1 to 32 bytes, all of them
    lowercase letters, digits or [_] (none uppercase), and the type
    "application" or "connector". *)
Theorem producer_rows_are_well_named :
  forall ops p,
    In p (producers_of (run_ops ops empty_world)) ->
    (1 <= String.length (Producer.Name p) <= 32)%nat
    /\ re_MatchString (Producer.Name p) = true
    /\ hasUpper (Producer.Name p) = false
    /\ (Producer.Type_ p = "application" \/ Producer.Type_ p = "connector").
Proof.
  intros ops.
  assert (G : forall w, Forall well_named (producers_of w) ->
                Forall well_named (producers_of (run_ops ops w))).
  { induction ops as [|o ops IH]; intros w H; simpl; [assumption|].
    apply IH. now apply run_op_well_named. }
  intros p Hp.
  pose proof (G empty_world (Forall_nil _)) as F.
  rewrite Forall_forall in F. destruct (F p Hp) as [Hn Ht].
  destruct (validateProducerName_accepts _ Hn) as (H1 & H2 & H3).
  auto using validateProducerType_accepts.
Qed.

(** ** Producers: rows are never removed, and deleted is final *)

Lemma same_but_flags_refl (p : Producer.t) : same_but_flags p p.
Proof. split; [destruct p; reflexivity|auto]. Qed.

Lemma same_but_flags_trans (p q r : Producer.t) :
  same_but_flags p q -> same_but_flags q r -> same_but_flags p r.
Proof.
  intros [E1 D1] [E2 D2]. split.
  - rewrite E2 at 1. rewrite E1. reflexivity.
  - intros Dp. destruct (D1 Dp) as [Dq Aq]. destruct (D2 Dq) as [Dr Ar].
    split; [exact Dr|]. intros Ap. auto.
Qed.

(** Each operation keeps the rows it found, in place, but for their flags,
    and puts new rows after them. *)
Lemma run_op_keeps_rows (o : ProducerOp) (w : World) :
  exists added,
    Forall2 same_but_flags (producers_of w)
      (firstn (length (producers_of w)) (producers_of (fst (run_op o w))))
    /\ producers_of (fst (run_op o w))
       = firstn (length (producers_of w)) (producers_of (fst (run_op o w)))
         ++ added.
Proof.
  assert (Whole : forall l',
             Forall2 same_but_flags (producers_of w) l' ->
             exists added,
               Forall2 same_but_flags (producers_of w)
                 (firstn (length (producers_of w)) l')
               /\ l' = firstn (length (producers_of w)) l' ++ added).
  { intros l' F. exists [].
    rewrite (Forall2_length F), firstn_all, app_nil_r. auto. }
  destruct o as [env cpr|env dpr|env c|env c]; simpl.
  - destruct (createProducerDirect_appends env cpr w)
      as [->|(p & -> & _)].
    + apply Whole. apply Forall2_same, same_but_flags_refl.
    + exists [p]. rewrite firstn_app, firstn_all, Nat.sub_diag. simpl.
      rewrite app_nil_r. split; [|reflexivity].
      apply Forall2_same, same_but_flags_refl.
  - apply Whole.
    eapply Forall2_weaken; [|apply destroyProducerDirect_rowwise].
    intros a b [->| ->]; [apply same_but_flags_refl|].
    split; [reflexivity|]. simpl. auto.
  - apply Whole.
    eapply Forall2_weaken; [|apply KillProducers_rowwise].
    intros a b [->| ->]; [apply same_but_flags_refl|].
    split; [reflexivity|]. simpl. auto.
  - apply Whole.
    eapply Forall2_weaken; [|apply ReliveProducers_rowwise].
    intros a b [->|[D ->]]; [apply same_but_flags_refl|].
    split; [reflexivity|]. simpl. intros D'. congruence.
Qed.

Lemma Forall2_nth {A : Type} (R : A -> A -> Prop) (l l' : list A) (i : nat)
  (a : A) :
  Forall2 R l l' -> nth_error l i = Some a ->
  exists b, nth_error l' i = Some b /\ R a b.
Proof.
  intros F. revert i. induction F as [|x y l l' Rxy F IH]; intros i H.
  - destruct i; discriminate.
  - destruct i as [|i]; simpl in *.
    + injection H as <-. eauto.
    + now apply IH.
Qed.

Lemma run_op_keeps_row (o : ProducerOp) (w : World) (i : nat)
  (p : Producer.t) :
  nth_error (producers_of w) i = Some p ->
  exists q, nth_error (producers_of (fst (run_op o w))) i = Some q
            /\ same_but_flags p q.
Proof.
  intros Hp. destruct (run_op_keeps_rows o w) as (added & F & E).
  destruct (Forall2_nth _ _ _ _ _ F Hp) as (q & Hq & R).
  exists q. split; [|exact R].
  rewrite E, nth_error_app1; [exact Hq|].
  apply nth_error_Some. congruence.
Qed.

(** X3.  Whatever operations follow, in whatever order and with whatever
    answers from their environment, a producer row stays where it is in the
    collection and keeps every field but [is_active] and [is_deleted]; and
    once it is deleted it stays deleted, and inactive if it was: no operation
    removes a row or brings a deleted producer back. *)
Theorem producer_row_is_kept_and_deleted_is_final :
  forall ops w i p,
    nth_error (producers_of w) i = Some p ->
    exists q,
      nth_error (producers_of (run_ops ops w)) i = Some q
      /\ q = Producer.set_is_active_is_deleted (Producer.IsActive q)
               (Producer.IsDeleted q) p
      /\ (Producer.IsDeleted p = true ->
          Producer.IsDeleted q = true
          /\ (Producer.IsActive p = false -> Producer.IsActive q = false)).
Proof.
  induction ops as [|o ops IH]; intros w i p Hp; simpl.
  - exists p. split; [exact Hp|]. apply same_but_flags_refl.
  - destruct (run_op_keeps_row o w i p Hp) as (q & Hq & R1).
    destruct (IH _ i q Hq) as (r & Hr & R2).
    exists r. split; [exact Hr|].
    exact (same_but_flags_trans p q r R1 R2).
Qed.

(** ** Producers: a disconnected producer *)

Lemma filter_all_false {A : Type} (f : A -> bool) (l : list A) :
  (forall x, In x l -> f x = false) -> filter f l = [].
Proof.
  induction l as [|a l IH]; simpl; intros H; [reflexivity|].
  rewrite (H a (or_introl eq_refl)). apply IH. intros x Hx. apply H. now right.
Qed.

(** After a kill nothing on the connection is active. *)
Lemma KillProducers_leaves_none_active (env : KillProducersEnv) (c : ObjectID)
  (w : World) :
  kp_All_err env = None ->
  kp_UpdateMany_err env = None ->
  filter (active_on c) (producers_of (fst (KillProducers env c w))) = [].
Proof.
  intros Ha Hu. destruct (KillProducers_run env c w Ha Hu) as [_ ->].
  apply filter_all_false. intros q Hq.
  unfold Mongo.UpdateMany in Hq. apply in_map_iff in Hq.
  destruct Hq as (p & <- & _). unfold active_on, on_connection.
  destruct (Producer.ConnectionId p =? c)%N eqn:C; simpl.
  - rewrite C. reflexivity.
  - rewrite C. reflexivity.
Qed.

(** X4.  A producer whose connection was lost cannot be destroyed: when
    every row of the name on the station belongs to one connection, after
    [KillProducers] on that connection [destroyProducerDirect] returns
    "Producer does not exist" and leaves the store as the kill left it (the
    row stays disconnected, not deleted). *)
Theorem destroyProducerDirect_after_KillProducers_not_found :
  forall envK envD c dpr w b station,
    kp_All_err envK = None ->
    kp_UpdateMany_err envK = None ->
    dp_IsStationExist envD (ToLower (dpr_StationName dpr)) = Ok (b, station) ->
    dp_FindOneAndUpdate_err envD = None ->
    (forall p, In p (producers_of w) ->
               Producer.Name p = ToLower (dpr_ProducerName dpr) ->
               Producer.StationId p = Station.ID station ->
               Producer.ConnectionId p = c) ->
    let w1 := fst (KillProducers envK c w) in
    snd (destroyProducerDirect envD dpr w1) = inl "Producer does not exist"
    /\ store (fst (destroyProducerDirect envD dpr w1)) = store w1
    /\ map Producer.IsDeleted (producers_of w1)
       = map Producer.IsDeleted (producers_of w).
Proof.
  intros envK envD c dpr w b station Ha Hu Hs Hd Hc w1.
  destruct (KillProducers_run envK c w Ha Hu) as [_ K]. fold w1 in K.
  assert (N : filter (destroy_filter (ToLower (dpr_ProducerName dpr))
                        (Station.ID station)) (producers_of w1) = []).
  { apply filter_all_false. intros q Hq. rewrite K in Hq.
    unfold Mongo.UpdateMany in Hq. apply in_map_iff in Hq.
    destruct Hq as (p & <- & Hp). unfold destroy_filter, on_connection.
    destruct (Producer.ConnectionId p =? c)%N eqn:C; simpl.
    - apply andb_false_r.
    - destruct (String.eqb_spec (Producer.Name p)
                  (ToLower (dpr_ProducerName dpr))) as [En|]; [|reflexivity].
      destruct (N.eqb_spec (Producer.StationId p) (Station.ID station))
        as [Es|]; [|reflexivity].
      apply N.eqb_neq in C. elim C. now apply Hc. }
  pose proof (destroyProducerDirect_run envD dpr w1 b station Hs Hd) as Run.
  cbv zeta in Run. rewrite (find_filter_nil _ _ N) in Run.
  rewrite Run. simpl. split; [reflexivity|]. split; [reflexivity|].
  rewrite K. unfold Mongo.UpdateMany. rewrite map_map. apply map_ext.
  intros p. destruct (on_connection c p); reflexivity.
Qed.

(** X5.  A kill that finds no active producer on the connection makes no
    write and returns [nil]; so a second [KillProducers] on a connection
    right after a first one changes nothing, journal included. *)
Theorem KillProducers_again_is_a_no_op :
  forall env c w,
    kp_All_err env = None ->
    kp_UpdateMany_err env = None ->
    (filter (active_on c) (producers_of w) = [] ->
     KillProducers env c w = (w, inr tt))
    /\ KillProducers env c (fst (KillProducers env c w))
       = (fst (KillProducers env c w), inr tt).
Proof.
  intros env c w Ha Hu.
  assert (G : forall w0, filter (active_on c) (producers_of w0) = [] ->
                KillProducers env c w0 = (w0, inr tt)).
  { intros w0 H. unfold KillProducers, Mongo.Find. unfold_M. rewrite Ha.
    unfold producers_of in H. rewrite H. reflexivity. }
  split; [apply G|].
  apply G. now apply KillProducers_leaves_none_active.
Qed.

(** ** Producers: the REST listing and the overview *)

Lemma firsts_length (l : list ExtendedProducer.t) :
  forall seen, (length (firsts_by_name seen l) <= length l)%nat.
Proof.
  induction l as [|a l IH]; intros seen; simpl; [lia|].
  destruct (slices_Contains seen (ExtendedProducer.Name a)); simpl.
  - specialize (IH seen). lia.
  - specialize (IH (seen ++ [ExtendedProducer.Name a])). lia.
Qed.

(** X6.  For a station that exists, [GetAllProducersByStation] answers 200
    with one entry for every producer row of the station, deleted rows and
    older rows of a reused name included, in store order; every row the
    station overview shows is among them, and the overview never shows
    more.  A station that is not found gives "Station does not exist", a
    failed lookup or cursor "Server error". *)
Theorem GetAllProducersByStation_lists_every_row :
  sort_stage_spec ->
  sort_Slice_spec ->
  forall env name s,
    (forall e, gap_IsStationExist env name = Err e ->
               GetAllProducersByStation env name s
               = (500, PJ_message "Server error"))
    /\ (forall station,
          gap_IsStationExist env name = Ok (false, station) ->
          GetAllProducersByStation env name s
          = (SHOWABLE_ERROR_STATUS_CODE, PJ_message "Station does not exist"))
    /\ (forall station,
          gap_IsStationExist env name = Ok (true, station) ->
          (gap_cursor_err env <> None ->
           GetAllProducersByStation env name s
           = (500, PJ_message "Server error"))
          /\ (gap_cursor_err env = None ->
              let listing := map (lookup_project s) (rows_of station s) in
              GetAllProducersByStation env name s = (200, PJ_producers listing)
              /\ forall connected disconnected deleted err,
                   GetProducersByStation None station s
                   = (connected, disconnected, deleted, err) ->
                   (forall e, In e (connected ++ disconnected ++ deleted) ->
                              In e listing)
                   /\ (length (connected ++ disconnected ++ deleted)
                       <= length listing)%nat)).
Proof.
  intros Hstage Hslice env name s. unfold GetAllProducersByStation.
  split; [|split].
  - intros e ->. reflexivity.
  - intros station ->. reflexivity.
  - intros station ->. simpl. split.
    + destruct (gap_cursor_err env); [reflexivity|]. intros H. now elim H.
    + intros ->. cbv zeta. split; [reflexivity|].
      intros c d x err Hrun.
      unfold GetProducersByStation, producers_Aggregate, partition_loop,
        Mongo.Find in Hrun.
      rewrite partition_loop_firsts in Hrun. simpl in Hrun.
      fold (rows_of station s) in Hrun.
      destruct (Hstage (rows_of station s)) as [PermS _].
      set (kept := firsts_by_name []
                     (map (lookup_project s) (sort_stage (rows_of station s))))
        in *.
      destruct (sort_Slice_newer_first (filter goes_connected kept) Hslice)
        as [Pc _].
      destruct (sort_Slice_newer_first (filter goes_disconnected kept) Hslice)
        as [Pd _].
      destruct (sort_Slice_newer_first (filter goes_deleted kept) Hslice)
        as [Px _].
      injection Hrun as <- <- <- <-.
      assert (PermK : Permutation kept
                (sort_Slice newer_first (filter goes_connected kept)
                 ++ sort_Slice newer_first (filter goes_disconnected kept)
                 ++ sort_Slice newer_first (filter goes_deleted kept))).
      { etransitivity; [apply three_way_split|].
        repeat apply Permutation_app; assumption. }
      split.
      * intros e He.
        apply (Permutation_in _ (Permutation_sym PermK)) in He.
        apply firsts_In in He.
        apply (Permutation_in _ (Permutation_map _ (Permutation_sym PermS))).
        exact He.
      * rewrite <- (Permutation_length PermK).
        etransitivity; [apply firsts_length|].
        rewrite !length_map, <- (Permutation_length PermS). lia.
Qed.

(** ** Producers: created, then destroyed *)

Lemma createProducerDirect_inserted (env : CreateProducerEnv)
  (cpr : createProducerRequest) (w : World) :
  snd (createProducerDirect env cpr w) = inr tt ->
  exists row,
    producers_of (fst (createProducerDirect env cpr w))
    = producers_of w ++ [row]
    /\ Producer.Name row = ToLower (cpr_Name cpr)
    /\ Producer.IsActive row = true.
Proof.
  unfold createProducerDirect. unfold_M.
  repeat (case_split; simpl; auto); try discriminate.
  all: intros _; eexists; split; [reflexivity|]; simpl; auto.
Qed.

Lemma UpdateOne_app_none {A : Type} (f : A -> bool) (set : A -> A)
  (l m : list A) :
  filter f l = [] ->
  Mongo.UpdateOne f set (l ++ m) = l ++ Mongo.UpdateOne f set m.
Proof.
  induction l as [|a l IH]; simpl; [reflexivity|].
  destruct (f a); [discriminate|]. intros H. now rewrite IH.
Qed.

(** X23.  A producer just created can be destroyed under the same name on
    the same station: [destroyProducerDirect] returns [nil].  When no
    active producer of the name was on the station before the creation, it
    is the created row that is marked deleted and inactive, every other row
    being as it was, and a second destroy returns "Producer does not
    exist". *)
Theorem createProducerDirect_then_destroyProducerDirect :
  forall envC cpr envD dpr w b station row,
    snd (createProducerDirect envC cpr w) = inr tt ->
    let w1 := fst (createProducerDirect envC cpr w) in
    producers_of w1 = producers_of w ++ [row] ->
    ToLower (dpr_ProducerName dpr) = ToLower (cpr_Name cpr) ->
    dp_IsStationExist envD (ToLower (dpr_StationName dpr)) = Ok (b, station) ->
    Station.ID station = Producer.StationId row ->
    dp_FindOneAndUpdate_err envD = None ->
    let matching :=
      destroy_filter (ToLower (dpr_ProducerName dpr)) (Station.ID station) in
    let w2 := fst (destroyProducerDirect envD dpr w1) in
    snd (destroyProducerDirect envD dpr w1) = inr tt
    /\ (filter matching (producers_of w) = [] ->
        producers_of w2
        = producers_of w
          ++ [Producer.set_is_active_is_deleted false true row]
        /\ snd (destroyProducerDirect envD dpr w2)
           = inl "Producer does not exist").
Proof.
  intros envC cpr envD dpr w b station row Hc w1 Hrow Hn Hs Hid Hd
    matching w2.
  destruct (createProducerDirect_inserted envC cpr w Hc)
    as (row' & Hrow' & Nr & Ar).
  fold w1 in Hrow'. rewrite Hrow in Hrow'.
  apply app_inj_tail in Hrow'. destruct Hrow' as [_ <-].
  assert (Hm : matching row = true).
  { unfold matching, destroy_filter.
    rewrite Nr, Hn, Hid, String.eqb_refl, N.eqb_refl, Ar. reflexivity. }
  pose proof (destroyProducerDirect_run envD dpr w1 b station Hs Hd) as Run.
  cbv zeta in Run. fold matching in Run.
  split.
  - rewrite Run.
    destruct (find matching (producers_of w1)) eqn:F; [reflexivity|].
    exfalso.
    assert (Hi : In row (producers_of w1))
      by (rewrite Hrow; apply in_or_app; right; now left).
    rewrite (find_none _ _ F row Hi) in Hm. discriminate.
  - intros Hnone.
    assert (Hu : Mongo.UpdateOne matching
                   (Producer.set_is_active_is_deleted false true)
                   (producers_of w1)
                 = producers_of w
                   ++ [Producer.set_is_active_is_deleted false true row]).
    { rewrite Hrow, (UpdateOne_app_none _ _ _ _ Hnone). simpl.
      now rewrite Hm. }
    assert (Hf : find matching (producers_of w1) = Some row).
    { rewrite Hrow. apply (find_filter_cons _ _ row []).
      rewrite filter_app, Hnone. simpl. now rewrite Hm. }
    assert (Hw2 : producers_of w2
                  = producers_of w
                    ++ [Producer.set_is_active_is_deleted false true row]).
    { subst w2. rewrite Run, Hf. simpl. unfold producers_of at 1. simpl.
      exact Hu. }
    split; [exact Hw2|].
    pose proof (destroyProducerDirect_run envD dpr w2 b station Hs Hd)
      as Run2.
    cbv zeta in Run2. fold matching in Run2.
    rewrite Run2, Hw2.
    rewrite (find_filter_nil matching); [reflexivity|].
    rewrite filter_app, Hnone. simpl. unfold matching at 1.
    now rewrite destroy_filter_destroyed.
Qed.

(** ** Schemas: what an answer of [CreateNewSchema] means *)

(** X7.  When [CreateNewSchema] answers with the schema, the status is
    200, the schema row, of type "protobuf" and under the lowercased, valid
    name, is the one row added to the schemas, and the one version added is
    its version 1, active, with the content and the message struct name of
    the request, neither empty.  For a request without tags these two are
    all the writes of the run; with tags, [AddTagsToEntity] has written the
    tags as well, outside the collections modelled. *)
Theorem CreateNewSchema_answer_means_schema_and_version_1 :
  forall env req w s,
    body (snd (gin (CreateNewSchema env req) w)) = JSON_Schema s ->
    let w' := fst (gin (CreateNewSchema env req) w) in
    status (snd (gin (CreateNewSchema env req) w)) = 200
    /\ Schema.Name s = ToLower (cns_Name req)
    /\ validateSchemaName (Schema.Name s) = None
    /\ Schema.Type_ s = "protobuf"
    /\ schemasCollection (store w') = schemasCollection (store w) ++ [s]
    /\ exists v res,
        versions_of w' = versions_of w ++ [v]
        /\ SchemaVersion.SchemaId v = Schema.ID s
        /\ SchemaVersion.VersionNumber v = 1
        /\ SchemaVersion.Active v = true
        /\ SchemaVersion.SchemaContent v = cns_SchemaContent req
        /\ cns_SchemaContent req <> ""
        /\ SchemaVersion.MessageStructName v = cns_MessageStructName req
        /\ cns_MessageStructName req <> ""
        /\ (cns_Tags req = [] ->
            writes_between w w'
            = [schemas_UpdateOne_upsert s res; schemaVersions_InsertOne v]).
Proof.
  intros env req w s.
  unfold gin, CreateNewSchema, Mongo.UpdateOne_upsert, Mongo.InsertOne,
    versions_of.
  unfold_M.
  repeat (case_split; simpl); try discriminate.
  all: repeat match goal with
         | H : (_, _) = (_, _) |- _ => injection H as <- <-
         | H : inl _ = inl _ |- _ => injection H as <-
         | H : inr _ = inr _ |- _ => injection H as <-
         end; simpl; try discriminate.
  all: intros E; injection E as <-; simpl.
  all: rewrite <- ?app_assoc, writes_between_app.
  all: match goal with
       | H : validateSchemaType _ = None |- _ =>
           pose proof (validateSchemaType_protobuf _ H) as Pb;
           apply String.eqb_eq in Pb
       end.
  all: try match goal with
       | H : (_ =? "protobuf")%string = false |- _ =>
           rewrite Pb in H; discriminate H
       end.
  all: assert (Hc : cns_SchemaContent req <> "")
    by (intros Z;
        match goal with
        | H : validateSchemaContent _ _ = None |- _ =>
            unfold validateSchemaContent in H; rewrite Z in H;
            discriminate H
        end).
  all: assert (Hm : cns_MessageStructName req <> "")
    by (intros Z;
        match goal with
        | H : validateMessageStructName _ = None |- _ =>
            unfold validateMessageStructName in H; rewrite Z in H;
            discriminate H
        end).
  all: repeat match goal with |- _ /\ _ => split end; auto.
  all: eexists _, _; repeat match goal with |- _ /\ _ => split end;
    try reflexivity; auto.
Qed.

(** ** Schemas: what a new version leaves alone *)

(** X8.  [CreateNewVersion] never touches a stored version, a schema or a
    producer: the versions after a run are the versions before it, followed
    by at most one more, which is not active; and when it answers with the
    schema's details the status is 200 and that version was added. *)
Theorem CreateNewVersion_keeps_stored_versions :
  forall env req w,
    let w' := fst (gin (CreateNewVersion env req) w) in
    let r := snd (gin (CreateNewVersion env req) w) in
    schemasCollection (store w') = schemasCollection (store w)
    /\ producers_of w' = producers_of w
    /\ (versions_of w' = versions_of w
        \/ exists v, versions_of w' = versions_of w ++ [v]
                     /\ SchemaVersion.Active v = false)
    /\ (forall d, body r = JSON_ExtendedSchemaDetails d ->
          status r = 200
          /\ exists v, versions_of w' = versions_of w ++ [v]).
Proof.
  intros env req w.
  unfold gin, CreateNewVersion, getVersionsCount, Mongo.UpdateOne_upsert,
    versions_of, producers_of.
  unfold_M.
  repeat (case_split; simpl); try discriminate.
  all: repeat match goal with
         | H : (_, _) = (_, _) |- _ => injection H as <- <-
         | H : inl _ = inl _ |- _ => injection H as <-
         | H : inr _ = inr _ |- _ => injection H as <-
         end; simpl; try discriminate.
  all: repeat match goal with |- _ /\ _ => split end; auto.
  all: try (intros d E; discriminate E).
  all: try (right; eexists; split; reflexivity).
  all: intros d _; split; [reflexivity|eexists; reflexivity].
Qed.

(** ** Schemas: version numbers *)

Lemma find_none_all {A : Type} (f : A -> bool) (l : list A) :
  (forall d, In d l -> f d = false) -> find f l = None.
Proof.
  intros H. destruct (find f l) as [d|] eqn:F; [|reflexivity].
  apply find_some in F. destruct F as [Hi Hf].
  rewrite (H d Hi) in Hf. discriminate.
Qed.

Lemma numbered_length (schemaId : ObjectID) (l : list SchemaVersion.t)
  (n : nat) :
  numbered schemaId l n -> length (filter (of_schema schemaId) l) = n.
Proof.
  unfold numbered. intros H.
  apply (f_equal (@length Z)) in H.
  now rewrite !length_map, length_seq in H.
Qed.

Lemma numbered_next_is_free (schemaId : ObjectID) (l : list SchemaVersion.t)
  (n : nat) :
  numbered schemaId l n ->
  find (version_key schemaId (Z.of_nat n + 1)) l = None.
Proof.
  intros H. apply find_none_all. intros d Hd.
  destruct (version_key schemaId (Z.of_nat n + 1) d) eqn:K; [|reflexivity].
  exfalso. unfold version_key in K. apply andb_true_iff in K.
  destruct K as [K1 K2]. apply Z.eqb_eq in K2.
  assert (Hi : In (SchemaVersion.VersionNumber d)
                 (map SchemaVersion.VersionNumber
                    (filter (of_schema schemaId) l))).
  { apply in_map. apply filter_In. split; [exact Hd|exact K1]. }
  unfold numbered in H. rewrite H in Hi.
  apply in_map_iff in Hi. destruct Hi as (k & Hk & Hs).
  apply in_seq in Hs. lia.
Qed.

Lemma numbered_app (schemaId : ObjectID) (l : list SchemaVersion.t) (n : nat)
  (v : SchemaVersion.t) :
  numbered schemaId l n ->
  SchemaVersion.SchemaId v = schemaId ->
  SchemaVersion.VersionNumber v = Z.of_nat (S n) ->
  numbered schemaId (l ++ [v]) (S n).
Proof.
  unfold numbered. intros H Sv Nv.
  rewrite filter_app, map_app, H, seq_S, map_app. simpl.
  unfold of_schema. rewrite Sv, N.eqb_refl. simpl. now rewrite Nv.
Qed.

(** X9.  When the versions of a schema are numbered 1 to [n] in the store,
    a [CreateNewVersion] in which no call fails never answers "Version
    already exists": it answers 200, the version it adds has the number
    [n + 1], and the versions of the schema are then numbered 1 to
    [n + 1]. *)
Theorem CreateNewVersion_numbers_versions_in_a_row :
  forall env req w schema user details n,
    cnv_IsSchemaExist env (ToLower (cnv_SchemaName req)) = Ok (true, schema) ->
    CreateNewVersion_valid schema req ->
    cnv_getUserDetailsFromMiddleware env = Ok user ->
    cnv_CountDocuments_err env = None ->
    cnv_UpdateOne_err env = None ->
    cnv_getExtendedSchemaDetails env schema = Ok details ->
    numbered (Schema.ID schema) (versions_of w) n ->
    Z.of_nat n < int_max ->
    let w' := fst (gin (CreateNewVersion env req) w) in
    snd (gin (CreateNewVersion env req) w)
    = mkResponse 200 (JSON_ExtendedSchemaDetails details)
    /\ numbered (Schema.ID schema) (versions_of w') (S n)
    /\ exists v, versions_of w' = versions_of w ++ [v]
                 /\ SchemaVersion.VersionNumber v = Z.of_nat (S n)
                 /\ SchemaVersion.SchemaContent v = cnv_SchemaContent req.
Proof.
  intros env req w schema user details n He (Vm & Vc) Hu Hc Ho Hd Hn Hlt.
  pose proof (numbered_length _ _ _ Hn) as Hlen.
  pose proof (numbered_next_is_free _ _ _ Hn) as Hfree.
  assert (Hnext : int_add (Mongo.CountDocuments (of_schema (Schema.ID schema))
                             (schemaVersionCollection (store w))) 1
                  = Z.of_nat n + 1).
  { unfold Mongo.CountDocuments. unfold versions_of in Hlen. rewrite Hlen.
    apply int_add_exact. unfold int_min, int_max in *. lia. }
  assert (Vm' : (if (Schema.Type_ schema =? "protobuf")%string
                 then validateMessageStructName (cnv_MessageStructName req)
                 else None) = None)
    by (destruct (Schema.Type_ schema =? "protobuf")%string; auto).
  cbv zeta.
  unfold gin, CreateNewVersion, getVersionsCount, Mongo.UpdateOne_upsert.
  unfold_M. rewrite He. simpl. rewrite Hu. simpl.
  unfold versions_of in *.
  destruct (Schema.Type_ schema =? "protobuf")%string;
    rewrite ?Vm', Vc; simpl.
  all: rewrite Hc, Ho; simpl; rewrite Hnext, Hfree; simpl.
  all: rewrite Hd; simpl.
  all: split; [reflexivity|]; split;
    [apply numbered_app; [exact Hn|reflexivity|simpl; lia]
    |eexists; split; [reflexivity|split; [simpl; lia|reflexivity]]].
Qed.

(** ** Schemas: the two writes of a rollback *)

Lemma UpdateMany_none_active (schemaId : ObjectID)
  (l : list SchemaVersion.t) :
  none_active schemaId
    (Mongo.UpdateMany (of_schema schemaId) (SchemaVersion.set_active false) l).
Proof.
  intros v Hv Sv. unfold Mongo.UpdateMany in Hv.
  apply in_map_iff in Hv. destruct Hv as (a & <- & _).
  unfold of_schema in *.
  destruct (SchemaVersion.SchemaId a =? schemaId)%N eqn:E; [reflexivity|].
  apply N.eqb_neq in E. contradiction.
Qed.

Lemma UpdateMany_fixed (schemaId : ObjectID) (l : list SchemaVersion.t) :
  none_active schemaId l ->
  Mongo.UpdateMany (of_schema schemaId) (SchemaVersion.set_active false) l
  = l.
Proof.
  unfold Mongo.UpdateMany. induction l as [|a l IH]; intros H;
    [reflexivity|].
  simpl. rewrite IH by (intros v Hv; apply H; now right). f_equal.
  unfold of_schema.
  destruct (SchemaVersion.SchemaId a =? schemaId)%N eqn:E; [|reflexivity].
  apply N.eqb_eq in E.
  rewrite <- (H a (or_introl eq_refl) E). apply set_active_same.
Qed.

(** Deactivating undoes the activation of one version of a schema that had
    no active version. *)
Lemma UpdateMany_after_UpdateOne (schemaId : ObjectID) (target : Z)
  (l : list SchemaVersion.t) :
  none_active schemaId l ->
  Mongo.UpdateMany (of_schema schemaId) (SchemaVersion.set_active false)
    (Mongo.UpdateOne (version_key schemaId target)
       (SchemaVersion.set_active true) l)
  = l.
Proof.
  induction l as [|a l IH]; intros H; [reflexivity|].
  assert (Hl : none_active schemaId l)
    by (intros v Hv; apply H; now right).
  simpl. unfold version_key at 1.
  destruct (SchemaVersion.SchemaId a =? schemaId)%N eqn:E; simpl.
  - pose proof (H a (or_introl eq_refl) (proj1 (N.eqb_eq _ _) E)) as Ha.
    destruct (SchemaVersion.VersionNumber a =? target); simpl.
    + fold (Mongo.UpdateMany (of_schema schemaId)
              (SchemaVersion.set_active false) l).
      rewrite (UpdateMany_fixed _ _ Hl). f_equal.
      unfold of_schema. simpl. rewrite E.
      destruct a; simpl in *; subst; reflexivity.
    + fold (Mongo.UpdateMany (of_schema schemaId)
              (SchemaVersion.set_active false)
              (Mongo.UpdateOne (version_key schemaId target)
                 (SchemaVersion.set_active true) l)).
      rewrite (IH Hl). f_equal. unfold of_schema. rewrite E.
      rewrite <- Ha. apply set_active_same.
  - fold (Mongo.UpdateMany (of_schema schemaId)
            (SchemaVersion.set_active false)
            (Mongo.UpdateOne (version_key schemaId target)
               (SchemaVersion.set_active true) l)).
    rewrite (IH Hl). f_equal. unfold of_schema. now rewrite E.
Qed.

Lemma UpdateMany_filter_length {A : Type} (p f : A -> bool) (set : A -> A)
  (l : list A) :
  (forall d, p (set d) = p d) ->
  length (filter p (Mongo.UpdateMany f set l)) = length (filter p l).
Proof.
  intros H. unfold Mongo.UpdateMany.
  induction l as [|a l IH]; [reflexivity|]. simpl.
  destruct (f a); rewrite ?H; destruct (p a); simpl; now rewrite IH.
Qed.

Lemma UpdateOne_filter_length {A : Type} (p f : A -> bool) (set : A -> A)
  (l : list A) :
  (forall d, p (set d) = p d) ->
  length (filter p (Mongo.UpdateOne f set l)) = length (filter p l).
Proof.
  intros H. induction l as [|a l IH]; [reflexivity|]. simpl.
  destruct (f a); simpl; rewrite ?H; destruct (p a); simpl;
    now rewrite ?IH.
Qed.

(** X10.  The two writes of a rollback are not one step.  When the second
    one, which activates the target, fails, [RollBackVersion] answers 500
    with the driver's message and the schema is left with no active version
    at all; the versions differ from the stored ones in [active] only, and
    those of other schemas not at all. *)
Theorem RollBackVersion_failed_activation_leaves_none_active :
  forall env req w schema v0 e,
    rbv_IsSchemaExist env (ToLower (rbv_SchemaName req)) = Ok (true, schema) ->
    rbv_isSchemaVersionExists env (rbv_VersionNumber req) (Schema.ID schema)
    = Ok (true, v0) ->
    rbv_CountDocuments_err env = None ->
    rbv_UpdateMany_err env = None ->
    rbv_UpdateOne_err env = Some e ->
    1 < versions_count (Schema.ID schema) w ->
    let w' := fst (gin (RollBackVersion env req) w) in
    snd (gin (RollBackVersion env req) w) = abort 500 e
    /\ none_active (Schema.ID schema) (versions_of w')
    /\ Forall2 (flag_only (Schema.ID schema)) (versions_of w) (versions_of w')
    /\ writes_between w w'
       = [schemaVersions_UpdateMany_inactive (Schema.ID schema)].
Proof.
  intros env req w schema v0 e He Hv Hc Hm Ho Hn. cbv zeta.
  apply Z.ltb_lt in Hn. unfold versions_count in Hn.
  unfold gin, RollBackVersion, updateActiveVersion, getVersionsCount.
  unfold_M. rewrite He. simpl. rewrite Hv. simpl. rewrite Hc. simpl.
  rewrite Hn. simpl. rewrite Hm, Ho. simpl.
  split; [reflexivity|]. split; [apply UpdateMany_none_active|].
  split; [|apply writes_between_app].
  unfold versions_of. simpl.
  eapply Forall2_weaken; [|apply UpdateMany_rowwise].
  intros a b [->|[Sa ->]]; unfold flag_only; simpl.
  - split; [now rewrite set_active_same|auto].
  - split; [reflexivity|]. unfold of_schema in Sa. apply N.eqb_eq in Sa.
    intros N. contradiction.
Qed.

(** X11.  A rollback run again on what it left changes nothing in the
    store and gets the answer of the first run, whatever the lookups
    answered and whichever calls failed. *)
Theorem RollBackVersion_again_changes_nothing :
  forall env req w,
    let w1 := fst (gin (RollBackVersion env req) w) in
    store (fst (gin (RollBackVersion env req) w1)) = store w1
    /\ snd (gin (RollBackVersion env req) w1)
       = snd (gin (RollBackVersion env req) w).
Proof.
  intros env req w. cbv zeta.
  unfold gin, RollBackVersion, updateActiveVersion, getVersionsCount.
  unfold_M.
  destruct (rbv_IsSchemaExist env (ToLower (rbv_SchemaName req)))
    as [[[] schema]|]; simpl; auto.
  destruct (rbv_isSchemaVersionExists env (rbv_VersionNumber req)
              (Schema.ID schema)) as [[[] v0]|]; simpl; auto.
  destruct (rbv_CountDocuments_err env); simpl; auto.
  destruct (1 <? Mongo.CountDocuments (of_schema (Schema.ID schema))
                   (schemaVersionCollection (store w))) eqn:Hn; simpl.
  2: { destruct (rbv_getExtendedSchemaDetails env schema); simpl;
       rewrite Hn; simpl; auto. }
  assert (Hp : forall a d,
             of_schema (Schema.ID schema) (SchemaVersion.set_active a d)
             = of_schema (Schema.ID schema) d) by reflexivity.
  destruct (rbv_UpdateMany_err env); simpl; [rewrite Hn; simpl; auto|].
  destruct (rbv_UpdateOne_err env); simpl.
  - unfold Mongo.CountDocuments in *.
    rewrite UpdateMany_filter_length by apply Hp. rewrite Hn. simpl.
    rewrite (UpdateMany_fixed _ _ (UpdateMany_none_active _ _)). auto.
  - unfold Mongo.CountDocuments in *.
    destruct (rbv_getExtendedSchemaDetails env schema); simpl.
    all: rewrite UpdateOne_filter_length, UpdateMany_filter_length
      by apply Hp.
    all: rewrite Hn; simpl.
    all: rewrite (UpdateMany_after_UpdateOne _ _ _
                    (UpdateMany_none_active _ _)).
    all: auto.
Qed.

(** ** Schemas: unbinding the stations *)

Lemma unbind_not_used (schemaName : string) (st : StationDoc) :
  uses_schema schemaName (unbind st) = false.
Proof. reflexivity. Qed.

Lemma unbound_or_same_keeps_unused (schemaName : string) (a b : StationDoc) :
  unbound_or_same a b ->
  uses_schema schemaName a = false -> uses_schema schemaName b = false.
Proof. intros [->| ->] H; [exact H|reflexivity]. Qed.

Lemma Forall2_In_r {A : Type} (R : A -> A -> Prop) (l l' : list A) (b : A) :
  Forall2 R l l' -> In b l' -> exists a, In a l /\ R a b.
Proof.
  induction 1 as [|x y l l' Hxy _ IH]; intros Hb; [destruct Hb|].
  destruct Hb as [<-|Hb].
  - exists x. split; [now left|exact Hxy].
  - destruct (IH Hb) as (a & Ha & Hr). exists a. split; [now right|exact Hr].
Qed.

Lemma deleteSchemaFromStation_rowwise (schemaName : string)
  (stations : list StationDoc) :
  Forall2 unbound_or_same stations
    (Mongo.UpdateMany (uses_schema schemaName) unbind stations).
Proof.
  eapply Forall2_weaken; [|apply UpdateMany_rowwise].
  intros a b [->|[_ ->]]; [now left|now right].
Qed.

Lemma deleteSchemaFromStation_unused (schemaName : string)
  (stations : list StationDoc) (st : StationDoc) :
  In st (Mongo.UpdateMany (uses_schema schemaName) unbind stations) ->
  uses_schema schemaName st = false.
Proof.
  unfold Mongo.UpdateMany. intros H. apply in_map_iff in H.
  destruct H as (a & <- & _).
  destruct (uses_schema schemaName a) eqn:E; [reflexivity|exact E].
Qed.

Lemma filter_UpdateMany_other {A : Type} (p f : A -> bool) (set : A -> A)
  (l : list A) :
  (forall d, f d = true -> p d = false /\ p (set d) = false) ->
  filter p (Mongo.UpdateMany f set l) = filter p l.
Proof.
  intros H. unfold Mongo.UpdateMany. induction l as [|a l IH]; [reflexivity|].
  simpl. destruct (f a) eqn:F.
  - destruct (H a F) as [-> ->]. exact IH.
  - destruct (p a); now rewrite IH.
Qed.

(** X12.  Once [deleteSchemaFromStation] has run for a name, no station
    uses a schema of that name: [getUsingStationsByName] finds none and
    [getStationsBySchemaCount] counts none.  The stations that use a schema
    of another name are found and counted as before, and no station has
    changed but for its schema, the deleted ones included. *)
Theorem deleteSchemaFromStation_leaves_no_using_station :
  forall schemaName stations,
    let stations' :=
      fst (deleteSchemaFromStation None schemaName stations) in
    getUsingStationsByName None schemaName stations' = Ok []
    /\ getStationsBySchemaCount None schemaName stations' = Ok 0
    /\ (forall other,
          other <> schemaName ->
          getUsingStationsByName None other stations'
          = getUsingStationsByName None other stations
          /\ getStationsBySchemaCount None other stations'
             = getStationsBySchemaCount None other stations)
    /\ map sta_station stations' = map sta_station stations
    /\ (forall st, In st stations ->
          uses_schema schemaName st = true -> In (unbind st) stations').
Proof.
  intros schemaName stations. cbv zeta.
  unfold deleteSchemaFromStation, getUsingStationsByName,
    getStationsBySchemaCount, Mongo.Find, Mongo.CountDocuments. simpl.
  assert (E : filter (used_by schemaName)
                (Mongo.UpdateMany (uses_schema schemaName) unbind stations)
              = []).
  { apply filter_all_false. intros st Hst. unfold used_by.
    now rewrite (deleteSchemaFromStation_unused _ _ _ Hst). }
  rewrite E. simpl. repeat split.
  - f_equal. f_equal. apply filter_UpdateMany_other. intros d Hd.
    unfold used_by, uses_schema in *. simpl.
    destruct (sta_Schema d) as [sd|]; [|discriminate].
    apply String.eqb_eq in Hd. subst schemaName.
    destruct (sd_SchemaName sd =? other)%string eqn:O; [|auto].
    apply String.eqb_eq in O. congruence.
  - f_equal. f_equal. f_equal. apply filter_UpdateMany_other. intros d Hd.
    unfold used_by, uses_schema in *. simpl.
    destruct (sta_Schema d) as [sd|]; [|discriminate].
    apply String.eqb_eq in Hd. subst schemaName.
    destruct (sd_SchemaName sd =? other)%string eqn:O; [|auto].
    apply String.eqb_eq in O. congruence.
  - unfold Mongo.UpdateMany. rewrite map_map. apply map_ext.
    intros a. destruct (uses_schema schemaName a); reflexivity.
  - intros st Hst Hu. unfold Mongo.UpdateMany. apply in_map_iff.
    exists st. rewrite Hu. auto.
Qed.

(** ** Schemas: the removal *)

Lemma unbound_or_same_trans (a b c : StationDoc) :
  unbound_or_same a b -> unbound_or_same b c -> unbound_or_same a c.
Proof. intros [->| ->] [->| ->]; [now left|now right|now right|now right]. Qed.

Lemma found_for_cons (env : RemoveSchemaEnv) (name : string)
  (rest : list string) (schema : Schema.t) :
  found_for env (name :: rest) schema <->
  rs_IsSchemaExist env (ToLower name) = Ok (true, schema)
  \/ found_for env rest schema.
Proof.
  unfold found_for. split.
  - intros (n & [<-|Hn] & E); [now left|right; eauto].
  - intros [E|(n & Hn & E)]; [exists name|exists n]; split; auto;
      [now left|now right].
Qed.

(** What the loop of [RemoveSchema] leaves: it aborts with 500 on the
    first call that fails, or it has collected the ids of the schemas found
    and unbound the stations of each. *)
Lemma RemoveSchema_loop_spec (env : RemoveSchemaEnv)
  (SchemaNames : list string) :
  forall i schemaIds stations,
    let stations' :=
      fst (RemoveSchema_loop env i SchemaNames schemaIds stations) in
    Forall2 unbound_or_same stations stations'
    /\ match snd (RemoveSchema_loop env i SchemaNames schemaIds stations) with
       | inl r =>
           r = (500, RS_message "Server error")
           /\ ((exists name e, In name SchemaNames
                               /\ rs_IsSchemaExist env (ToLower name) = Err e)
               \/ exists j e, rs_UpdateMany_err env j = Some e)
       | inr ids =>
           exists found,
             ids = schemaIds ++ found
             /\ (forall id, In id found <->
                   exists schema, found_for env SchemaNames schema
                                  /\ Schema.ID schema = id)
             /\ (forall schema st,
                   found_for env SchemaNames schema -> In st stations' ->
                   uses_schema (Schema.Name schema) st = false)
       end.
Proof.
  induction SchemaNames as [|name rest IH]; intros i schemaIds stations.
  - simpl. split; [apply Forall2_same; now left|].
    exists []. split; [now rewrite app_nil_r|]. split.
    + intros id. split; [intros []|intros (x & (n & [] & _) & _)].
    + intros schema st (n & [] & _).
  - cbv zeta. simpl.
    destruct (rs_IsSchemaExist env (ToLower name)) as [[[] schema]|e] eqn:E.
    + unfold deleteSchemaFromStation.
      destruct (rs_UpdateMany_err env i) as [e|] eqn:U.
      * simpl. split; [apply Forall2_same; now left|].
        split; [reflexivity|right; eauto].
      * specialize (IH (S i) (schemaIds ++ [Schema.ID schema])
                      (Mongo.UpdateMany (uses_schema (Schema.Name schema))
                         unbind stations)).
        cbv zeta in IH. destruct IH as [F IH].
        split.
        { eapply Forall2_compose;
            [exact unbound_or_same_trans
            |apply deleteSchemaFromStation_rowwise|exact F]. }
        destruct (snd (RemoveSchema_loop env (S i) rest
                         (schemaIds ++ [Schema.ID schema])
                         (Mongo.UpdateMany
                            (uses_schema (Schema.Name schema)) unbind
                            stations))) as [r|ids].
        { destruct IH as [-> [(n & e & Hn & He)|H]]; split; auto.
          left. exists n, e. split; [now right|exact He]. }
        destruct IH as (found & -> & Hf & Hu).
        exists (Schema.ID schema :: found).
        split; [now rewrite <- app_assoc|]. split.
        { intros id. simpl.
          split.
          - intros [<-|Hi].
            + exists schema. split; [|reflexivity].
              apply found_for_cons. now left.
            + apply Hf in Hi. destruct Hi as (x & Hx & Hid).
              exists x. split; [|exact Hid]. apply found_for_cons.
              now right.
          - intros (x & Hx & Hid). apply found_for_cons in Hx.
            destruct Hx as [Hx|Hx].
            + left. rewrite E in Hx. injection Hx as <-. exact Hid.
            + right. apply Hf. eauto. }
        intros x st Hx Hst. apply found_for_cons in Hx.
        destruct Hx as [Hx|Hx]; [|now apply Hu].
        rewrite E in Hx. injection Hx as <-.
        destruct (Forall2_In_r _ _ _ _ F Hst) as (a & Ha & Hr).
        eapply unbound_or_same_keeps_unused; [exact Hr|].
        eapply deleteSchemaFromStation_unused. exact Ha.
    + specialize (IH (S i) schemaIds stations). cbv zeta in IH.
      destruct IH as [F IH]. split; [exact F|].
      destruct (snd (RemoveSchema_loop env (S i) rest schemaIds stations))
        as [r|ids].
      { destruct IH as [-> [(n & e & Hn & He)|H]]; split; auto.
        left. exists n, e. split; [now right|exact He]. }
      destruct IH as (found & -> & Hf & Hu).
      exists found. split; [reflexivity|]. split.
      { intros id. rewrite Hf. split.
        - intros (x & Hx & Hid). exists x. split; [|exact Hid].
          apply found_for_cons. now right.
        - intros (x & Hx & Hid). apply found_for_cons in Hx.
          destruct Hx as [Hx|Hx]; [rewrite E in Hx; discriminate|eauto]. }
      intros x st Hx Hst. apply found_for_cons in Hx.
      destruct Hx as [Hx|Hx]; [rewrite E in Hx; discriminate|].
      now apply Hu.
    + simpl. split; [apply Forall2_same; now left|].
      split; [reflexivity|]. left. exists name, e. split; [now left|exact E].
Qed.

Lemma filter_all_true {A : Type} (f : A -> bool) (l : list A) :
  (forall x, f x = true) -> filter f l = l.
Proof.
  intros H. induction l as [|a l IH]; simpl; [reflexivity|].
  now rewrite H, IH.
Qed.

Lemma in_ids_In (ids : list ObjectID) (id : ObjectID) :
  In id ids <-> in_ids ids id = true.
Proof.
  unfold in_ids. rewrite existsb_exists. split.
  - intros H. exists id. split; [exact H|apply N.eqb_refl].
  - intros (x & Hx & E). apply N.eqb_eq in E. now subst.
Qed.

(** X13.  When no call fails, [RemoveSchema] answers 200 with the empty
    object and leaves: of the schemas, those whose id no lookup returned; of
    the versions, those of no such id; no station that uses a schema of the
    name of a schema found, deleted stations included; the stations as they
    were but for their schema, and the producers as they were. *)
Theorem RemoveSchema_removes_schema_versions_and_bindings :
  forall env SchemaNames stations s,
    (forall name, In name SchemaNames ->
       exists a, rs_IsSchemaExist env (ToLower name) = Ok a) ->
    (forall i, rs_UpdateMany_err env i = None) ->
    rs_DeleteMany_versions_err env = None ->
    rs_DeleteMany_schemas_err env = None ->
    let stations' := fst (fst (RemoveSchema env SchemaNames stations s)) in
    let s' := snd (fst (RemoveSchema env SchemaNames stations s)) in
    snd (RemoveSchema env SchemaNames stations s) = (200, RS_empty)
    /\ (exists ids,
          (forall id, In id ids <->
             exists schema, found_for env SchemaNames schema
                            /\ Schema.ID schema = id)
          /\ schemasCollection s'
             = filter (fun x => negb (in_ids ids (Schema.ID x)))
                 (schemasCollection s)
          /\ schemaVersionCollection s'
             = filter (fun v => negb (in_ids ids (SchemaVersion.SchemaId v)))
                 (schemaVersionCollection s))
    /\ (forall schema st,
          found_for env SchemaNames schema -> In st stations' ->
          uses_schema (Schema.Name schema) st = false)
    /\ Forall2 unbound_or_same stations stations'
    /\ producersCollection s' = producersCollection s.
Proof.
  intros env SchemaNames stations s Hok Hu Hv Hs. cbv zeta.
  pose proof (RemoveSchema_loop_spec env SchemaNames 0 [] stations) as L.
  cbv zeta in L. unfold RemoveSchema, findAndDeleteSchema, DeleteMany.
  destruct (RemoveSchema_loop env 0 SchemaNames [] stations)
    as [stations' [r|ids]]; simpl in L |- *; destruct L as [F L].
  - exfalso. destruct L as [_ [(n & e & Hn & He)|(j & e & Hj)]].
    + destruct (Hok n Hn) as (a & Ha). rewrite Ha in He. discriminate.
    + rewrite Hu in Hj. discriminate.
  - destruct L as (found & -> & Hf & Hun). simpl.
    rewrite Hv, Hs.
    destruct found as [|id found]; simpl.
    + repeat split; auto. exists []. split; [exact Hf|].
      simpl. split; symmetry; now apply filter_all_true.
    + repeat split; auto. exists (id :: found). split; [exact Hf|].
      split; reflexivity.
Qed.

(** X14.  Whenever [RemoveSchema] does not answer 200, it answers 500
    "Server error" and it has deleted no schema; the stations are as they
    were but for the schema of some.  The versions are as they were, unless
    it was the deletion of the schemas that failed: then the versions of
    every schema found are gone, while the schemas are still stored. *)
Theorem RemoveSchema_failure_deletes_no_schema :
  forall env SchemaNames stations s,
    fst (snd (RemoveSchema env SchemaNames stations s)) <> 200 ->
    let stations' := fst (fst (RemoveSchema env SchemaNames stations s)) in
    let s' := snd (fst (RemoveSchema env SchemaNames stations s)) in
    snd (RemoveSchema env SchemaNames stations s)
    = (500, RS_message "Server error")
    /\ schemasCollection s' = schemasCollection s
    /\ Forall2 unbound_or_same stations stations'
    /\ (schemaVersionCollection s' = schemaVersionCollection s
        \/ rs_DeleteMany_versions_err env = None
           /\ rs_DeleteMany_schemas_err env <> None
           /\ (exists schema, found_for env SchemaNames schema)
           /\ forall schema v,
               found_for env SchemaNames schema ->
               In v (schemaVersionCollection s') ->
               SchemaVersion.SchemaId v <> Schema.ID schema).
Proof.
  intros env SchemaNames stations s. cbv zeta.
  pose proof (RemoveSchema_loop_spec env SchemaNames 0 [] stations) as L.
  cbv zeta in L. unfold RemoveSchema, findAndDeleteSchema, DeleteMany.
  destruct (RemoveSchema_loop env 0 SchemaNames [] stations)
    as [stations' [r|ids]]; simpl in L |- *; destruct L as [F L].
  - destruct L as [-> _]. simpl. intros _. auto.
  - destruct L as (found & -> & Hf & _). simpl.
    destruct found as [|id found]; simpl; [intros H; now contradiction H|].
    destruct (rs_DeleteMany_versions_err env) as [e|]; simpl;
      [intros _; auto|].
    destruct (rs_DeleteMany_schemas_err env) as [e|]; simpl;
      [|intros H; now contradiction H].
    intros _. repeat split; auto. right.
    split; [reflexivity|]. split; [discriminate|].
    split.
    + destruct (proj1 (Hf id) (or_introl eq_refl)) as (schema & Hx & _).
      now exists schema.
    + intros schema v Hx Hv. apply filter_In in Hv. destruct Hv as [_ Hv].
      intros Eq. apply negb_true_iff in Hv.
      assert (Hi : In (SchemaVersion.SchemaId v) (id :: found))
        by (apply Hf; exists schema; auto).
      apply in_ids_In in Hi. unfold in_ids in Hi, Hv. simpl in Hi.
      rewrite Hi in Hv. discriminate.
Qed.

(** ** Schemas: reading the active version back *)

Lemma only_active_found (schemaId : ObjectID) (t : SchemaVersion.t)
  (l : list SchemaVersion.t) :
  only_active schemaId t l ->
  SchemaVersion.SchemaId t = schemaId ->
  find (active_of schemaId) l = Some t.
Proof.
  intros (l1 & l2 & -> & At & Hn) St.
  induction l1 as [|a l1 IH]; simpl.
  - unfold active_of. now rewrite St, N.eqb_refl, At.
  - assert (Ha : active_of schemaId a = false).
    { unfold active_of.
      destruct (SchemaVersion.SchemaId a =? schemaId)%N eqn:E; [|reflexivity].
      apply N.eqb_eq in E. simpl. apply Hn; [now left|exact E]. }
    rewrite Ha. apply IH. intros v Hv. apply Hn. now right.
Qed.

Lemma none_active_not_found (schemaId : ObjectID)
  (l : list SchemaVersion.t) :
  none_active schemaId l -> find (active_of schemaId) l = None.
Proof.
  intros H. apply find_none_all. intros d Hd. unfold active_of.
  destruct (SchemaVersion.SchemaId d =? schemaId)%N eqn:E; [|reflexivity].
  apply N.eqb_eq in E. simpl. now apply H.
Qed.

(** X15.  After a rollback to a stored version of a schema of two versions
    or more, [getActiveVersionBySchemaId] returns the target version when
    both writes went through, and [mongo.ErrNoDocuments] when the second
    one failed. *)
Theorem getActiveVersionBySchemaId_after_RollBackVersion :
  forall env req w schema v0,
    rbv_IsSchemaExist env (ToLower (rbv_SchemaName req)) = Ok (true, schema) ->
    rbv_isSchemaVersionExists env (rbv_VersionNumber req) (Schema.ID schema)
    = Ok (true, v0) ->
    rbv_CountDocuments_err env = None ->
    rbv_UpdateMany_err env = None ->
    1 < versions_count (Schema.ID schema) w ->
    (exists d, In d (versions_of w)
               /\ version_key (Schema.ID schema) (rbv_VersionNumber req) d
                  = true) ->
    let s' := store (fst (gin (RollBackVersion env req) w)) in
    (rbv_UpdateOne_err env = None ->
     exists t,
       getActiveVersionBySchemaId None (Schema.ID schema) s' = Ok t
       /\ SchemaVersion.VersionNumber t = rbv_VersionNumber req
       /\ SchemaVersion.SchemaId t = Schema.ID schema
       /\ SchemaVersion.Active t = true)
    /\ (forall e, rbv_UpdateOne_err env = Some e ->
          getActiveVersionBySchemaId None (Schema.ID schema) s'
          = Err ErrNoDocuments).
Proof.
  intros env req w schema v0 He Hv Hc Hm Hn Hd. cbv zeta.
  apply Z.ltb_lt in Hn. unfold versions_count in Hn.
  unfold gin, RollBackVersion, updateActiveVersion, getVersionsCount.
  unfold_M. rewrite He. simpl. rewrite Hv. simpl. rewrite Hc. simpl.
  rewrite Hn. simpl. rewrite Hm. simpl.
  unfold getActiveVersionBySchemaId, FindOne_Decode, Mongo.FindOne.
  split.
  - intros Ho. rewrite Ho. simpl.
    destruct (updateActiveVersion_only_active _ _ _ Hd)
      as [(t & Ht & St & Nt) _].
    exists t.
    destruct (rbv_getExtendedSchemaDetails env schema); simpl.
    all: unfold versions_of in Ht.
    all: rewrite (only_active_found _ _ _ Ht St).
    all: repeat split; auto.
    all: destruct Ht as (l1 & l2 & _ & At & _); exact At.
  - intros e Ho. rewrite Ho. simpl.
    now rewrite (none_active_not_found _ _ (UpdateMany_none_active _ _)).
Qed.

(** ** Schemas: the listing *)

Lemma Forall2_In_l {A : Type} (R : A -> A -> Prop) (l l' : list A) (a : A) :
  Forall2 R l l' -> In a l -> exists b, In b l' /\ R a b.
Proof.
  induction 1 as [|x y l l' Hxy _ IH]; intros Ha; [destruct Ha|].
  destruct Ha as [<-|Ha].
  - exists y. split; [now left|exact Hxy].
  - destruct (IH Ha) as (b & Hb & Hr). exists b. split; [now right|exact Hr].
Qed.

Lemma GetAllSchemasDetails_loop_completes (env : GetAllSchemasEnv)
  (stations : list StationDoc) (schemas : list ExtendedSchema) :
  forall i acc rows,
    GetAllSchemasDetails_loop env stations i schemas acc = Ok rows ->
    exists rows', rows = acc ++ rows'
                  /\ Forall2 (completed env stations) schemas rows'.
Proof.
  induction schemas as [|a l IH]; intros i acc rows; simpl.
  - intros E. injection E as <-. exists []. split; [now rewrite app_nil_r|].
    constructor.
  - unfold getStationsBySchemaCount.
    destruct (gas_CountDocuments_err env i); [discriminate|].
    destruct (gas_GetTagsBySchema env i (es_ID a)) as [tags|] eqn:T;
      [|discriminate].
    intros E. apply IH in E. destruct E as (rows' & -> & F).
    eexists (_ :: rows'). split; [now rewrite <- app_assoc|].
    constructor; [|exact F]. split; [exists i; exact T|reflexivity].
Qed.

Lemma count_positive {A : Type} (f : A -> bool) (l : list A) :
  (0 <? Mongo.CountDocuments f l) = true <->
  exists x, In x l /\ f x = true.
Proof.
  unfold Mongo.CountDocuments. rewrite Z.ltb_lt. split.
  - intros H. destruct (filter f l) as [|x rest] eqn:F; [simpl in H; lia|].
    exists x. apply filter_In. rewrite F. now left.
  - intros (x & Hx). apply filter_In in Hx.
    destruct (filter f l); [destruct Hx|simpl; lia].
Qed.

(** A stored schema with a version 1 and an active version is listed. *)
Lemma GetAllSchemasDetails_row_of_triple (env : GetAllSchemasEnv)
  (stations : list StationDoc) (s : Store) (rows : list ExtendedSchema)
  (schema : Schema.t) (v1 a : SchemaVersion.t) :
  (forall l, Permutation l (gas_sort env l)) ->
  GetAllSchemasDetails env stations s = Ok rows ->
  In schema (schemasCollection s) ->
  In v1 (schemaVersionCollection s) ->
  version_key (Schema.ID schema) 1 v1 = true ->
  In a (schemaVersionCollection s) ->
  active_of (Schema.ID schema) a = true ->
  exists row,
    In row rows
    /\ es_ID row = Schema.ID schema
    /\ es_Name row = Schema.Name schema
    /\ es_Type row = Schema.Type_ schema
    /\ es_CreationDate row = SchemaVersion.CreationDate v1
    /\ es_ActiveVersionNumber row = SchemaVersion.VersionNumber a.
Proof.
  intros Hp. unfold GetAllSchemasDetails.
  destruct (gas_Aggregate_err env); [discriminate|]. intros E.
  apply GetAllSchemasDetails_loop_completes in E.
  destruct E as (rows' & -> & F). simpl.
  intros Hs H1 K1 Ha Ka.
  assert (H0 : In (mkExtendedSchema (Schema.ID schema) (Schema.Name schema)
                     (Schema.Type_ schema)
                     (SchemaVersion.CreatedByUser v1)
                     (SchemaVersion.CreationDate v1)
                     (SchemaVersion.VersionNumber a) false [])
                  (schemas_Aggregate s)).
  { unfold schemas_Aggregate. apply in_flat_map. exists schema.
    split; [exact Hs|]. apply in_flat_map. exists v1.
    split; [now apply filter_In|]. apply in_map_iff. exists a.
    split; [reflexivity|now apply filter_In]. }
  apply (Permutation_in _ (Hp _)) in H0.
  destruct (Forall2_In_l _ _ _ _ F H0) as (row & Hr & _ & Hc).
  exists row. split; [exact Hr|]. rewrite Hc. simpl. auto.
Qed.

(** X16.  What [GetAllSchemasDetails] returns, the list [GetAllSchemas]
    serves.  Every row listed is a stored schema
    together with a version 1 of it, which gives the author and the date,
    and an active version of it, which gives the number shown; every such
    triple is listed.  So a schema with no active version, or with no
    version 1, is not listed at all.  A row is marked used exactly when a
    station that is not deleted uses a schema of its name. *)
Theorem GetAllSchemasDetails_lists_schemas_with_an_active_version :
  forall env stations s rows,
    (forall l, Permutation l (gas_sort env l)) ->
    GetAllSchemasDetails env stations s = Ok rows ->
    (forall row, In row rows ->
       exists schema v1 a,
         In schema (schemasCollection s)
         /\ In v1 (schemaVersionCollection s)
         /\ version_key (Schema.ID schema) 1 v1 = true
         /\ In a (schemaVersionCollection s)
         /\ active_of (Schema.ID schema) a = true
         /\ es_ID row = Schema.ID schema
         /\ es_Name row = Schema.Name schema
         /\ es_Type row = Schema.Type_ schema
         /\ es_CreatedByUser row = SchemaVersion.CreatedByUser v1
         /\ es_CreationDate row = SchemaVersion.CreationDate v1
         /\ es_ActiveVersionNumber row = SchemaVersion.VersionNumber a
         /\ (es_Used row = true <->
             exists st, In st stations
                        /\ used_by (Schema.Name schema) st = true))
    /\ (forall schema v1 a,
          In schema (schemasCollection s) ->
          In v1 (schemaVersionCollection s) ->
          version_key (Schema.ID schema) 1 v1 = true ->
          In a (schemaVersionCollection s) ->
          active_of (Schema.ID schema) a = true ->
          exists row,
            In row rows
            /\ es_ID row = Schema.ID schema
            /\ es_CreationDate row = SchemaVersion.CreationDate v1
            /\ es_ActiveVersionNumber row = SchemaVersion.VersionNumber a)
    /\ length rows = length (schemas_Aggregate s).
Proof.
  intros env stations s rows Hp. unfold GetAllSchemasDetails.
  destruct (gas_Aggregate_err env) eqn:Hagg; [discriminate|]. intros E.
  pose proof E as Hloop.
  apply GetAllSchemasDetails_loop_completes in E.
  destruct E as (rows' & -> & F). simpl in *. split; [|split].
  - intros row Hr.
    destruct (Forall2_In_r _ _ _ _ F Hr) as (r0 & H0 & _ & Hc).
    apply (Permutation_in _ (Permutation_sym (Hp _))) in H0.
    unfold schemas_Aggregate in H0.
    apply in_flat_map in H0. destruct H0 as (schema & Hs & H0).
    apply in_flat_map in H0. destruct H0 as (v1 & H1 & H0).
    apply in_map_iff in H0. destruct H0 as (a & <- & Ha).
    apply filter_In in H1. apply filter_In in Ha.
    exists schema, v1, a. rewrite Hc. simpl.
    repeat match goal with |- _ /\ _ => split end; try tauto.
    apply count_positive.
  - intros schema v1 a Hs H1 K1 Ha Ka.
    assert (E : GetAllSchemasDetails env stations s = Ok rows').
    { unfold GetAllSchemasDetails. rewrite Hagg, Hloop. reflexivity. }
    destruct (GetAllSchemasDetails_row_of_triple env stations s rows'
                schema v1 a Hp E Hs H1 K1 Ha Ka)
      as (row & Hr & H2 & _ & _ & H3 & H4).
    exists row. auto.
  - rewrite <- (Forall2_length F). symmetry. apply Permutation_length, Hp.
Qed.

(** ** Schemas: the details *)

(** X17.  The details read for a station that uses version [n] of a schema
    list that version first; a second version is listed exactly when the
    first is not active, and it is an active version of the schema.  When
    the first is not active and the schema has no active version, the read
    fails with [mongo.ErrNoDocuments]. *)
Theorem getExtendedSchemaDetailsUpdateAvailable_versions :
  forall env n schema stations s,
    (forall d,
        getExtendedSchemaDetailsUpdateAvailable env n schema stations s = Ok d ->
        exists used,
          In used (schemaVersionCollection s)
          /\ SchemaVersion.SchemaId used = Schema.ID schema
          /\ SchemaVersion.VersionNumber used = n
          /\ (SchemaVersion.Active used = true
              /\ ExtendedSchemaDetails.Versions d = [used]
              \/ SchemaVersion.Active used = false
                 /\ exists a,
                     In a (schemaVersionCollection s)
                     /\ SchemaVersion.SchemaId a = Schema.ID schema
                     /\ SchemaVersion.Active a = true
                     /\ ExtendedSchemaDetails.Versions d = [used; a]))
    /\ (forall used,
          sde_GetSchemaVersion_err env = None ->
          sde_getActiveVersion_err env = None ->
          find (version_key (Schema.ID schema) n) (schemaVersionCollection s)
          = Some used ->
          SchemaVersion.Active used = false ->
          none_active (Schema.ID schema) (schemaVersionCollection s) ->
          getExtendedSchemaDetailsUpdateAvailable env n schema stations s
          = Err ErrNoDocuments).
Proof.
  intros env n schema stations s.
  unfold getExtendedSchemaDetailsUpdateAvailable, GetSchemaVersion,
    getActiveVersionBySchemaId, FindOne_Decode, Mongo.FindOne,
    extended_details, getUsingStationsByName.
  split.
  - intros d.
    destruct (sde_GetSchemaVersion_err env); [discriminate|].
    destruct (find (version_key (Schema.ID schema) n)
                (schemaVersionCollection s)) as [used|] eqn:U;
      [|discriminate].
    apply find_some in U. destruct U as [Ui Uk].
    unfold version_key in Uk. apply andb_true_iff in Uk.
    destruct Uk as [U1 U2]. apply N.eqb_eq in U1. apply Z.eqb_eq in U2.
    destruct (SchemaVersion.Active used) eqn:A; simpl.
    + destruct (sde_Aggregate_err env); [discriminate|].
      destruct (sde_GetTagsBySchema env (Schema.ID schema)); [|discriminate].
      intros E. injection E as <-. exists used. simpl.
      repeat split; auto.
    + destruct (sde_getActiveVersion_err env); [discriminate|].
      destruct (find (active_of (Schema.ID schema))
                  (schemaVersionCollection s)) as [a|] eqn:F;
        [|discriminate].
      apply find_some in F. destruct F as [Fi Fk].
      unfold active_of in Fk. apply andb_true_iff in Fk.
      destruct Fk as [F1 F2]. apply N.eqb_eq in F1.
      destruct (sde_Aggregate_err env); [discriminate|].
      destruct (sde_GetTagsBySchema env (Schema.ID schema)); [|discriminate].
      intros E. injection E as <-. exists used. simpl.
      repeat split; auto. right. split; [exact A|].
      exists a. auto.
  - intros used -> -> -> -> Hn. simpl.
    now rewrite (none_active_not_found _ _ Hn).
Qed.

(** X18.  When [GetSchemaDetails] answers with details, they are those of
    the first stored schema of the lowercased name: its id and type, all its
    stored versions and no other, each once, and the names of the stations,
    not deleted, that use a schema of that name. *)
Theorem GetSchemaDetails_answers_for_the_stored_schema :
  forall IsSchemaExist env SchemaName stations s d,
    (forall l, Permutation l (sde_sort env l)) ->
    GetSchemaDetails IsSchemaExist env SchemaName stations s
    = mkResponse 200 (JSON_ExtendedSchemaDetails d) ->
    exists schema,
      find (named (ToLower SchemaName)) (schemasCollection s) = Some schema
      /\ ExtendedSchemaDetails.ID d = Schema.ID schema
      /\ ExtendedSchemaDetails.SchemaName d = ToLower SchemaName
      /\ ExtendedSchemaDetails.Type_ d = Schema.Type_ schema
      /\ Permutation (ExtendedSchemaDetails.Versions d)
           (filter (of_schema (Schema.ID schema)) (schemaVersionCollection s))
      /\ ExtendedSchemaDetails.UsedStations d
         = map (fun st => Station.Name (sta_station st))
             (filter (used_by (ToLower SchemaName)) stations).
Proof.
  intros IsSchemaExist env SchemaName stations s d Hp.
  unfold GetSchemaDetails, getSchemaDetailsBySchemaName,
    getExtendedSchemaDetails, getSchemaVersionsBySchemaId, FindOne_Decode,
    Mongo.FindOne, Mongo.Find, extended_details, getUsingStationsByName,
    abort.
  destruct (IsSchemaExist (ToLower SchemaName)) as [[[] _]|]; simpl;
    try discriminate.
  destruct (sde_FindOne_err env); [discriminate|].
  destruct (find (named (ToLower SchemaName)) (schemasCollection s))
    as [schema|] eqn:F; [|discriminate].
  destruct (sde_Find_err env); [discriminate|].
  destruct (sde_Aggregate_err env); [discriminate|].
  destruct (sde_GetTagsBySchema env (Schema.ID schema)); [|discriminate].
  intros E. injection E as <-. exists schema. simpl.
  apply find_some in F. destruct F as [_ Fn]. unfold named in Fn.
  apply String.eqb_eq in Fn. rewrite Fn.
  repeat split; auto. apply Permutation_sym, Hp.
Qed.

(** ** Schemas: created, then listed *)

Lemma CreateNewSchema_answered (env : CreateNewSchemaEnv)
  (req : CreateNewSchemaBody) (w : World) (s : Schema.t) :
  body (snd (gin (CreateNewSchema env req) w)) = JSON_Schema s ->
  let w' := fst (gin (CreateNewSchema env req) w) in
  exists v,
    schemasCollection (store w') = schemasCollection (store w) ++ [s]
    /\ versions_of w' = versions_of w ++ [v]
    /\ SchemaVersion.SchemaId v = Schema.ID s
    /\ SchemaVersion.VersionNumber v = 1
    /\ SchemaVersion.Active v = true
    /\ SchemaVersion.CreationDate v = cns_Now env.
Proof.
  unfold gin, CreateNewSchema, Mongo.UpdateOne_upsert, Mongo.InsertOne,
    versions_of.
  unfold_M.
  repeat (case_split; simpl); try discriminate.
  all: repeat match goal with
         | H : (_, _) = (_, _) |- _ => injection H as <- <-
         | H : inl _ = inl _ |- _ => injection H as <-
         | H : inr _ = inr _ |- _ => injection H as <-
         end; simpl; try discriminate.
  all: intros E; injection E as <-; simpl.
  all: eexists; repeat match goal with |- _ /\ _ => split end;
    reflexivity.
Qed.

(** X24.  A schema that [CreateNewSchema] answered with is listed by
    [GetAllSchemasDetails] run on the store it left: among the rows there
    is one with the id, the name and the type of the schema, the creation
    date of the request and 1 as the number of the active version. *)
Theorem CreateNewSchema_then_GetAllSchemasDetails :
  forall envS req w s envL stations rows,
    body (snd (gin (CreateNewSchema envS req) w)) = JSON_Schema s ->
    (forall l, Permutation l (gas_sort envL l)) ->
    GetAllSchemasDetails envL stations
      (store (fst (gin (CreateNewSchema envS req) w)))
    = Ok rows ->
    exists row,
      In row rows
      /\ es_ID row = Schema.ID s
      /\ es_Name row = Schema.Name s
      /\ es_Type row = Schema.Type_ s
      /\ es_CreationDate row = cns_Now envS
      /\ es_ActiveVersionNumber row = 1.
Proof.
  intros envS req w s envL stations rows Hb Hp Hl.
  destruct (CreateNewSchema_answered envS req w s Hb)
    as (v & Hs & Hv & Sv & Nv & Av & Dv).
  unfold versions_of in Hv.
  assert (Is : In s (schemasCollection
                       (store (fst (gin (CreateNewSchema envS req) w)))))
    by (rewrite Hs; apply in_or_app; right; now left).
  assert (Iv : In v (schemaVersionCollection
                       (store (fst (gin (CreateNewSchema envS req) w)))))
    by (rewrite Hv; apply in_or_app; right; now left).
  assert (K1 : version_key (Schema.ID s) 1 v = true)
    by (unfold version_key; rewrite Sv, Nv, N.eqb_refl; reflexivity).
  assert (Ka : active_of (Schema.ID s) v = true)
    by (unfold active_of; rewrite Sv, Av, N.eqb_refl; reflexivity).
  destruct (GetAllSchemasDetails_row_of_triple envL stations _ rows s v v
              Hp Hl Is Iv K1 Iv Ka)
    as (row & Hr & H1 & H2 & H3 & H4 & H5).
  exists row. rewrite H4, H5, Dv, Nv.
  repeat match goal with |- _ /\ _ => split end; auto.
Qed.

(** ** Schemas: removed, then listed *)

Lemma GetAllSchemasDetails_row_is_stored (env : GetAllSchemasEnv)
  (stations : list StationDoc) (s : Store) (rows : list ExtendedSchema)
  (row : ExtendedSchema) :
  (forall l, Permutation l (gas_sort env l)) ->
  GetAllSchemasDetails env stations s = Ok rows ->
  In row rows ->
  exists schema,
    In schema (schemasCollection s) /\ es_ID row = Schema.ID schema.
Proof.
  intros Hp. unfold GetAllSchemasDetails.
  destruct (gas_Aggregate_err env); [discriminate|]. intros E.
  apply GetAllSchemasDetails_loop_completes in E.
  destruct E as (rows' & -> & F). simpl. intros Hr.
  destruct (Forall2_In_r _ _ _ _ F Hr) as (r0 & H0 & _ & Hc).
  apply (Permutation_in _ (Permutation_sym (Hp _))) in H0.
  unfold schemas_Aggregate in H0.
  apply in_flat_map in H0. destruct H0 as (schema & Hs & H0).
  apply in_flat_map in H0. destruct H0 as (v1 & _ & H0).
  apply in_map_iff in H0. destruct H0 as (a & <- & _).
  exists schema. rewrite Hc. auto.
Qed.

Lemma RemoveSchema_ok_schemas (env : RemoveSchemaEnv)
  (SchemaNames : list string) (stations : list StationDoc) (s : Store)
  (schema x : Schema.t) :
  (forall name, In name SchemaNames ->
     exists a, rs_IsSchemaExist env (ToLower name) = Ok a) ->
  (forall i, rs_UpdateMany_err env i = None) ->
  rs_DeleteMany_versions_err env = None ->
  rs_DeleteMany_schemas_err env = None ->
  found_for env SchemaNames schema ->
  In x (schemasCollection
          (snd (fst (RemoveSchema env SchemaNames stations s)))) ->
  Schema.ID x <> Schema.ID schema.
Proof.
  intros Hok Hu Hv Hs Hf.
  pose proof (RemoveSchema_loop_spec env SchemaNames 0 [] stations) as L.
  cbv zeta in L. unfold RemoveSchema, findAndDeleteSchema, DeleteMany.
  destruct (RemoveSchema_loop env 0 SchemaNames [] stations)
    as [stations' [r|ids]]; simpl in L |- *; destruct L as [F L].
  - exfalso. destruct L as [_ [(n & e & Hn & He)|(j & e & Hj)]].
    + destruct (Hok n Hn) as (a & Ha). rewrite Ha in He. discriminate.
    + rewrite Hu in Hj. discriminate.
  - destruct L as (found & -> & Hi & _). simpl. rewrite Hv, Hs.
    assert (Hin : In (Schema.ID schema) found)
      by (apply Hi; exists schema; auto).
    destruct found as [|id found]; [destruct Hin|].
    simpl. intros Hx. apply filter_In in Hx. destruct Hx as [_ Hx].
    intros E. apply negb_true_iff in Hx. rewrite E in Hx.
    apply in_ids_In in Hin. unfold in_ids in Hin, Hx. simpl in Hin.
    rewrite Hin in Hx. discriminate.
Qed.

(** X25.  A schema that [RemoveSchema] removed is no longer listed: after
    a removal in which no call failed, no row of [GetAllSchemasDetails] has
    the id of a schema found for one of the names. *)
Theorem RemoveSchema_then_GetAllSchemasDetails :
  forall envR SchemaNames stations s envL rows,
    (forall name, In name SchemaNames ->
       exists a, rs_IsSchemaExist envR (ToLower name) = Ok a) ->
    (forall i, rs_UpdateMany_err envR i = None) ->
    rs_DeleteMany_versions_err envR = None ->
    rs_DeleteMany_schemas_err envR = None ->
    (forall l, Permutation l (gas_sort envL l)) ->
    let stations' := fst (fst (RemoveSchema envR SchemaNames stations s)) in
    let s' := snd (fst (RemoveSchema envR SchemaNames stations s)) in
    GetAllSchemasDetails envL stations' s' = Ok rows ->
    forall row schema,
      In row rows ->
      found_for envR SchemaNames schema ->
      es_ID row <> Schema.ID schema.
Proof.
  intros envR SchemaNames stations s envL rows Hok Hu Hv Hs Hp stations' s'
    Hl row schema Hr Hf.
  destruct (GetAllSchemasDetails_row_is_stored envL stations' s' rows row
              Hp Hl Hr) as (x & Hx & ->).
  eapply RemoveSchema_ok_schemas; eassumption.
Qed.

(** ** Process usage: the page shift *)

Lemma init_loop_log2 (fuel : nat) :
  forall pagesize pageshift,
    pagesize < 2 ^ Z.of_nat fuel ->
    0 <= pageshift ->
    pageshift + Z.of_nat fuel <= int_max ->
    init_loop fuel pagesize pageshift
    = Some (pageshift + (if 1 <? pagesize then Z.log2 pagesize else 0)).
Proof.
  induction fuel as [|fuel IH]; intros p k Hp Hk Hm.
  - simpl in *. destruct (1 <? p) eqn:E.
    + apply Z.ltb_lt in E. lia.
    + now rewrite Z.add_0_r.
  - cbn [init_loop]. destruct (1 <? p) eqn:E; [|now rewrite Z.add_0_r].
    apply Z.ltb_lt in E.
    assert (Hs : Z.shiftr p 1 = p / 2)
      by (rewrite Z.shiftr_div_pow2 by lia; reflexivity).
    assert (Hl : Z.log2 (Z.shiftr p 1) = Z.log2 p - 1).
    { rewrite Z.log2_shiftr by lia.
      assert (1 <= Z.log2 p) by (apply Z.log2_le_pow2; simpl; lia). lia. }
    rewrite (int_add_exact k 1)
      by (unfold int_min, int_max in *; lia).
    rewrite IH.
    + f_equal. destruct (1 <? Z.shiftr p 1) eqn:E2.
      * lia.
      * apply Z.ltb_ge in E2. rewrite Hs in E2.
        assert (H1 : p / 2 = 1)
          by (assert (1 <= p / 2) by (apply Z.div_le_lower_bound; lia);
              lia).
        rewrite Hs, H1 in Hl. simpl in Hl. lia.
    + rewrite Hs. apply Z.div_lt_upper_bound; [lia|].
      replace (2 * 2 ^ Z.of_nat fuel) with (2 ^ Z.of_nat (S fuel));
        [exact Hp|].
      rewrite Nat2Z.inj_succ, Z.pow_succ_r by lia. reflexivity.
    + lia.
    + lia.
Qed.

(** X19.  [init] terminates on every page size an [int] can hold, within
    the 64 iterations allowed here, and leaves the page shift [k] with
    [2 ^ k <= pagesize < 2 ^ (k + 1)], the binary logarithm rounded down;
    on a page size of 1 or less it leaves 0.  So [1 << pageshift] is the
    page size exactly when that is a power of two. *)
Theorem init_pageshift_is_log2 :
  forall pagesize,
    pagesize <= int_max ->
    exists k,
      init pagesize = Some k
      /\ 0 <= k < 63
      /\ (pagesize <= 1 -> k = 0)
      /\ (1 <= pagesize -> 2 ^ k <= pagesize < 2 ^ (k + 1))
      /\ (2 ^ k = pagesize <-> exists n, 0 <= n /\ pagesize = 2 ^ n).
Proof.
  intros p Hp. unfold init.
  rewrite init_loop_log2;
    [|unfold int_max in *; simpl; lia|lia|unfold int_max; simpl; lia].
  eexists. split; [reflexivity|]. simpl.
  destruct (1 <? p) eqn:E.
  - apply Z.ltb_lt in E.
    pose proof (Z.log2_spec p ltac:(lia)) as S.
    pose proof (Z.log2_nonneg p) as N.
    assert (L : Z.log2 p < 63).
    { apply Z.log2_lt_pow2; [lia|]. unfold int_max in Hp. lia. }
    replace (Z.succ (Z.log2 p)) with (Z.log2 p + 1) in S by lia.
    repeat split; try lia.
    + intros H. exists (Z.log2 p). split; [lia|now symmetry].
    + intros (n & Hn & ->). now rewrite Z.log2_pow2.
  - apply Z.ltb_ge in E. repeat split; try lia.
    + intros H. exists 0. simpl in *. split; lia.
    + intros (n & Hn & ->). simpl.
      assert (0 < 2 ^ n) by (apply Z.pow_pos_nonneg; lia).
      lia.
Qed.

(** ** Process usage: the reads *)

Lemma byte_val_bounds (b : Byte.byte) : 0 <= byte_val b < 256.
Proof.
  unfold byte_val. pose proof (Byte.to_N_bounded b). lia.
Qed.

Lemma lor_below (n a b : Z) :
  0 <= n -> 0 <= a < 2 ^ n -> 0 <= b < 2 ^ n -> 0 <= Z.lor a b < 2 ^ n.
Proof.
  intros Hn Ha Hb.
  assert (H0 : 0 <= Z.lor a b) by (apply Z.lor_nonneg; lia).
  split; [exact H0|].
  destruct (Z.eq_dec (Z.lor a b) 0) as [->|Hz];
    [apply Z.pow_pos_nonneg; lia|].
  apply Z.log2_lt_pow2; [lia|].
  rewrite Z.log2_lor by lia.
  destruct (Z.eq_dec a 0) as [->|Hna]; destruct (Z.eq_dec b 0) as [->|Hnb];
    simpl.
  - simpl in Hz. contradiction.
  - rewrite Z.max_r by apply Z.log2_nonneg. apply Z.log2_lt_pow2; lia.
  - rewrite Z.max_l by apply Z.log2_nonneg. apply Z.log2_lt_pow2; lia.
  - apply Z.max_lub_lt; apply Z.log2_lt_pow2; lia.
Qed.

Lemma Uint32_bounds (b : list Byte.byte) (z : Z) :
  Uint32 b = Some z -> 0 <= z < 2 ^ 32.
Proof.
  destruct b as [|b0 [|b1 [|b2 [|b3 l]]]]; unfold Uint32;
    try discriminate.
  intros E.
  match type of E with
  | Some ?x = Some _ => assert (Hz : z = x) by congruence
  end.
  rewrite Hz. clear E Hz.
  pose proof (byte_val_bounds b0) as B0.
  pose proof (byte_val_bounds b1) as B1.
  pose proof (byte_val_bounds b2) as B2.
  pose proof (byte_val_bounds b3) as B3.
  rewrite !Z.shiftl_mul_pow2 by lia.
  repeat apply lor_below; lia.
Qed.

Lemma Uint32_at_short (rawdata : list Byte.byte) (off : nat) :
  (length rawdata < off + 4)%nat -> Uint32_at rawdata off = None.
Proof.
  intros H. unfold Uint32_at, slice_from.
  destruct (off <=? length rawdata)%nat eqn:E; [|reflexivity].
  apply Nat.leb_le in E.
  pose proof (length_skipn off rawdata) as L.
  destruct (skipn off rawdata) as [|b0 [|b1 [|b2 [|b3 l]]]];
    simpl in *; try reflexivity. lia.
Qed.

Lemma Uint32_at_long (rawdata : list Byte.byte) (off : nat) :
  (off + 4 <= length rawdata)%nat ->
  exists z, Uint32_at rawdata off = Some z /\ 0 <= z < 2 ^ 32.
Proof.
  intros H. unfold Uint32_at, slice_from.
  destruct (off <=? length rawdata)%nat eqn:E;
    [|apply Nat.leb_gt in E; lia].
  pose proof (length_skipn off rawdata) as L.
  destruct (Uint32 (skipn off rawdata)) as [z|] eqn:U.
  - exists z. split; [reflexivity|]. eapply Uint32_bounds. exact U.
  - exfalso.
    destruct (skipn off rawdata) as [|b0 [|b1 [|b2 [|b3 l]]]];
      simpl in *; try lia. discriminate.
Qed.

(** X20.  [ProcUsage] hands back the error of the sysctl and leaves what
    its pointers point to as it was.  On an answer shorter than 312 bytes it
    panics.  On a longer one it returns [nil]; the sizes it reports are
    below [2 ^ 32], and the resident size is the page count times
    [2 ^ pageshift] only as long as that product is below [2 ^ 32]: above,
    what is reported is the product modulo [2 ^ 32]. *)
Theorem ProcUsage_reports_sizes_modulo_2_32 :
  forall pageshift rawdata old,
    0 <= pageshift ->
    (forall e, ProcUsage pageshift (Err e) old = Returns (Some e) old)
    /\ ((length rawdata < 312)%nat ->
        ProcUsage pageshift (Ok rawdata) old = Panics)
    /\ ((312 <= length rawdata)%nat ->
        exists r_vss_bytes r_rss_pages r_pcpu,
          Uint32_at rawdata KIP_OFF_size = Some r_vss_bytes
          /\ Uint32_at rawdata KIP_OFF_rssize = Some r_rss_pages
          /\ Uint32_at rawdata KIP_OFF_pctcpu = Some r_pcpu
          /\ ProcUsage pageshift (Ok rawdata) old
             = Returns None
                 (mkUsage r_pcpu ((r_rss_pages * 2 ^ pageshift) mod 2 ^ 32)
                    r_vss_bytes)
          /\ 0 <= r_vss_bytes < 2 ^ 32
          /\ 0 <= r_pcpu < 2 ^ 32
          /\ ((r_rss_pages * 2 ^ pageshift) mod 2 ^ 32
              = r_rss_pages * 2 ^ pageshift
              <-> r_rss_pages * 2 ^ pageshift < 2 ^ 32)).
Proof.
  intros pageshift rawdata old Hs.
  assert (Hn : (pageshift <? 0) = false) by (apply Z.ltb_ge; exact Hs).
  split; [reflexivity|]. split.
  - intros H. unfold ProcUsage.
    destruct (Uint32_at rawdata KIP_OFF_size); [|reflexivity].
    destruct (Uint32_at rawdata KIP_OFF_rssize); [|reflexivity].
    rewrite Hn.
    now rewrite (Uint32_at_short rawdata KIP_OFF_pctcpu)
      by (unfold KIP_OFF_pctcpu; lia).
  - intros H.
    destruct (Uint32_at_long rawdata KIP_OFF_size) as (v & Ev & Bv);
      [unfold KIP_OFF_size; lia|].
    destruct (Uint32_at_long rawdata KIP_OFF_rssize) as (p & Ep & Bp);
      [unfold KIP_OFF_rssize; lia|].
    destruct (Uint32_at_long rawdata KIP_OFF_pctcpu) as (c & Ec & Bc);
      [unfold KIP_OFF_pctcpu; lia|].
    exists v, p, c. unfold ProcUsage. rewrite Ev, Ep, Ec, Hn.
    unfold uint32. rewrite Z.shiftl_mul_pow2 by lia.
    repeat split; auto; try lia.
    + intros E. rewrite <- E. apply Z.mod_pos_bound. lia.
    + intros L. apply Z.mod_small. split; [|exact L].
      apply Z.mul_nonneg_nonneg; [lia|]. apply Z.pow_nonneg. lia.
Qed.

(** ** The ticker: the name read back from a room *)

Lemma prefix_app (a s : string) : String.prefix a (a ++ s) = true.
Proof.
  induction a as [|c a IH]; simpl; [now destruct s|].
  destruct (ascii_dec c c); [exact IH|contradiction].
Qed.

Lemma prefix_split (a s : string) :
  String.prefix a s = true -> exists t, s = (a ++ t)%string.
Proof.
  revert s. induction a as [|c a IH]; intros s H; [now exists s|].
  destruct s as [|d s]; simpl in H; [discriminate|].
  destruct (ascii_dec c d) as [->|]; [|discriminate].
  destruct (IH s H) as (t & ->). now exists t.
Qed.

Lemma Split_fields_skip (sep a s : string) :
  Split_fields sep (String.length a) (a ++ s) = Split_fields sep 0 s.
Proof. induction a as [|c a IH]; simpl; [reflexivity|exact IH]. Qed.

Lemma Split_fields_no_sep (sep s : string) :
  strings_Contains s sep = false -> Split_fields sep 0 s = (s, []).
Proof.
  induction s as [|c s IH]; intros H; [reflexivity|].
  cbn [strings_Contains] in H. apply orb_false_iff in H.
  destruct H as [H1 H2]. cbn [Split_fields]. rewrite H1.
  now rewrite (IH H2).
Qed.

(** The field after a leading separator is the first field of the rest. *)
Lemma Split_after_prefix (sep name : string) :
  sep <> "" ->
  nth_error (strings_Split (sep ++ name) sep) 1
  = Some (fst (Split_fields sep 0 name)).
Proof.
  intros Hs. destruct sep as [|c sep]; [contradiction|].
  unfold strings_Split.
  change ((String c sep ++ name)%string) with (String c (sep ++ name)).
  cbn [Split_fields].
  change (String c (sep ++ name)) with ((String c sep ++ name)%string).
  rewrite prefix_app.
  replace (String.length (String c sep) - 1)%nat with (String.length sep)
    by (simpl; lia).
  rewrite Split_fields_skip.
  now destruct (Split_fields (String c sep) 0 name).
Qed.

(** X21.  A tick refreshes the room a registration joined with the
    snapshot of the station registered: for a station name in which
    "station_overview_group_" does not occur, the room of the name, when it
    has members, gets the snapshot [getStationOverviewData] makes for that
    name, the one a registration emits, or an error is logged; when it has
    no member nothing is read, logged or broadcast. *)
Theorem tick_room_refreshes_the_station_registered :
  forall (ExtendedConsumer AuditLog FactoryDetails : Type)
         (env : TickEnv ExtendedConsumer AuditLog FactoryDetails)
         (stationName : string),
    let room := ("station_overview_group_" ++ stationName)%string in
    strings_Contains stationName "station_overview_group_" = false ->
    (0 < tk_RoomLen env room ->
     tick_room env room
     = Some
         match getStationOverviewData (tk_overview env) stationName with
         | (_, Some e) =>
             [logger_Error
                ("Error while trying to get station overview data - " ++ e)]
         | (data, None) =>
             [BroadcastToRoom_station room "station_overview_data" data]
         end)
    /\ (forall data,
          0 < tk_RoomLen env room ->
          In (Emit "station_overview_data" data)
             (fst (register_station_overview_data (tk_overview env)
                     stationName)) ->
          In (Join room)
             (fst (register_station_overview_data (tk_overview env)
                     stationName))
          /\ tick_room env room
             = Some [BroadcastToRoom_station room "station_overview_data"
                       data])
    /\ (tk_RoomLen env room <= 0 -> tick_room env room = Some []).
Proof.
  intros EC AL FD env stationName room Hc.
  assert (Hn : nth_error (strings_Split room "station_overview_group_") 1
               = Some stationName).
  { unfold room. rewrite Split_after_prefix by discriminate.
    now rewrite (Split_fields_no_sep _ _ Hc). }
  assert (Hp : strings_HasPrefix room "station_overview_group_" = true)
    by (unfold room, strings_HasPrefix; apply prefix_app).
  assert (Hf : strings_HasPrefix room "factory_overview_group_" = false)
    by reflexivity.
  assert (Ht : 0 < tk_RoomLen env room ->
               tick_room env room
               = Some
                   match getStationOverviewData (tk_overview env)
                           stationName with
                   | (_, Some e) =>
                       [logger_Error
                          ("Error while trying to get station overview data - "
                           ++ e)]
                   | (data, None) =>
                       [BroadcastToRoom_station room "station_overview_data"
                          data]
                   end).
  { intros Hl. apply Z.ltb_lt in Hl. unfold tick_room.
    rewrite Hp, Hf, Hl, Hn. simpl.
    now destruct (getStationOverviewData (tk_overview env) stationName)
      as [data [e|]]. }
  split; [exact Ht|]. split.
  - intros data Hl. rewrite (Ht Hl). unfold register_station_overview_data.
    destruct (getStationOverviewData (tk_overview env) stationName)
      as [d [e|]]; simpl.
    + intros [H|[H|[]]]; discriminate H.
    + intros [H|[H|[H|[]]]]; try discriminate H.
      injection H as ->. split; [|reflexivity]. right. right. now left.
  - intros Hl. apply Z.ltb_ge in Hl. unfold tick_room.
    rewrite Hp, Hf, Hl. reflexivity.
Qed.

(** X22.  The indexing of the fields of a room's name never panics: on
    every room the loop of the ticker goes on.  A room without members, or
    one that is neither a station's nor a factory's, is passed over. *)
Theorem tick_room_never_panics :
  forall (ExtendedConsumer AuditLog FactoryDetails : Type)
         (env : TickEnv ExtendedConsumer AuditLog FactoryDetails)
         (room : string),
    (exists actions, tick_room env room = Some actions
                     /\ (length actions <= 2)%nat)
    /\ (tk_RoomLen env room <= 0
        \/ strings_HasPrefix room "station_overview_group_" = false
           /\ strings_HasPrefix room "factory_overview_group_" = false ->
        tick_room env room = Some []).
Proof.
  intros EC AL FD env room. split.
  - assert (Hs : strings_HasPrefix room "station_overview_group_" = true ->
                 exists x,
                   nth_error (strings_Split room "station_overview_group_") 1
                   = Some x).
    { intros H. apply prefix_split in H. destruct H as (t & ->).
      rewrite Split_after_prefix by discriminate. eauto. }
    assert (Hf : strings_HasPrefix room "factory_overview_group_" = true ->
                 exists x,
                   nth_error (strings_Split room "factory_overview_group_") 1
                   = Some x).
    { intros H. apply prefix_split in H. destruct H as (t & ->).
      rewrite Split_after_prefix by discriminate. eauto. }
    unfold tick_room.
    destruct (strings_HasPrefix room "station_overview_group_");
      [destruct (Hs eq_refl) as (x & ->)|];
      (destruct (strings_HasPrefix room "factory_overview_group_");
       [destruct (Hf eq_refl) as (y & ->)|]);
      destruct (0 <? tk_RoomLen env room); cbn [andb].
    all: repeat match goal with
           | |- context [getStationOverviewData ?e ?n] =>
               destruct (getStationOverviewData e n) as [? [?|]]
           | |- context [getFactoryOverviewData ?e ?n] =>
               destruct (getFactoryOverviewData e n) as [? [?|]]
           end.
    all: eexists; split; [reflexivity|simpl; lia].
  - intros [Hl|[Hs Hf]]; unfold tick_room.
    + apply Z.ltb_ge in Hl. rewrite Hl, !andb_false_r. reflexivity.
    + rewrite Hs, Hf. reflexivity.
Qed.

End Memphis.

(** * Sample runs *)

(** ** Insertion sort meets what is asked of the two sorts *)

Lemma insert_by_Permutation {A : Type} (less : A -> A -> bool) (x : A)
  (l : list A) :
  Permutation (x :: l) (insert_by less x l).
Proof.
  induction l as [|h t IH]; simpl; [reflexivity|].
  destruct (less h x); [|reflexivity].
  etransitivity; [apply perm_swap|]. now constructor.
Qed.

Lemma insertion_sort_Permutation {A : Type} (less : A -> A -> bool)
  (l : list A) :
  Permutation l (insertion_sort less l).
Proof.
  induction l as [|h t IH]; simpl; [constructor|].
  etransitivity; [|apply insert_by_Permutation]. now constructor.
Qed.

Lemma insert_by_HdRel {A : Type} (less : A -> A -> bool) (h x : A)
  (t : list A) :
  less x h = false ->
  HdRel (fun a b => less b a = false) h t ->
  HdRel (fun a b => less b a = false) h (insert_by less x t).
Proof.
  intros Hx Ht. destruct t as [|a t]; simpl; [now constructor|].
  destruct (less a x); constructor; [|exact Hx].
  now inversion Ht.
Qed.

Lemma insert_by_Sorted {A : Type} (less : A -> A -> bool) (x : A)
  (l : list A) :
  (forall a b, less a b = true -> less b a = false) ->
  Sorted (fun a b => less b a = false) l ->
  Sorted (fun a b => less b a = false) (insert_by less x l).
Proof.
  intros Asym. induction l as [|h t IH]; simpl; intros S.
  - constructor; constructor.
  - destruct (less h x) eqn:L.
    + apply Sorted_inv in S. destruct S as [St Hd].
      constructor; [now apply IH|].
      apply insert_by_HdRel; [now apply Asym|exact Hd].
    + constructor; [exact S|]. now constructor.
Qed.

Lemma insertion_sort_Sorted {A : Type} (less : A -> A -> bool) (l : list A) :
  (forall a b, less a b = true -> less b a = false) ->
  Sorted (fun a b => less b a = false) (insertion_sort less l).
Proof.
  intros Asym. induction l as [|h t IH]; simpl; [constructor|].
  now apply insert_by_Sorted.
Qed.

Lemma insertion_sort_sort_Slice_spec :
  sort_Slice_spec (@insertion_sort ExtendedProducer.t).
Proof.
  intros less l Asym. split.
  - apply insertion_sort_Permutation.
  - now apply insertion_sort_Sorted.
Qed.

Lemma insertion_sort_sort_stage_spec :
  sort_stage_spec (insertion_sort newer_row_first).
Proof.
  intros l. split; [apply insertion_sort_Permutation|].
  eapply Sorted_weaken; [|apply insertion_sort_Sorted].
  - intros a b H. unfold newer_row_first, Before in H. unfold date_desc.
    now apply Z.ltb_ge in H.
  - intros a b H. unfold newer_row_first, Before in *.
    apply Z.ltb_lt in H. apply Z.ltb_ge. lia.
Qed.


(** ** Producers *)

(** C9 is not what the code does: a name with an uppercase letter is
    accepted, and the producer is stored under the lowercased name. *)
Lemma createProducerDirect_accepts_uppercase_name :
  hasUpper "Orders_1" = true
  /\ createProducerDirect sample_unicode_ToLower (sample_create_env 11%N 100)
       (mkCreateProducerRequest "Orders_1" "orders" "000000000000000000000007"
                   "application")
       empty_world
     = (mkWorld
          (set_producers [sample_row 11%N "orders_1" 7%N true 100 false]
             empty_store)
          [producers_InsertOne (sample_row 11%N "orders_1" 7%N true 100 false)],
        inr tt).
Proof. split; reflexivity. Qed.

Lemma createProducerDirect_name_witness :
  let create name :=
    createProducerDirect sample_unicode_ToLower (sample_create_env 11%N 100)
      (mkCreateProducerRequest name "orders" "000000000000000000000007"
         "application") empty_world in
  create "" = (empty_world, inl "Producer name can not be empty")
  /\ create "abcdefghijklmnopqrstuvwxyz0123456"
     = (empty_world, inl "Producer name should be under 32 characters")
  /\ (snd (create "Orders_1") = inr tt
      /\ exists row,
          producers_of (fst (create "Orders_1")) = [row]
          /\ Producer.Name row = "orders_1")
  /\ validateProducerName "Orders_1" <> None.
Proof.
  intros create. split; [|split; [|split]].
  - destruct (createProducerDirect_validates_lowercased_name
                sample_unicode_ToLower (sample_create_env 11%N 100)
                (mkCreateProducerRequest "" "orders" "000000000000000000000007"
                   "application")
                empty_world eq_refl) as (H & _).
    exact (H eq_refl).
  - destruct (createProducerDirect_validates_lowercased_name
                sample_unicode_ToLower (sample_create_env 11%N 100)
                (mkCreateProducerRequest "abcdefghijklmnopqrstuvwxyz0123456"
                   "orders" "000000000000000000000007"
                   "application")
                empty_world eq_refl) as (_ & H & _).
    exact (H eq_refl).
  - destruct (createProducerDirect_validates_lowercased_name
                sample_unicode_ToLower (sample_create_env 11%N 100)
                (mkCreateProducerRequest "Orders_1" "orders"
                   "000000000000000000000007" "application")
                empty_world eq_refl) as (_ & _ & _ & H & _).
    destruct (H 7%N sample_connection sample_station
                (Producer.mk 0%N "" 0%N 0%N "" 0%N "" false 0 false)
                eq_refl eq_refl eq_refl eq_refl eq_refl
                (or_introl eq_refl) eq_refl eq_refl)
      as (Hr & row & Hrow & Hn & _).
    split; [exact Hr|]. exists row. split; [exact Hrow|exact Hn].
  - destruct (createProducerDirect_validates_lowercased_name
                sample_unicode_ToLower (sample_create_env 11%N 100)
                (mkCreateProducerRequest "Orders_1" "orders"
                   "000000000000000000000007" "application")
                empty_world eq_refl) as (_ & _ & _ & _ & H).
    exact (H eq_refl).
Defined.

Lemma destroyProducerDirect_witness :
  let w := with_producers [sample_row 11%N "orders_1" 7%N true 100 false] in
  let dpr := mkDestroyProducerRequest "Orders" "Orders_1" in
  let w1 := fst (destroyProducerDirect sample_unicode_ToLower
                   sample_destroy_env dpr w) in
  snd (destroyProducerDirect sample_unicode_ToLower sample_destroy_env dpr w)
  = inr tt
  /\ snd (destroyProducerDirect sample_unicode_ToLower sample_destroy_env dpr
            w1)
     = inl "Producer does not exist"
  /\ store (fst (destroyProducerDirect sample_unicode_ToLower
                   sample_destroy_env dpr w1))
     = store w1.
Proof.
  intros w dpr w1.
  destruct (destroyProducerDirect_unique_then_not_found
              sample_unicode_ToLower sample_destroy_env dpr w true
              sample_station eq_refl eq_refl) as [_ H].
  destruct (H (sample_row 11%N "orders_1" 7%N true 100 false) eq_refl)
    as (H1 & _ & H2 & H3).
  split; [exact H1|]. split; [exact H2|exact H3].
Defined.

(** With two active rows of one name on the station (two creations that
    raced past the uniqueness check), one destroy is not enough: the second
    one succeeds as well. *)
Lemma destroyProducerDirect_twice_on_duplicate_rows :
  let w := with_producers [sample_row 11%N "orders_1" 7%N true 100 false;
                           sample_row 12%N "orders_1" 8%N true 101 false] in
  let dpr := mkDestroyProducerRequest "orders" "orders_1" in
  let w1 := fst (destroyProducerDirect sample_unicode_ToLower
                   sample_destroy_env dpr w) in
  snd (destroyProducerDirect sample_unicode_ToLower sample_destroy_env dpr w)
  = inr tt
  /\ snd (destroyProducerDirect sample_unicode_ToLower sample_destroy_env dpr
            w1)
     = inr tt.
Proof. split; reflexivity. Qed.

Lemma KillProducers_then_ReliveProducers_witness :
  let w := with_producers [sample_row 11%N "a" 7%N true 100 false;
                           sample_row 12%N "b" 7%N false 101 true;
                           sample_row 13%N "c" 8%N false 102 false] in
  let w1 := fst (KillProducers (mkKillProducersEnv None None) 7%N w) in
  let w2 := fst (ReliveProducers (mkReliveProducersEnv None) 7%N w1) in
  producers_of w1 = [sample_row 11%N "a" 7%N false 100 false;
                     sample_row 12%N "b" 7%N false 101 true;
                     sample_row 13%N "c" 8%N false 102 false]
  /\ producers_of w2 = [sample_row 11%N "a" 7%N true 100 false;
                        sample_row 12%N "b" 7%N false 101 true;
                        sample_row 13%N "c" 8%N false 102 false].
Proof.
  intros w w1 w2. split; [reflexivity|].
  destruct (KillProducers_then_ReliveProducers
              (mkKillProducersEnv None None) (mkReliveProducersEnv None)
              7%N w eq_refl eq_refl eq_refl) as (_ & _ & H & _).
  exact H.
Defined.

(** ** Schemas *)

Lemma CreateNewSchema_witness :
  let run :=
    gin (CreateNewSchema sample_SHOWABLE sample_validateName
           sample_ParseFiles sample_unicode_ToLower sample_cns_env
           (sample_cns_body "Order")) in
  CreateNewSchema_valid sample_validateName sample_ParseFiles
    sample_unicode_ToLower (sample_cns_body "Order")
  /\ (exists v,
         versions_of (fst (run empty_world)) = [v]
         /\ SchemaVersion.VersionNumber v = 1
         /\ SchemaVersion.Active v = true)
  /\ snd (run (with_schema []))
     = abort sample_SHOWABLE "Schema with that name already exists"
  /\ versions_of (fst (run (with_schema []))) = [].
Proof.
  intros run.
  assert (V : CreateNewSchema_valid sample_validateName sample_ParseFiles
                sample_unicode_ToLower (sample_cns_body "Order"))
    by (repeat split; reflexivity).
  split; [exact V|]. split.
  - destruct (CreateNewSchema_upsert_matched_or_inserted sample_SHOWABLE
                sample_validateName sample_ParseFiles sample_unicode_ToLower
                sample_cns_env (sample_cns_body "Order") empty_world V)
      as (_ & Inserted & Made).
    destruct (Made Schema.zero (User.mk "root") eq_refl eq_refl eq_refl)
      as (s & res & Hin & _ & Hm).
    destruct (Z.eq_dec (Mongo.MatchedCount res) 0) as [E|N].
    + destruct (Inserted s res Hin E eq_refl) as (_ & v & Hv & H1 & H2 & _).
      exists v. split; [exact Hv|]. split; assumption.
    + apply Hm in N. destruct N as (d & [] & _).
  - destruct (CreateNewSchema_upsert_matched_or_inserted sample_SHOWABLE
                sample_validateName sample_ParseFiles sample_unicode_ToLower
                sample_cns_env (sample_cns_body "Order") (with_schema []) V)
      as (Matched & _ & Made).
    destruct (Made Schema.zero (User.mk "root") eq_refl eq_refl eq_refl)
      as (s & res & Hin & _ & Hm).
    assert (M : Mongo.MatchedCount res <> 0).
    { apply Hm. exists sample_schema. split; [left|]; reflexivity. }
    destruct (Matched s res Hin M) as (Hr & Hv & _).
    split; [exact Hr|exact Hv].
Defined.

(** When the driver fails the version insert, the schema row stays, with no
    version. *)
Lemma CreateNewSchema_version_insert_fails :
  let env :=
    mkCreateNewSchemaEnv (fun _ => Ok (false, Schema.zero))
      (Ok (User.mk "root")) 5%N 6%N 100 None (Some "context canceled")
      (fun _ _ _ => None) in
  gin (CreateNewSchema sample_SHOWABLE sample_validateName sample_ParseFiles
         sample_unicode_ToLower env (sample_cns_body "Order")) empty_world
  = (mkWorld (set_schemas [sample_schema] empty_store)
       [schemas_UpdateOne_upsert sample_schema (Mongo.mkUpdateResult 0 0 1)],
     abort 500 "Server error").
Proof. reflexivity. Qed.

Lemma CreateNewVersion_witness :
  let run :=
    gin (CreateNewVersion sample_SHOWABLE sample_ParseFiles
           sample_unicode_ToLower sample_cnv_env sample_cnv_body) in
  let w := with_schema [sample_version 6%N 1 true] in
  let gap := with_schema [sample_version 7%N 2 false] in
  versions_of (fst (run w))
  = [sample_version 6%N 1 true;
     SchemaVersion.mk 9%N 2 false "root" 200 sample_proto 5%N "Order"]
  /\ snd (run gap) = abort sample_SHOWABLE "Version already exists"
  /\ store (fst (run gap)) = store gap.
Proof.
  intros run w gap.
  assert (V : CreateNewVersion_valid sample_ParseFiles sample_schema
                sample_cnv_body) by (split; reflexivity).
  split.
  - destruct (CreateNewVersion_count_plus_one_set_on_insert sample_SHOWABLE
                sample_ParseFiles sample_unicode_ToLower sample_cnv_env
                sample_cnv_body w sample_schema eq_refl V eq_refl)
      as (Made & Is).
    destruct (Is (User.mk "root") eq_refl eq_refl eq_refl) as (res & Hin).
    destruct (Made _ res Hin) as (_ & _ & _ & _ & Hm & _ & Hi).
    destruct (Z.eq_dec (Mongo.MatchedCount res) 0) as [E|N].
    + exact (Hi E).
    + apply Hm in N. destruct N as (d & [<-|[]] & Hd). discriminate Hd.
  - destruct (CreateNewVersion_count_plus_one_set_on_insert sample_SHOWABLE
                sample_ParseFiles sample_unicode_ToLower sample_cnv_env
                sample_cnv_body gap sample_schema eq_refl V eq_refl)
      as (Made & Is).
    destruct (Is (User.mk "root") eq_refl eq_refl eq_refl) as (res & Hin).
    destruct (Made _ res Hin) as (_ & _ & _ & _ & Hm & Hx & _).
    apply Hx. apply Hm. exists (sample_version 7%N 2 false).
    split; [left|]; reflexivity.
Defined.

Lemma RollBackVersion_witness :
  let w := with_schema [sample_version 6%N 1 true;
                        sample_version 7%N 2 false] in
  let one := with_schema [sample_version 6%N 1 true] in
  let run v :=
    gin (RollBackVersion sample_SHOWABLE sample_unicode_ToLower
           sample_rbv_env (mkRollBackVersionBody "Orders" v)) in
  (exists t,
      only_active 5%N t (versions_of (fst (run 2 w)))
      /\ SchemaVersion.VersionNumber t = 2)
  /\ fst (run 1 one) = one
  /\ status (snd (run 1 one)) = 200.
Proof.
  intros w one run.
  assert (In2 : exists d, In d (versions_of w)
                          /\ version_key (Schema.ID sample_schema) 2 d = true)
    by (exists (sample_version 7%N 2 false);
        split; [right; left|]; reflexivity).
  assert (In1 : exists d, In d (versions_of one)
                          /\ version_key (Schema.ID sample_schema) 1 d = true)
    by (exists (sample_version 6%N 1 true); split; [left|]; reflexivity).
  destruct (RollBackVersion_target_only_active sample_SHOWABLE
              sample_unicode_ToLower sample_rbv_env
              (mkRollBackVersionBody "Orders" 2) w) as (_ & _ & H2).
  destruct (H2 sample_schema (sample_version 0%N 2 false)
              (ExtendedSchemaDetails.mk 5%N "orders" "protobuf" [] [] [])
              eq_refl eq_refl In2 eq_refl eq_refl eq_refl eq_refl)
    as (_ & Two & _).
  destruct (RollBackVersion_target_only_active sample_SHOWABLE
              sample_unicode_ToLower sample_rbv_env
              (mkRollBackVersionBody "Orders" 1) one) as (_ & _ & H1).
  destruct (H1 sample_schema (sample_version 0%N 1 false)
              (ExtendedSchemaDetails.mk 5%N "orders" "protobuf" [] [] [])
              eq_refl eq_refl In1 eq_refl eq_refl eq_refl eq_refl)
    as (Hr & _ & One).
  split; [|split].
  - destruct Two as ((t & Ht & _ & Hn) & _).
    + unfold versions_count, Mongo.CountDocuments. simpl. lia.
    + exists t. split; assumption.
  - exact (One eq_refl).
  - change (status (snd (gin (RollBackVersion sample_SHOWABLE
              sample_unicode_ToLower sample_rbv_env
              (mkRollBackVersionBody "Orders" 1)) one)) = 200).
    rewrite Hr. reflexivity.
Defined.

(** C8 is not what the code does: a protobuf request with no message struct
    name, which [CreateNewSchema] rejects for that, is valid for
    [ValidateSchema]. *)
Lemma ValidateSchema_skips_message_struct_name :
  snd (gin (CreateNewSchema sample_SHOWABLE sample_validateName
              sample_ParseFiles sample_unicode_ToLower sample_cns_env
              (sample_cns_body ""))
         empty_world)
  = abort sample_SHOWABLE
      "Message struct name is required when schema type is Protobuf"
  /\ gin (ValidateSchema sample_SHOWABLE sample_ParseFiles
            sample_unicode_ToLower
            (mkValidateSchemaBody "Protobuf" sample_proto))
       empty_world
     = (empty_world, mkResponse 200 (H_is_valid true)).
Proof. split; reflexivity. Qed.

Lemma ValidateSchema_witness :
  snd (gin (ValidateSchema sample_SHOWABLE sample_ParseFiles
              sample_unicode_ToLower (mkValidateSchemaBody "Avro" "{}"))
         empty_world)
  = abort sample_SHOWABLE "Json/Avro types are not supported at this time"
  /\ gin (CreateNewSchema sample_SHOWABLE sample_validateName
            sample_ParseFiles sample_unicode_ToLower sample_cns_env
            (mkCreateNewSchemaBody "Orders" "Avro" "{}" "Order" []))
       empty_world
     = (empty_world,
        abort sample_SHOWABLE "Json/Avro types are not supported at this time").
Proof.
  destruct (ValidateSchema_type_and_content_rules sample_SHOWABLE
              sample_validateName sample_ParseFiles sample_unicode_ToLower
              (mkValidateSchemaBody "Avro" "{}") empty_world)
    as (_ & Hr & Same).
  split; [exact Hr|].
  rewrite (Same sample_cns_env
             (mkCreateNewSchemaBody "Orders" "Avro" "{}" "Order" [])
             Schema.zero (User.mk "root")
             eq_refl eq_refl eq_refl eq_refl eq_refl eq_refl).
  - reflexivity.
  - discriminate.
Defined.

(** ** The station overview *)

Lemma GetProducersByStation_witness :
  let run :=
    GetProducersByStation (insertion_sort newer_row_first)
      (@insertion_sort ExtendedProducer.t) None sample_station
      sample_overview_store in
  run
  = ([ExtendedProducer.mk 13%N "p" "application" 8%N "root" 200 true false
        "orders" "shop" ""],
     [ExtendedProducer.mk 12%N "q" "application" 7%N "root" 150 false false
        "orders" "shop" "10.0.0.1:4222"],
     [], None)
  /\ forall e,
       In e (fst (fst (fst run)) ++ snd (fst (fst run)) ++ snd (fst run)) ->
       exists p,
         newest_of_its_name (rows_of sample_station sample_overview_store) p
         /\ e = lookup_project sample_overview_store p.
Proof.
  intros run. split; [reflexivity|].
  assert (Live : Forall liveness_ok
                   (rows_of sample_station sample_overview_store)).
  { repeat constructor; intros H; first [reflexivity|discriminate H]. }
  destruct (GetProducersByStation_newest_row_per_name
              (insertion_sort newer_row_first)
              (@insertion_sort ExtendedProducer.t)
              insertion_sort_sort_stage_spec insertion_sort_sort_Slice_spec
              sample_station sample_overview_store
              (fst (fst (fst run))) (snd (fst (fst run))) (snd (fst run))
              (snd run) Live eq_refl)
    as (_ & _ & _ & H & _).
  intros e He. destruct (H e He) as (Hp & _). exact Hp.
Defined.

(** C10 is not what the code does: after a failed read the subscriber is
    sent [nil] slices, where a station with nothing to show sends the empty
    slices its reads returned. *)
Lemma getStationOverviewData_zero_is_not_empty_station :
  getStationOverviewData sample_unicode_ToLower sample_overview_env "Orders"
  = (stationOverviewData_zero, None)
  /\ getStationOverviewData sample_unicode_ToLower sample_empty_overview_env
       "Orders"
     = (mkStationOverviewData (NonNil []) (NonNil []) 0 0 (NonNil []), None)
  /\ getStationOverviewData sample_unicode_ToLower sample_empty_overview_env
       "Orders"
     <> getStationOverviewData sample_unicode_ToLower sample_overview_env
          "Orders".
Proof.
  split; [reflexivity|]. split; [reflexivity|]. discriminate.
Qed.

Lemma getStationOverviewData_witness :
  getStationOverviewData sample_unicode_ToLower sample_overview_env "Orders"
  = (stationOverviewData_zero, None)
  /\ fst (register_station_overview_data sample_unicode_ToLower
            sample_overview_env "Orders")
     = [LeaveAll;
        Emit "station_overview_data" stationOverviewData_zero;
        Join "station_overview_group_Orders"].
Proof.
  destruct (getStationOverviewData_read_errors_give_zero_snapshot
              sample_unicode_ToLower unit unit sample_overview_env "Orders")
    as (H & _).
  apply (H sample_station eq_refl).
  right. left. exists "context deadline exceeded". reflexivity.
Defined.

(** ** Scenarios *)

Example ToLower_sample :
  ToLower sample_unicode_ToLower "Orders_1" = "orders_1".
Proof. reflexivity. Qed.

Example validateProducerName_samples :
  validateProducerName "orders_1" = None
  /\ validateProducerName "abcdefghijklmnopqrstuvwxyz012345" = None
  /\ validateProducerName "order-1"
     = Some "Producer name has to include only letters and _".
Proof. repeat split; reflexivity. Qed.

Example validateSchemaType_samples :
  validateSchemaType "protobuf" = None
  /\ validateSchemaType "avro"
     = Some "Json/Avro types are not supported at this time"
  /\ validateSchemaType "bogus" = Some "unsupported schema type".
Proof. repeat split; reflexivity. Qed.

(** A schema is created, gets a second version, is rolled back to it and
    then to the first: the version numbers and active flags after each
    step. *)
Example schema_version_lifecycle :
  let flags w :=
    map (fun v => (SchemaVersion.VersionNumber v, SchemaVersion.Active v))
        (versions_of w) in
  let rollback n :=
    gin (RollBackVersion sample_SHOWABLE sample_unicode_ToLower sample_rbv_env
           (mkRollBackVersionBody "Orders" n)) in
  let w1 :=
    fst (gin (CreateNewSchema sample_SHOWABLE sample_validateName
                sample_ParseFiles sample_unicode_ToLower sample_cns_env
                (sample_cns_body "Order")) empty_world) in
  let w2 :=
    fst (gin (CreateNewVersion sample_SHOWABLE sample_ParseFiles
                sample_unicode_ToLower sample_cnv_env sample_cnv_body) w1) in
  let w3 := fst (rollback 2 w2) in
  let w4 := fst (rollback 1 w3) in
  flags w1 = [(1, true)]
  /\ flags w2 = [(1, true); (2, false)]
  /\ flags w3 = [(1, false); (2, true)]
  /\ flags w4 = [(1, true); (2, false)].
Proof. repeat split; reflexivity. Qed.

(** A producer is created, its connection is lost and comes back, and the
    producer is destroyed: connected, disconnected, connected, deleted. *)
Example producer_lifecycle :
  let flags w :=
    map (fun p => (Producer.IsActive p, Producer.IsDeleted p))
        (producers_of w) in
  let ops :=
    [OpCreate (sample_create_env 11%N 100)
       (mkCreateProducerRequest "p1" "orders" "000000000000000000000007"
          "application");
     OpKill (mkKillProducersEnv None None) 7%N;
     OpRelive (mkReliveProducersEnv None) 7%N;
     OpDestroy sample_destroy_env (mkDestroyProducerRequest "orders" "p1")] in
  flags (run_ops sample_unicode_ToLower (firstn 1 ops) empty_world)
  = [(true, false)]
  /\ flags (run_ops sample_unicode_ToLower (firstn 2 ops) empty_world)
     = [(false, false)]
  /\ flags (run_ops sample_unicode_ToLower (firstn 3 ops) empty_world)
     = [(true, false)]
  /\ flags (run_ops sample_unicode_ToLower ops empty_world)
     = [(false, true)].
Proof. repeat split; reflexivity. Qed.

(** ** Producers: more runs *)

Lemma producer_rows_are_well_named_witness :
  let p := sample_row 11%N "orders_1" 7%N true 100 false in
  (1 <= String.length (Producer.Name p) <= 32)%nat
  /\ re_MatchString (Producer.Name p) = true
  /\ hasUpper (Producer.Name p) = false
  /\ (Producer.Type_ p = "application" \/ Producer.Type_ p = "connector").
Proof.
  apply (producer_rows_are_well_named sample_unicode_ToLower
           [OpCreate (sample_create_env 11%N 100)
              (mkCreateProducerRequest "Orders_1" "orders"
                 "000000000000000000000007" "application")]
           (sample_row 11%N "orders_1" 7%N true 100 false)).
  left. reflexivity.
Defined.

Lemma producer_row_is_kept_and_deleted_is_final_witness :
  let w := with_producers [sample_row 11%N "a" 7%N false 100 true] in
  exists q,
    nth_error
      (producers_of
         (run_ops sample_unicode_ToLower
            [OpRelive (mkReliveProducersEnv None) 7%N;
             OpCreate (sample_create_env 12%N 200)
               (mkCreateProducerRequest "a" "orders"
                  "000000000000000000000007" "application")]
            w)) 0
    = Some q
    /\ Producer.IsDeleted q = true
    /\ Producer.IsActive q = false.
Proof.
  intros w.
  destruct (producer_row_is_kept_and_deleted_is_final sample_unicode_ToLower
              [OpRelive (mkReliveProducersEnv None) 7%N;
               OpCreate (sample_create_env 12%N 200)
                 (mkCreateProducerRequest "a" "orders"
                    "000000000000000000000007" "application")]
              w 0%nat (sample_row 11%N "a" 7%N false 100 true) eq_refl)
    as (q & Hq & _ & Hd).
  exists q. split; [exact Hq|].
  destruct (Hd eq_refl) as [H1 H2]. split; [exact H1|exact (H2 eq_refl)].
Defined.

Lemma destroyProducerDirect_after_KillProducers_witness :
  let w := with_producers [sample_row 11%N "a" 7%N true 100 false;
                           sample_row 13%N "c" 8%N true 102 false] in
  let w1 := fst (KillProducers (mkKillProducersEnv None None) 7%N w) in
  snd (destroyProducerDirect sample_unicode_ToLower sample_destroy_env
         (mkDestroyProducerRequest "orders" "a") w1)
  = inl "Producer does not exist"
  /\ map Producer.IsDeleted (producers_of w1) = [false; false].
Proof.
  intros w w1.
  destruct (destroyProducerDirect_after_KillProducers_not_found
              sample_unicode_ToLower (mkKillProducersEnv None None)
              sample_destroy_env 7%N (mkDestroyProducerRequest "orders" "a")
              w true sample_station eq_refl eq_refl eq_refl eq_refl)
    as (H1 & _ & H2).
  - intros p [<-|[<-|[]]] Hn _; [reflexivity|discriminate Hn].
  - split; [exact H1|exact H2].
Defined.

Lemma KillProducers_again_witness :
  let w := with_producers [sample_row 11%N "a" 7%N true 100 false;
                           sample_row 13%N "c" 8%N true 102 false] in
  let w1 := fst (KillProducers (mkKillProducersEnv None None) 7%N w) in
  producers_of w1 = [sample_row 11%N "a" 7%N false 100 false;
                     sample_row 13%N "c" 8%N true 102 false]
  /\ KillProducers (mkKillProducersEnv None None) 7%N w1 = (w1, inr tt).
Proof.
  intros w w1. split; [reflexivity|].
  exact (proj2 (KillProducers_again_is_a_no_op
                  (mkKillProducersEnv None None) 7%N w eq_refl eq_refl)).
Defined.

Lemma GetAllProducersByStation_witness :
  let env :=
    mkGetAllProducersByStationEnv (fun _ => Ok (true, sample_station)) None in
  GetAllProducersByStation sample_SHOWABLE env "orders" sample_overview_store
  = (200,
     PJ_producers
       (map (lookup_project sample_overview_store)
          (rows_of sample_station sample_overview_store)))
  /\ length (rows_of sample_station sample_overview_store) = 3%nat.
Proof.
  intros env. split; [|reflexivity].
  destruct (GetAllProducersByStation_lists_every_row sample_SHOWABLE
              (insertion_sort newer_row_first)
              (@insertion_sort ExtendedProducer.t)
              insertion_sort_sort_stage_spec insertion_sort_sort_Slice_spec
              env "orders" sample_overview_store) as (_ & _ & H).
  destruct (H sample_station eq_refl) as [_ H2].
  exact (proj1 (H2 eq_refl)).
Defined.

(** ** Schemas: more runs *)

Lemma CreateNewSchema_answer_witness :
  let run :=
    gin (CreateNewSchema sample_SHOWABLE sample_validateName
           sample_ParseFiles sample_unicode_ToLower sample_cns_env
           (sample_cns_body "Order")) empty_world in
  status (snd run) = 200
  /\ schemasCollection (store (fst run)) = [sample_schema].
Proof.
  intros run.
  destruct (CreateNewSchema_answer_means_schema_and_version_1 sample_SHOWABLE
              sample_validateName sample_ParseFiles sample_unicode_ToLower
              sample_cns_env (sample_cns_body "Order") empty_world
              sample_schema eq_refl) as (H1 & _ & _ & _ & H5 & _).
  split; [exact H1|exact H5].
Defined.

Lemma CreateNewVersion_numbers_witness :
  let w := with_schema [sample_version 6%N 1 true] in
  let w' :=
    fst (gin (CreateNewVersion sample_SHOWABLE sample_ParseFiles
                sample_unicode_ToLower sample_cnv_env sample_cnv_body) w) in
  numbered 5%N (versions_of w) 1 /\ numbered 5%N (versions_of w') 2.
Proof.
  intros w w'. split; [reflexivity|].
  assert (V : CreateNewVersion_valid sample_ParseFiles sample_schema
                sample_cnv_body) by (split; reflexivity).
  destruct (CreateNewVersion_numbers_versions_in_a_row sample_SHOWABLE
              sample_ParseFiles sample_unicode_ToLower sample_cnv_env
              sample_cnv_body w sample_schema (User.mk "root")
              (ExtendedSchemaDetails.mk 5%N "orders" "protobuf" [] [] [])
              1%nat eq_refl V eq_refl eq_refl eq_refl eq_refl eq_refl
              eq_refl) as (_ & H & _).
  exact H.
Defined.

(** The driver fails the second write of a rollback: the schema is left
    with no active version. *)
Lemma RollBackVersion_failed_activation_witness :
  let env :=
    mkRollBackVersionEnv (fun _ => Ok (true, sample_schema))
      (fun n _ => Ok (true, sample_version 0%N n false))
      None None (Some "context canceled")
      (fun s => Ok (ExtendedSchemaDetails.mk (Schema.ID s) (Schema.Name s)
                      (Schema.Type_ s) [] [] [])) in
  let w := with_schema [sample_version 6%N 1 false;
                        sample_version 7%N 2 true] in
  let run :=
    gin (RollBackVersion sample_SHOWABLE sample_unicode_ToLower env
           (mkRollBackVersionBody "Orders" 1)) w in
  snd run = abort 500 "context canceled"
  /\ versions_of (fst run) = [sample_version 6%N 1 false;
                              sample_version 7%N 2 false]
  /\ none_active 5%N (versions_of (fst run)).
Proof.
  intros env w run.
  destruct (RollBackVersion_failed_activation_leaves_none_active
              sample_SHOWABLE sample_unicode_ToLower env
              (mkRollBackVersionBody "Orders" 1) w sample_schema
              (sample_version 0%N 1 false) "context canceled"
              eq_refl eq_refl eq_refl eq_refl eq_refl eq_refl)
    as (H1 & H2 & _).
  split; [exact H1|]. split; [reflexivity|exact H2].
Defined.

Lemma getActiveVersionBySchemaId_witness :
  let w := with_schema [sample_version 6%N 1 false;
                        sample_version 7%N 2 true] in
  let s' :=
    store (fst (gin (RollBackVersion sample_SHOWABLE sample_unicode_ToLower
                       sample_rbv_env (mkRollBackVersionBody "Orders" 1))
                  w)) in
  getActiveVersionBySchemaId None 5%N (store w)
  = Ok (sample_version 7%N 2 true)
  /\ exists t, getActiveVersionBySchemaId None 5%N s' = Ok t
               /\ SchemaVersion.VersionNumber t = 1.
Proof.
  intros w s'. split; [reflexivity|].
  destruct (getActiveVersionBySchemaId_after_RollBackVersion
              sample_SHOWABLE sample_unicode_ToLower sample_rbv_env
              (mkRollBackVersionBody "Orders" 1) w sample_schema
              (sample_version 0%N 1 false)
              eq_refl eq_refl eq_refl eq_refl eq_refl
              (ex_intro _ (sample_version 6%N 1 false)
                 (conj (or_introl eq_refl) eq_refl))) as [H _].
  destruct (H eq_refl) as (t & H1 & H2 & _).
  exists t. split; [exact H1|exact H2].
Defined.

(** Two stations use the schema, one of them deleted; the request names the
    schema and a name that is not stored. *)
Lemma RemoveSchema_witness :
  let env :=
    mkRemoveSchemaEnv
      (fun name => if (name =? "orders")%string
                   then Ok (true, sample_schema)
                   else Ok (false, Schema.zero))
      (fun _ => None) None None in
  let stations :=
    [mkStationDoc sample_station (Some (mkSchemaDetails "orders" 1));
     mkStationDoc (Station.mk 4%N "old" 2%N true)
       (Some (mkSchemaDetails "orders" 1))] in
  let run :=
    RemoveSchema sample_unicode_ToLower env ["Orders"; "missing"] stations
      (store (with_schema [sample_version 6%N 1 true])) in
  snd run = (200, RS_empty)
  /\ fst run
     = ([mkStationDoc sample_station None;
         mkStationDoc (Station.mk 4%N "old" 2%N true) None],
        empty_store).
Proof.
  intros env stations run. split; [|reflexivity].
  refine (proj1 (RemoveSchema_removes_schema_versions_and_bindings
                   sample_unicode_ToLower env ["Orders"; "missing"] stations
                   (store (with_schema [sample_version 6%N 1 true]))
                   _ (fun _ => eq_refl) eq_refl eq_refl)).
  intros name [<-|[<-|[]]]; eexists; reflexivity.
Defined.

(** The driver fails the deletion of the schemas: the versions are gone,
    the schema is still stored. *)
Lemma RemoveSchema_failure_witness :
  let env :=
    mkRemoveSchemaEnv (fun _ => Ok (true, sample_schema)) (fun _ => None)
      None (Some "context canceled") in
  let s := store (with_schema [sample_version 6%N 1 true]) in
  let run := RemoveSchema sample_unicode_ToLower env ["orders"] [] s in
  snd run = (500, RS_message "Server error")
  /\ schemasCollection (snd (fst run)) = [sample_schema]
  /\ schemaVersionCollection (snd (fst run)) = [].
Proof.
  intros env s run.
  destruct (RemoveSchema_failure_deletes_no_schema sample_unicode_ToLower
              env ["orders"] [] s) as (H1 & H2 & _).
  - discriminate.
  - split; [exact H1|]. split; [exact H2|reflexivity].
Defined.

Lemma GetAllSchemasDetails_witness :
  let env :=
    mkGetAllSchemasEnv None (fun l => l) (fun _ => None)
      (fun _ _ => Ok []) in
  let s := store (with_schema [sample_version 6%N 1 false;
                               sample_version 7%N 2 true]) in
  GetAllSchemasDetails env [] s
  = Ok [mkExtendedSchema 5%N "orders" "protobuf" "root" 100 2 false []]
  /\ GetAllSchemasDetails env []
       (store (with_schema [sample_version 6%N 1 false;
                            sample_version 7%N 2 false]))
     = Ok []
  /\ length (schemas_Aggregate s) = 1%nat.
Proof.
  intros env s. split; [reflexivity|]. split; [reflexivity|].
  destruct (GetAllSchemasDetails_lists_schemas_with_an_active_version
              env [] s
              [mkExtendedSchema 5%N "orders" "protobuf" "root" 100 2 false []]
              (fun l => Permutation_refl l) eq_refl) as (_ & _ & H).
  symmetry. exact H.
Defined.

Lemma GetSchemaDetails_witness :
  let env :=
    mkSchemaDetailsEnv None None None (fun l => l) None (fun _ => Ok [])
      None in
  let stations :=
    [mkStationDoc sample_station (Some (mkSchemaDetails "orders" 1));
     mkStationDoc (Station.mk 4%N "old" 2%N true)
       (Some (mkSchemaDetails "orders" 1))] in
  let s := store (with_schema [sample_version 6%N 1 true]) in
  let d :=
    ExtendedSchemaDetails.mk 5%N "orders" "protobuf"
      [sample_version 6%N 1 true] ["orders"] [] in
  GetSchemaDetails sample_SHOWABLE sample_unicode_ToLower
    (fun _ => Ok (true, sample_schema)) env "Orders" stations s
  = mkResponse 200 (JSON_ExtendedSchemaDetails d)
  /\ exists schema,
       find (named "orders") (schemasCollection s) = Some schema
       /\ ExtendedSchemaDetails.ID d = Schema.ID schema.
Proof.
  intros env stations s d. split; [reflexivity|].
  destruct (GetSchemaDetails_answers_for_the_stored_schema sample_SHOWABLE
              sample_unicode_ToLower (fun _ => Ok (true, sample_schema)) env
              "Orders" stations s d (fun l => Permutation_refl l) eq_refl)
    as (schema & H1 & H2 & _).
  exists schema. split; [exact H1|exact H2].
Defined.

(** ** Process usage and the ticker: runs *)

Lemma init_pageshift_witness :
  init 4096 = Some 12
  /\ exists k, init 4096 = Some k /\ 2 ^ k <= 4096 < 2 ^ (k + 1).
Proof.
  split; [reflexivity|].
  destruct (init_pageshift_is_log2 4096) as (k & H1 & _ & _ & H2 & _).
  - unfold int_max. lia.
  - exists k. split; [exact H1|]. apply H2. lia.
Defined.

Lemma ProcUsage_witness :
  ProcUsage 12 (Ok (repeat Byte.x00 311)) (mkUsage 7 8 9) = Panics
  /\ ProcUsage 12 (Ok (repeat Byte.x01 312)) (mkUsage 7 8 9)
     = Returns None (mkUsage 16843009 269488128 16843009)
  /\ ProcUsage 12 (Err "operation not permitted") (mkUsage 7 8 9)
     = Returns (Some "operation not permitted") (mkUsage 7 8 9).
Proof.
  destruct (ProcUsage_reports_sizes_modulo_2_32 12 (repeat Byte.x00 311)
              (mkUsage 7 8 9)) as (H1 & H2 & _); [lia|].
  split; [|split; [vm_compute; reflexivity|apply H1]].
  apply H2. rewrite repeat_length. lia.
Defined.

Lemma tick_room_witness :
  let env :=
    mkTickEnv sample_overview_env (fun _ : string => (tt, None))
      (fun _ => 1) in
  tick_room sample_unicode_ToLower env "station_overview_group_orders"
  = Some [BroadcastToRoom_station "station_overview_group_orders"
            "station_overview_data" stationOverviewData_zero].
Proof.
  intros env.
  exact (proj1 (tick_room_refreshes_the_station_registered
                  sample_unicode_ToLower unit unit unit env "orders"
                  eq_refl) eq_refl).
Defined.

(** ** Round trips *)

Lemma createProducerDirect_then_destroyProducerDirect_witness :
  let cpr :=
    mkCreateProducerRequest "Orders_1" "orders" "000000000000000000000007"
      "application" in
  let w1 :=
    fst (createProducerDirect sample_unicode_ToLower
           (sample_create_env 11%N 100) cpr empty_world) in
  let dpr := mkDestroyProducerRequest "orders" "Orders_1" in
  let w2 :=
    fst (destroyProducerDirect sample_unicode_ToLower sample_destroy_env dpr
           w1) in
  snd (destroyProducerDirect sample_unicode_ToLower sample_destroy_env dpr w1)
  = inr tt
  /\ producers_of w2 = [sample_row 11%N "orders_1" 7%N false 100 true]
  /\ snd (destroyProducerDirect sample_unicode_ToLower sample_destroy_env
            dpr w2)
     = inl "Producer does not exist".
Proof.
  intros cpr w1 dpr w2.
  destruct (createProducerDirect_then_destroyProducerDirect
              sample_unicode_ToLower (sample_create_env 11%N 100) cpr
              sample_destroy_env dpr empty_world true sample_station
              (sample_row 11%N "orders_1" 7%N true 100 false)
              eq_refl eq_refl eq_refl eq_refl eq_refl eq_refl) as [H1 H2].
  destruct (H2 eq_refl) as [H3 H4].
  split; [exact H1|]. split; [exact H3|exact H4].
Defined.

Lemma CreateNewSchema_then_GetAllSchemasDetails_witness :
  let env :=
    mkGetAllSchemasEnv None (fun l => l) (fun _ => None)
      (fun _ _ => Ok []) in
  let w' :=
    fst (gin (CreateNewSchema sample_SHOWABLE sample_validateName
                sample_ParseFiles sample_unicode_ToLower sample_cns_env
                (sample_cns_body "Order")) empty_world) in
  GetAllSchemasDetails env [] (store w')
  = Ok [mkExtendedSchema 5%N "orders" "protobuf" "root" 100 1 false []]
  /\ exists row,
       In row [mkExtendedSchema 5%N "orders" "protobuf" "root" 100 1 false []]
       /\ es_ID row = 5%N
       /\ es_ActiveVersionNumber row = 1.
Proof.
  intros env w'. split; [reflexivity|].
  destruct (CreateNewSchema_then_GetAllSchemasDetails sample_SHOWABLE
              sample_validateName sample_ParseFiles sample_unicode_ToLower
              sample_cns_env (sample_cns_body "Order") empty_world
              sample_schema env []
              [mkExtendedSchema 5%N "orders" "protobuf" "root" 100 1 false []]
              eq_refl (fun l => Permutation_refl l) eq_refl)
    as (row & Hr & H1 & _ & _ & _ & H5).
  exists row. split; [exact Hr|]. split; [exact H1|exact H5].
Defined.

Lemma RemoveSchema_then_GetAllSchemasDetails_witness :
  let envR :=
    mkRemoveSchemaEnv
      (fun name => if (name =? "orders")%string
                   then Ok (true, sample_schema)
                   else Ok (false, Schema.zero))
      (fun _ => None) None None in
  let envL :=
    mkGetAllSchemasEnv None (fun l => l) (fun _ => None)
      (fun _ _ => Ok []) in
  let s :=
    mkStore [] [] [] [] [sample_schema; Schema.mk 8%N "bills" "protobuf"]
      [sample_version 6%N 1 true;
       SchemaVersion.mk 9%N 1 true "root" 120 sample_proto 8%N "Bill"] in
  let run := RemoveSchema sample_unicode_ToLower envR ["Orders"] [] s in
  GetAllSchemasDetails envL (fst (fst run)) (snd (fst run))
  = Ok [mkExtendedSchema 8%N "bills" "protobuf" "root" 120 1 false []]
  /\ forall row,
       In row [mkExtendedSchema 8%N "bills" "protobuf" "root" 120 1 false []] ->
       es_ID row <> 5%N.
Proof.
  intros envR envL s run. split; [reflexivity|].
  intros row Hr.
  refine (RemoveSchema_then_GetAllSchemasDetails sample_unicode_ToLower envR
            ["Orders"] [] s envL
            [mkExtendedSchema 8%N "bills" "protobuf" "root" 120 1 false []]
            _ (fun _ => eq_refl) eq_refl eq_refl
            (fun l => Permutation_refl l) eq_refl row sample_schema Hr _).
  - intros name [<-|[]]. eexists. reflexivity.
  - exists "Orders". split; [now left|reflexivity].
Defined.

